(** * Football match prediction: the prediction reconciliation engine

    A shallow embedding of [predictor/analytics.py]: the decision table of
    [determine_final_prediction], the head-to-head tally of
    [calculate_probabilities_original] / [calculate_probabilities_model2],
    the recent-form calculators, the weighted form strength of
    [ProfessionalFootballAnalytics.calculate_team_strength], the
    recent-form features of the feature builder and the orchestration of
    [advanced_predict_match]; with them [smart_prediction_logic] of
    [fastapi_predictor.py] and [clean_team_name] of [predictor/views.py].

    Conventions.
    - A Python [float] is an exact rational ([Q]) or one of nan / inf / -inf;
      comparisons are the boolean ones of [QArith].  Rounding is not
      modelled; [float()] of an int beyond the binary64 range raises.
    - A Python [dict] is an association list in insertion order with unique
      keys: iteration order decides [max(d, key=d.get)] on ties.
    - A [try: ... except Exception] block is an [option] whose [None] branch
      is the body of the handler.
    - [pd.to_datetime] reads a whole column at once.
    - Logging and timing have no effect on results and are left out. *)

From Stdlib Require Import QArith Qabs Lqa ZArith Lia List Bool Ascii String.
From Stdlib Require Import DecimalString.
From stdpp Require Import gmap strings.
Import ListNotations.

#[local] Open Scope string_scope.
#[local] Open Scope Q_scope.

(** ** Python values *)

Module Py.

(** Boolean comparisons on floats. *)
Definition Qleb (x y : Q) : bool := Qle_bool x y.
Definition Qltb (x y : Q) : bool := negb (Qle_bool y x).
Definition Qeqb (x y : Q) : bool := Qeq_bool x y.

(** The result of [float(x)]. *)
Inductive pyfloat :=
| Fin (q : Q)
| Nan
| Inf (negative : bool).

(** What a model's [predict] hands to the engine: a class index, a
    regression value, a class label, or nothing. *)
Inductive pyval :=
| PyInt (z : Z)
| PyFloat (x : pyfloat)
| PyStr (s : string)
| PyNone.

(** A class label of a classifier ([model.classes_]). *)
Inductive label :=
| LInt (z : Z)
| LStr (s : string).

Definition label_eqb (a b : label) : bool :=
  match a, b with
  | LInt x, LInt y => Z.eqb x y
  | LStr x, LStr y => String.eqb x y
  | _, _ => false
  end.

Definition label_to_pyval (l : label) : pyval :=
  match l with
  | LInt z => PyInt z
  | LStr s => PyStr s
  end.

(** [str(z)] *)
Definition str_of_Z (z : Z) : string := NilZero.string_of_int (Z.to_int z).

(** [str(l)] *)
Definition label_str (l : label) : string :=
  match l with
  | LInt z => str_of_Z z
  | LStr s => s
  end.

(** A dict in insertion order. *)
Definition dict (K V : Type) := list (K * V).

Definition values {K V} (d : dict K V) : list V := map snd d.
Definition keys {K V} (d : dict K V) : list K := map fst d.

(** [x in l] for a list of strings. *)
Definition str_in (x : string) (l : list string) : bool :=
  existsb (String.eqb x) l.

Section Dict.
Context {K V : Type} (eqb : K -> K -> bool).

(** [d.get(k, default)] *)
Fixpoint get (d : dict K V) (k : K) (default : V) : V :=
  match d with
  | [] => default
  | (k', v) :: d' => if eqb k k' then v else get d' k default
  end.

(** [k in d] *)
Definition mem (d : dict K V) (k : K) : bool := existsb (fun kv => eqb k (fst kv)) d.

(** [d[k] = v]: an existing key keeps its position, a new one goes last. *)
Fixpoint set (d : dict K V) (k : K) (v : V) : dict K V :=
  match d with
  | [] => [(k, v)]
  | (k', v') :: d' => if eqb k k' then (k', v) :: d' else (k', v') :: set d' k v
  end.

(** [dict(zip(ks, vs))] *)
Definition of_zip (ks : list K) (vs : list V) : dict K V :=
  fold_left (fun d kv => set d (fst kv) (snd kv)) (combine ks vs) [].

End Dict.

(** [{k: f(v) for k, v in d.items()}] *)
Definition map_values {K V W} (f : V -> W) (d : dict K V) : dict K W :=
  map (fun kv => (fst kv, f (snd kv))) d.

(** [max(xs)] / [min(xs)] on a non-empty list of floats. *)
Definition Qmax_list (x : Q) (xs : list Q) : Q :=
  fold_left (fun m v => if Qltb m v then v else m) xs x.

Definition Qmin_list (x : Q) (xs : list Q) : Q :=
  fold_left (fun m v => if Qltb v m then v else m) xs x.

(** [sum(xs)] *)
Definition Qsum (xs : list Q) : Q := fold_left Qplus xs 0.

(** [max(d, key=d.get)]: the first key whose value is maximal. *)
Fixpoint argmax_from {K} (best : K) (best_v : Q) (d : dict K Q) : K :=
  match d with
  | [] => best
  | (k, v) :: d' => if Qltb best_v v then argmax_from k v d' else argmax_from best best_v d'
  end.

Definition argmax_key {K} (d : dict K Q) : option K :=
  match d with
  | [] => None
  | (k, v) :: d' => Some (argmax_from k v d')
  end.

(** [proba.argmax()]: the index of the first maximum. *)
Fixpoint argmax_index_from (best : nat) (best_v : Q) (i : nat) (xs : list Q) : nat :=
  match xs with
  | [] => best
  | v :: xs' =>
      if Qltb best_v v then argmax_index_from i v (S i) xs'
      else argmax_index_from best best_v (S i) xs'
  end.

Definition argmax_index (xs : list Q) : option nat :=
  match xs with
  | [] => None
  | v :: xs' => Some (argmax_index_from 0 v 1 xs')
  end.

End Py.
Import Py.

Definition HOME : string := "Home Team Win".
Definition DRAW : string := "Draw".
Definition AWAY : string := "Away Team Win".
Definition INVALID : string := "❗ Invalid prediction".

(** The historical triple as the probability calculators build it. *)
Definition triple (h d a : Q) : dict string Q :=
  [(HOME, h); (DRAW, d); (AWAY, a)].

(** ** String operations used on team names and labels (ASCII) *)

Module Str.

(** [c.isspace()] on ASCII *)
Definition is_space (c : ascii) : bool :=
  let n := nat_of_ascii c in
  Nat.eqb n 32 || (Nat.leb 9 n && Nat.leb n 13) || (Nat.leb 28 n && Nat.leb n 31).

Fixpoint lstrip (s : string) : string :=
  match s with
  | String c s' => if is_space c then lstrip s' else s
  | EmptyString => EmptyString
  end.

Fixpoint rstrip (s : string) : string :=
  match s with
  | EmptyString => EmptyString
  | String c s' =>
      match rstrip s' with
      | EmptyString => if is_space c then EmptyString else String c EmptyString
      | r => String c r
      end
  end.

(** [s.strip()] *)
Definition strip (s : string) : string := rstrip (lstrip s).

Definition lower_ascii (c : ascii) : ascii :=
  let n := nat_of_ascii c in
  if Nat.leb 65 n && Nat.leb n 90 then ascii_of_nat (n + 32) else c.

Definition upper_ascii (c : ascii) : ascii :=
  let n := nat_of_ascii c in
  if Nat.leb 97 n && Nat.leb n 122 then ascii_of_nat (n - 32) else c.

Fixpoint map_chars (f : ascii -> ascii) (s : string) : string :=
  match s with
  | EmptyString => EmptyString
  | String c s' => String (f c) (map_chars f s')
  end.

(** [s.lower()], [s.upper()] *)
Definition lower (s : string) : string := map_chars lower_ascii s.
Definition upper (s : string) : string := map_chars upper_ascii s.

(** [s.startswith(p)] *)
Definition startswith (p s : string) : bool := String.prefix p s.

(** [sub in s] *)
Fixpoint contains (sub s : string) : bool :=
  String.prefix sub s ||
  match s with
  | EmptyString => false
  | String _ s' => contains sub s'
  end.

(** [s[n:]] *)
Fixpoint drop (n : nat) (s : string) : string :=
  match n, s with
  | O, _ => s
  | S n', String _ s' => drop n' s'
  | S _, EmptyString => EmptyString
  end.

(** [s.replace(old, "")] for a non-empty [old]: occurrences are removed
    left to right, without overlap.  [fuel] bounds the scan by the length. *)
Fixpoint remove_all_fuel (fuel : nat) (old s : string) : string :=
  match fuel with
  | O => s
  | S fuel' =>
      match s with
      | EmptyString => EmptyString
      | String c s' =>
          if String.prefix old s
          then remove_all_fuel fuel' old (drop (String.length old) s)
          else String c (remove_all_fuel fuel' old s')
      end
  end.

Definition remove_all (old s : string) : string :=
  remove_all_fuel (String.length s) old s.

End Str.

(** Readers for plain literals, to run the engine on concrete inputs:
    decimal numbers (optional sign, digits, optional fraction) and columns
    of dates written [YYYY-MM-DD] or with slashes. *)
Module Literal.

Definition digit_of (c : ascii) : option Z :=
  let n := Z.of_nat (nat_of_ascii c) in
  if (48 <=? n)%Z && (n <=? 57)%Z then Some (n - 48)%Z else None.

Fixpoint digits (s : string) (acc : Z) (count : nat) : Z * nat * string :=
  match s with
  | EmptyString => (acc, count, EmptyString)
  | String c s' =>
      match digit_of c with
      | Some d => digits s' (10 * acc + d)%Z (S count)
      | None => (acc, count, s)
      end
  end.

Definition unsigned (s : string) : option Q :=
  match digits s 0%Z 0%nat with
  | (ip, n, EmptyString) => if Nat.eqb n 0 then None else Some (inject_Z ip)
  | (ip, n, String "." rest) =>
      match digits rest 0%Z 0%nat with
      | (fp, m, EmptyString) =>
          if Nat.eqb (n + m) 0 then None
          else Some (inject_Z ip + inject_Z fp / inject_Z (10 ^ Z.of_nat m))
      | _ => None
      end
  | _ => None
  end.

Definition float_of_str (s : string) : option pyfloat :=
  match Str.strip s with
  | String "-" s' => option_map (fun q => Fin (- q)) (unsigned s')
  | String "+" s' => option_map Fin (unsigned s')
  | s' => option_map Fin (unsigned s')
  end.

Definition int_of_str (s : string) : option Z :=
  let body (t : string) : option Z :=
    match digits t 0%Z 0%nat with
    | (z, n, EmptyString) => if Nat.eqb n 0 then None else Some z
    | _ => None
    end in
  match Str.strip s with
  | String "-" s' => option_map Z.opp (body s')
  | String "+" s' => body s'
  | s' => body s'
  end.

(** A date as the number [10000*y + 100*m + d], which orders like the date. *)
Definition day_number (y m d : Z) : Z := (10000 * y + 100 * m + d)%Z.

Definition three_fields (sep : ascii) (s : string) : option (Z * nat * Z * nat * Z * nat) :=
  match digits s 0%Z 0%nat with
  | (a, na, String c1 r1) =>
      if Ascii.eqb c1 sep then
        match digits r1 0%Z 0%nat with
        | (b, nb, String c2 r2) =>
            if Ascii.eqb c2 sep then
              match digits r2 0%Z 0%nat with
              | (c, nc, EmptyString) => Some (a, na, b, nb, c, nc)
              | _ => None
              end
            else None
        | _ => None
        end
      else None
  | _ => None
  end.

(** The formats of the sample tables. *)
Inductive date_format := ISO | DMY | MDY.

(** One cell under a format: [YYYY-MM-DD], [DD/MM/YYYY] or [MM/DD/YYYY]. *)
Definition read_date (f : date_format) (s : string) : option Z :=
  match f with
  | ISO =>
      match three_fields "-" s with
      | Some (y, ny, m, nm, d, nd) =>
          if Nat.eqb ny 4 && Nat.eqb nm 2 && Nat.eqb nd 2 then Some (day_number y m d) else None
      | None => None
      end
  | DMY =>
      match three_fields "/" s with
      | Some (d, nd, m, nm, y, ny) =>
          if Nat.eqb ny 4 && Nat.eqb nm 2 && Nat.eqb nd 2 then Some (day_number y m d) else None
      | None => None
      end
  | MDY =>
      match three_fields "/" s with
      | Some (m, nm, d, nd, y, ny) =>
          if Nat.eqb ny 4 && Nat.eqb nm 2 && Nat.eqb nd 2 then Some (day_number y m d) else None
      | None => None
      end
  end.

(** The format of a cell: a slash date is day-first when [dayfirst] is set
    or its first field cannot be a month. *)
Definition guess_format (dayfirst : bool) (s : string) : option date_format :=
  match read_date ISO s with
  | Some _ => Some ISO
  | None =>
      match three_fields "/" s with
      | Some (a, _, _, _, _, _) =>
          match read_date DMY s with
          | Some _ => if dayfirst || (12 <? a)%Z then Some DMY else Some MDY
          | None => None
          end
      | None => None
      end
  end.

(** [pd.to_datetime(column, dayfirst=..., errors="coerce")] on a column of
    such literals: the format is guessed from the first cell and applied to
    every cell, so a cell written in another format is NaT.  A first cell
    in none of the formats leaves the column unread. *)
Definition to_datetime (dayfirst : bool) (column : list string) : list (option Z) :=
  match column with
  | [] => []
  | first :: _ =>
      match guess_format dayfirst first with
      | Some f => map (read_date f) column
      | None => map (fun _ => None) column
      end
  end.

End Literal.

(** ** Historical tables *)

Inductive version := V1 | V2.

Definition version_eqb (a b : version) : bool :=
  match a, b with
  | V1, V1 | V2, V2 => true
  | _, _ => false
  end.

(** [get_column_names]: the column names of each schema. *)
Definition get_column_names (v : version) : string * string * string :=
  match v with
  | V2 => ("Home", "Away", "Res")
  | V1 => ("HomeTeam", "AwayTeam", "FTR")
  end.

(** A cell of the result column: a letter, a number, or missing. *)
Inductive cell :=
| CStr (s : string)
| CNum (q : Q)
| CNaN.

(** [value == "H"] and the like *)
Definition cell_is_str (c : cell) (s : string) : bool :=
  match c with
  | CStr s' => String.eqb s' s
  | _ => false
  end.

(** [value == 2] and the like *)
Definition cell_is_num (c : cell) (z : Z) : bool :=
  match c with
  | CNum q => Qeqb q (inject_Z z)
  | _ => false
  end.

(** [isinstance(sample_value, (int, float, np.integer, np.floating))];
    a missing value is a float nan. *)
Definition cell_is_numeric (c : cell) : bool :=
  match c with
  | CStr _ => false
  | CNum _ | CNaN => true
  end.

(** One fixture row.  Team cells hold strings ([astype(str)] is the identity
    on them); the date cell is the raw text. *)
Record Match := {
  home_team : string;
  away_team : string;
  result : cell;
  date : string;
}.

(** A DataFrame as the engine reads it.  [schema] tells which complete
    triple of team/result columns is present ([Home,Away,Res] for [V2],
    [HomeTeam,AwayTeam,FTR] for [V1]); [other_columns] counts the remaining
    columns (match statistics).  [attrs_version] is [data.attrs['version']],
    set by the loader. *)
Record Table := {
  attrs_version : option version;
  schema : option version;
  has_date : bool;
  other_columns : nat;
  rows : list Match;
}.

(** [len(data.columns)] *)
Definition n_columns (T : Table) : nat :=
  ((match schema T with Some _ => 3 | None => 0 end)
   + (if has_date T then 1 else 0) + other_columns T)%nat.

(** [data.empty] *)
Definition empty (T : Table) : bool :=
  Nat.eqb (n_columns T) 0 || Nat.eqb (length (rows T)) 0.

(** The three columns of schema [v] are among [data.columns]. *)
Definition has_schema (T : Table) (v : version) : bool :=
  match schema T with
  | Some v' => version_eqb v v'
  | None => false
  end.


(** The auto-detection of the schema from the columns. *)
Definition detect_version (T : Table) (given : version) : version :=
  if has_schema T V2 then V2
  else if has_schema T V1 then V1
  else given.

(** The mirrored fixture: home and away swapped, the result inverted. *)
Definition invert_result (c : cell) : cell :=
  match c with
  | CStr s => if String.eqb s "H" then CStr "A"
              else if String.eqb s "A" then CStr "H"
              else CStr s
  | CNum q => if Qeqb q 2 then CNum 0
              else if Qeqb q 0 then CNum 2
              else CNum q
  | CNaN => CNaN
  end.

Definition mirror_row (r : Match) : Match :=
  {| home_team := away_team r; away_team := home_team r;
     result := invert_result (result r); date := date r |}.

Definition mirror (T : Table) : Table :=
  {| attrs_version := attrs_version T; schema := schema T; has_date := has_date T;
     other_columns := other_columns T; rows := map mirror_row (rows T) |}.

(** ** Classifiers and results *)

(** A trained model, as far as the engine uses it.  [predict] and the
    function under [predict_proba] return [None] when the call raises (a
    ValueError, as scikit-learn does on malformed input); [predict_proba]
    and [classes_] are [None] when the attribute is absent. *)
Record Model (Features : Type) := {
  is_random_forest_regressor : bool;
  classes_ : option (list label);
  predict : Features -> option pyval;
  predict_proba : option (Features -> option (list Q));
}.
Arguments is_random_forest_regressor {Features}.
Arguments classes_ {Features}.
Arguments predict {Features}.
Arguments predict_proba {Features}.

(** The dict returned by [advanced_predict_match].  Left out: the simulated
    [h2h_probabilities], the per-model copies of [prediction_number] and
    [probabilities], [total_goals_prediction] and [debug_timings].
    [final_prediction] is [None] on the paths whose dict has no such key. *)
Record Result := {
  prediction_number : Z;
  outcome : string;
  probabilities : dict Z Q;
  confidence : Q;
  model_type : string;
  final_prediction : option string;
  historical_probs : option (dict string Q);
}.

(** ** Concrete inputs used to run the engine *)

Module Sample.

Definition fixture (home away res day : string) : Match :=
  {| home_team := home; away_team := away; result := CStr res; date := day |}.

Definition v1_table (rs : list Match) : Table :=
  {| attrs_version := Some V1; schema := Some V1; has_date := true;
     other_columns := 40; rows := rs |}.

(** Dataset 1: European fixtures. *)
Definition european : Table :=
  v1_table [ fixture "Arsenal" "Chelsea" "H" "2024-03-02";
             fixture "Arsenal" "Chelsea" "H" "2023-10-21";
             fixture "Arsenal" "Chelsea" "D" "2023-05-02";
             fixture "Liverpool" "Arsenal" "A" "2024-02-04";
             fixture "Chelsea" "Liverpool" "D" "31/01/2024" ].

(** Dataset 2: Swiss fixtures, stored under the same column names. *)
Definition swiss : Table :=
  v1_table [ fixture "Basel" "Zurich" "H" "2024-04-01";
             fixture "Zurich" "Basel" "D" "2023-11-05" ].

Definition load_football_data (dataset : Z) : Table :=
  if Z.eqb dataset 2 then swiss else european.

(** Dataset 2 under the column names Home / Away / Res, the results coded
    0 = away win, 1 = draw, 2 = home win. *)
Definition swiss_numbers : Table :=
  {| attrs_version := Some V2; schema := Some V2; has_date := true;
     other_columns := 40;
     rows := [ {| home_team := "Basel"; away_team := "Zurich";
                  result := CNum 2; date := "2024-04-01" |};
               {| home_team := "Zurich"; away_team := "Basel";
                  result := CNum 1; date := "2023-11-05" |} ] |}.

Definition load_numbers (dataset : Z) : Table :=
  if Z.eqb dataset 2 then swiss_numbers else european.

Definition main_teams : gset string := {[ "Arsenal"; "Chelsea"; "Liverpool" ]}.
Definition other_teams : gset string := {[ "Basel"; "Zurich" ]}.

(** A stand-in for the digest prefix of a name; the runs below read every
    form from the tables and never reach it. *)
Definition md5_prefix (s : string) : Z := Z.of_nat (String.length s).

(** Feature vectors are opaque to the engine.  The sample builders fail
    where the real ones do: both read the columns HomeTeam / AwayTeam, so
    they yield nothing on a table without them (KeyError, caught);
    [preprocess_for_models] yields nothing on an empty table, and
    [compute_mean_for_teams] nothing when the home team never hosted the
    away team. *)
Definition Features : Type := unit.

Definition preprocess_for_models (home away : string) (m : Model Features) (T : Table)
    : option Features :=
  if empty T then None
  else if has_schema T V1 then Some tt
  else None.

Definition compute_mean_for_teams (home away : string) (T : Table) (m : Model Features)
    (v : version) : option Features :=
  if has_schema T v then
    match List.filter (fun r => String.eqb (Str.strip (home_team r)) (Str.strip home)
                                && String.eqb (Str.strip (away_team r)) (Str.strip away))
                      (rows T) with
    | [] => None
    | _ => Some tt
    end
  else None.

(** A classifier over classes 0/1/2 whose raw prediction is [pred]. *)
Definition classifier (pred : pyval) (proba : list Q) : Model Features :=
  {| is_random_forest_regressor := false;
     classes_ := Some [LInt 0; LInt 1; LInt 2];
     predict := fun _ => Some pred;
     predict_proba := Some (fun _ => Some proba) |}.

(** A table in which TeamX hosts TeamY three times: two wins and a draw. *)
Definition x_hosts_y : Table :=
  v1_table [ fixture "TeamX" "TeamY" "H" "2024-01-10";
             fixture "TeamX" "TeamY" "H" "2023-09-03";
             fixture "TeamX" "TeamY" "D" "2023-02-18" ].

(** Five dated matches of Arsenal: the latest is a win, the four before
    are defeats. *)
Definition latest_is_a_win : Table :=
  v1_table [ fixture "Arsenal" "Chelsea" "A" "2024-01-06";
             fixture "Liverpool" "Arsenal" "H" "2024-01-13";
             fixture "Arsenal" "Liverpool" "A" "2024-01-20";
             fixture "Chelsea" "Arsenal" "H" "2024-01-27";
             fixture "Arsenal" "Chelsea" "H" "2024-02-03" ].

End Sample.

Section Engine.

(** ** [determine_final_prediction] (lines 1105-1190) *)

(** [float(s)] on a string is Python's parser; the engine depends only on
    whether it succeeds and on the number it yields. *)
Variable float_of_str : string -> option pyfloat.

(** The magnitude from which [float(z)] of a Python int raises
    OverflowError: the midpoint between the largest binary64 number,
    [2^1024 - 2^971], and [2^1024] rounds upwards. *)
Definition float_limit : Z := (2 ^ 1024 - 2 ^ 970)%Z.

(** [float(pred)]: [None] stands for the raised TypeError, ValueError or
    OverflowError.  An int below the limit is kept exact: the rounding to
    53 bits changes only ints beyond [2^53] and moves none of them across
    the thresholds of Step 1. *)
Definition py_float (pred : pyval) : option pyfloat :=
  match pred with
  | PyInt z => if (Z.abs z <? float_limit)%Z then Some (Fin (inject_Z z)) else None
  | PyFloat x => Some x
  | PyStr s => float_of_str s
  | PyNone => None
  end.

(** Step 1: class index 0/1/2 or the legacy ranges; [None] is the
    [else: return "Invalid prediction"] branch.  Every comparison with nan
    or an infinity is false. *)
Definition model_outcome_of (pred_val : pyfloat) : option string :=
  match pred_val with
  | Fin v =>
      if Qeqb v 0 then Some AWAY
      else if Qeqb v 1 then Some DRAW
      else if Qeqb v 2 then Some HOME
      else if Qleb 0.5 v && Qleb v 1.4 then Some AWAY
      else if Qleb 1.5 v && Qleb v 2.4 then Some DRAW
      else if Qleb 2.5 v && Qleb v 3.4 then Some HOME
      else None
  | Nan | Inf _ => None
  end.

Definition highest_outcomes_of (probs : dict string Q) (max_prob : Q) : list string :=
  map fst (List.filter (fun kv => Qeqb (snd kv) max_prob) probs).

Definition close_ties_of (probs : dict string Q) (max_prob : Q)
    (highest_outcomes : list string) : list string :=
  map fst (List.filter (fun kv => Qleb (Qabs (snd kv - max_prob)) 5
                             && negb (str_in (fst kv) highest_outcomes)) probs).

(** Step 2 onwards, for a non-empty [probs] dict. *)
Definition decision_table (model_outcome : string) (probs : dict string Q) : string :=
  match values probs with
  | [] => model_outcome
  | v0 :: vs =>
      let max_prob := Qmax_list v0 vs in
      let highest_outcomes := highest_outcomes_of probs max_prob in
      let close_ties := close_ties_of probs max_prob highest_outcomes in
      let all_close_outcomes := (highest_outcomes ++ close_ties)%list in
      (* Case 1 *)
      if Nat.eqb (length highest_outcomes) 1 && Nat.eqb (length close_ties) 0 then
        model_outcome
      (* Case 2 *)
      else if (str_in HOME highest_outcomes && str_in AWAY highest_outcomes)
              || (str_in HOME all_close_outcomes && str_in AWAY all_close_outcomes
                  && Nat.eqb (length all_close_outcomes) 2) then
        if String.eqb model_outcome DRAW then "Home Team Win or Away Team Win"
        else model_outcome
      (* Case 3 *)
      else if (str_in HOME highest_outcomes && str_in DRAW highest_outcomes)
              || (str_in HOME all_close_outcomes && str_in DRAW all_close_outcomes
                  && Nat.eqb (length all_close_outcomes) 2) then
        if String.eqb model_outcome AWAY then "Home Team Win or Draw"
        else if str_in model_outcome highest_outcomes then model_outcome
        else "Home Team Win or Draw"
      (* Case 4 *)
      else if (str_in AWAY highest_outcomes && str_in DRAW highest_outcomes)
              || (str_in AWAY all_close_outcomes && str_in DRAW all_close_outcomes
                  && Nat.eqb (length all_close_outcomes) 2) then
        if String.eqb model_outcome HOME then "Away Team Win or Draw"
        else if str_in model_outcome highest_outcomes then model_outcome
        else "Away Team Win or Draw"
      (* Case 5 *)
      else if Nat.eqb (length highest_outcomes) 3 then model_outcome
      (* Fallback *)
      else model_outcome
  end.

(** [probs] is [None] when the caller passes [None] or something that is
    not a dict; an empty dict is [Some []]. *)
Definition determine_final_prediction (pred : pyval) (probs : option (dict string Q)) : string :=
  match py_float pred with
  | None => HOME                        (* except Exception: return "Home Team Win" *)
  | Some pred_val =>
      match model_outcome_of pred_val with
      | None => INVALID
      | Some model_outcome =>
          match probs with
          | None => model_outcome
          | Some [] => model_outcome
          | Some probs => decision_table model_outcome probs
          end
      end
  end.

(** ** Team form calculators *)

(** [int(hashlib.md5(s.encode()).hexdigest()[:8], 16)] *)
Variable md5_prefix : string -> Z.

(** [pd.to_datetime(column, dayfirst=..., errors="coerce")] on a whole
    column of date texts: one entry per cell, a number that orders like the
    date or [None] for NaT.  pandas may settle on one format for the
    column, so the reading of a cell can depend on the other cells. *)
Variable to_datetime : bool -> list string -> list (option Z).

Definition form_char_of_hash (team_hash : Z) (i : Z) : ascii :=
  let rand_val := ((team_hash + i * 7919) mod 100)%Z in
  if (rand_val <? 40)%Z then "W"%char
  else if (rand_val <? 70)%Z then "D"%char
  else "L"%char.

(** The deterministic synthetic form: five characters from the hash of the
    stripped name. *)
Definition hash_form (team_name : string) : string :=
  let team_hash := md5_prefix (Str.strip team_name) in
  string_of_list_ascii (map (form_char_of_hash team_hash) [0; 1; 2; 3; 4]%Z).

(** A row with its parsed date. *)
Definition dated := (Z * Match)%type.

(** [df.dropna(subset=["Date"])] once the parsed column is assigned: the
    rows whose date was read, in table order. *)
Definition dated_rows (parsed : list (option Z)) (rs : list Match) : list dated :=
  flat_map (fun pr : option Z * Match =>
              match fst pr with
              | Some d => [(d, snd pr)]
              | None => []
              end) (combine parsed rs).

Fixpoint insert_desc (x : dated) (l : list dated) : list dated :=
  match l with
  | [] => [x]
  | y :: l' => if (fst y <? fst x)%Z then x :: y :: l' else y :: insert_desc x l'
  end.

(** [sort_values("Date", ascending=False)]; rows of equal date keep their
    table order. *)
Definition sort_desc (l : list dated) : list dated :=
  fold_left (fun acc x => insert_desc x acc) l [].

(** The W/D/L letter of one row, from the team's side. *)
Definition form_letter (is_home : bool) (res : cell) : ascii :=
  if cell_is_str res "D" then "D"%char
  else if (cell_is_str res "H" && is_home) || (cell_is_str res "A" && negb is_home)
  then "W"%char
  else "L"%char.

(** [get_team_recent_form_model2] (lines 356-396).  Selecting columns the
    table lacks raises KeyError, which the handler turns into ["-----"]. *)
Definition get_team_recent_form_model2 (team_name : string) (data : Table)
    (given : version) : string :=
  let actual_version := detect_version data given in
  if negb (has_date data) then "-----"
  else if negb (has_schema data actual_version) then "-----"
  else
    let df := dated_rows (to_datetime false (map date (rows data))) (rows data) in
    let recent_matches :=
      List.filter (fun dr => String.eqb (home_team (snd dr)) team_name
                        || String.eqb (away_team (snd dr)) team_name) df in
    let recent_matches := firstn 5 (sort_desc recent_matches) in
    let form := map (fun dr => form_letter (String.eqb (home_team (snd dr)) team_name)
                                           (result (snd dr))) recent_matches in
    match form with
    | [] => "-----"
    | _ => string_of_list_ascii form
    end.

(** The name variations tried after the exact match (lines 866-878). *)
Definition team_variations (team_name_clean : string) : list string :=
  let team_name_lower := Str.lower team_name_clean in
  ([team_name_clean; team_name_lower]
   ++ (if Str.startswith "FC " team_name_clean
       then let v := Str.strip (Str.drop 3 team_name_clean) in [v; Str.lower v]
       else [])
   ++ (if Str.contains " FC" team_name_clean
       then let v := Str.strip (Str.remove_all " FC" team_name_clean) in [v; Str.lower v]
       else [])
   ++ (if Str.contains "Club" team_name_clean
       then let v := Str.strip (Str.remove_all "Club" (Str.remove_all "Club " team_name_clean))
            in [v; Str.lower v]
       else []))%list.

(** [df[(df[home_col] == name) | (df[away_col] == name)]] *)
Definition rows_named (name : string) (df : list dated) : list dated :=
  List.filter (fun dr => String.eqb (home_team (snd dr)) name
                    || String.eqb (away_team (snd dr)) name) df.

(** The [for variation in team_variations[1:]] loop, which stops at the
    first variation that finds rows. *)
Fixpoint try_variations (vars : list string) (df : list dated) : list dated :=
  match vars with
  | [] => []
  | v :: vars' =>
      if negb (String.eqb v "") && Nat.ltb 2 (String.length v) then
        match rows_named v df with
        | [] => try_variations vars' df
        | found => found
        end
      else try_variations vars' df
  end.

Fixpoint insert_name (x : string) (l : list string) : list string :=
  match l with
  | [] => [x]
  | y :: l' =>
      if String.eqb x y then l
      else if String.ltb x y then x :: l
      else y :: insert_name x l'
  end.

(** [sorted(set(home names) | set(away names))] *)
Definition all_teams (df : list dated) : list string :=
  fold_left (fun acc dr => insert_name (away_team (snd dr))
                             (insert_name (home_team (snd dr)) acc)) df [].

(** [df[(strip+lower of home == name) | (strip+lower of away == name)]] *)
Definition rows_named_ci (name_lower : string) (df : list dated) : list dated :=
  List.filter (fun dr => String.eqb (Str.lower (Str.strip (home_team (snd dr)))) name_lower
                    || String.eqb (Str.lower (Str.strip (away_team (snd dr)))) name_lower) df.

(** The matching tiers and the similar-name retry (lines 880-927). *)
Definition find_recent_matches (team_name_clean : string) (df : list dated) : list dated :=
  let team_name_lower := Str.lower team_name_clean in
  let exact :=
    List.filter (fun dr => String.eqb (Str.strip (home_team (snd dr))) team_name_clean
                      || String.eqb (Str.strip (away_team (snd dr))) team_name_clean) df in
  let by_variation :=
    match exact with
    | [] => try_variations (tl (team_variations team_name_clean)) df
    | _ => exact
    end in
  let case_insensitive :=
    match by_variation with
    | [] => rows_named_ci team_name_lower df
    | _ => by_variation
    end in
  let partial :=
    match case_insensitive with
    | [] => List.filter (fun dr =>
               Str.contains team_name_lower (Str.lower (home_team (snd dr)))
               || Str.contains team_name_lower (Str.lower (away_team (snd dr)))) df
    | _ => case_insensitive
    end in
  match partial with
  | [] =>
      let similar_teams :=
        List.filter (fun t => Str.contains team_name_lower (Str.lower t)
                         || Str.contains (Str.lower t) team_name_lower) (all_teams df) in
      match similar_teams with
      | [] => []
      | s0 :: _ =>
          match rows_named s0 df with
          | [] => rows_named_ci (Str.lower s0) df
          | found => found
          end
      end
  | _ => partial
  end.

(** [while len(form) < 5: form.append("D")] *)
Definition pad_D (form : list ascii) : list ascii :=
  (form ++ repeat "D"%char (5 - length form))%list.

(** The date texts the first pass left unread ([failed_mask]). *)
Definition failed_dates (first : list (option Z)) (rs : list Match) : list string :=
  flat_map (fun pr : option Z * Match =>
              match fst pr with
              | None => [date (snd pr)]
              | Some _ => []
              end) (combine first rs).

(** [df.loc[failed_mask, "Date"] = ...]: the entries of the second pass
    take the places the first pass left empty, in order. *)
Fixpoint fill_failed (first second : list (option Z)) : list (option Z) :=
  match first with
  | [] => []
  | Some d :: first' => Some d :: fill_failed first' second
  | None :: first' =>
      match second with
      | s :: second' => s :: fill_failed first' second'
      | [] => None :: fill_failed first' []
      end
  end.

(** The day-first pass over the texts that failed, run only
    [if failed_mask.any()]. *)
Definition second_pass (rs : list Match) : list (option Z) :=
  match failed_dates (to_datetime false (map date rs)) rs with
  | [] => []
  | failed => to_datetime true failed
  end.

(** The rows with a date (lines 842-855): the column is parsed as a whole,
    the cells that failed are parsed again day-first as a column of their
    own, and the rows still without a date are dropped. *)
Definition parse_dates (rs : list Match) : list dated :=
  dated_rows (fill_failed (to_datetime false (map date rs)) (second_pass rs)) rs.

(** [get_team_recent_form_original] (lines 771-975).  In this typed model no
    operation of the body raises, so the handler returning ["DDDDD"] is not
    reached. *)
Definition get_team_recent_form_original (team_name : string) (data : Table)
    (given : version) : string :=
  let ver := match attrs_version data with
             | Some v => v
             | None => detect_version data given
             end in
  let team_name_clean := Str.strip team_name in
  if empty data && Nat.eqb (n_columns data) 0 then hash_form team_name
  else if negb (has_schema data ver && has_date data) then hash_form team_name
  else
    match find_recent_matches team_name_clean (parse_dates (rows data)) with
    | [] => hash_form team_name_clean
    | recent_matches =>
        let recent_matches := firstn 5 (sort_desc recent_matches) in
        let form := map (fun dr =>
                      form_letter (String.eqb (home_team (snd dr)) team_name_clean)
                                  (result (snd dr))) recent_matches in
        string_of_list_ascii (firstn 5 (pad_D form))
    end.

(** ** Weighted form strength (lines 2608-2670) *)

(** [load_football_data(dataset)]: the cached table of each dataset. *)
Variable load_football_data : Z -> Table.

(** [form_points.get(result, 1)] *)
Definition form_points (c : ascii) : Q :=
  if Ascii.eqb c "W" then 3
  else if Ascii.eqb c "D" then 1
  else if Ascii.eqb c "L" then 0
  else 1.

Definition weights : list Q := [1.0; 1.2; 1.4; 1.6; 1.8].

(** The loop over [enumerate(form_string[:5])]: the pair
    [(weighted_points, max_weighted_points)]. *)
Fixpoint weighted_loop (i : nat) (cs : list ascii) (acc : Q * Q) : Q * Q :=
  match cs with
  | [] => acc
  | c :: cs' =>
      let weight := nth i weights 1.0 in
      weighted_loop (S i) cs' (fst acc + form_points c * weight, snd acc + 3 * weight)
  end.

(** The strength on the 0-1 scale, before the home/away adjustment. *)
Definition form_strength (form_string : string) : Q :=
  let '(weighted_points, max_weighted_points) :=
    weighted_loop 0 (firstn 5 (list_ascii_of_string form_string)) (0, 0) in
  if Qltb 0 max_weighted_points then weighted_points / max_weighted_points else 0.5.

Definition Qmax2 (x y : Q) : Q := if Qltb x y then y else x.
Definition Qmin2 (x y : Q) : Q := if Qltb y x then y else x.

(** [calculate_team_strength(team_name, home_away)]; [is_home] is
    [home_away == 'home']. *)
Definition calculate_team_strength (team_name : string) (is_home : bool) : Q :=
  let data := load_football_data 1 in
  let form_string :=
    if negb (empty data) then Some (get_team_recent_form_original team_name data V1)
    else None in
  let form_string :=
    match form_string with
    | Some s => if String.eqb s "" || Nat.ltb (String.length s) 5 then hash_form team_name else s
    | None => hash_form team_name
    end in
  if negb (String.eqb form_string "") && Nat.leb 5 (String.length form_string) then
    let s := form_strength form_string in
    let s := if is_home then s + 0.08
             else if Qltb 0.6 s then s - 0.02 else s - 0.05 in
    Qmin2 1.0 (Qmax2 0.0 s)
  else if is_home then 0.6 else 0.5.

(** [get_enhanced_features]: [(home_strength, away_strength)].  Its handler
    is not reached: [calculate_team_strength] catches its own exceptions. *)
Definition get_enhanced_features (home away : string) : Q * Q :=
  (calculate_team_strength home true, calculate_team_strength away false).

(** ** Historical probability engine *)

(** The strength-difference table shared by the no-data fallbacks:
    [(prob_home, prob_draw, prob_away)] on the 0-1 scale. *)
Definition strength_table (strength_diff : Q) : Q * Q * Q :=
  if Qltb (Qabs strength_diff) 0.03 then (0.33, 0.34, 0.33)
  else if Qltb (Qabs strength_diff) 0.08 then
    let '(prob_home, prob_draw, prob_away) :=
      if Qltb 0 strength_diff
      then (0.38 + strength_diff * 2, 0.30, 0.32 - strength_diff * 1.5)
      else (0.32 - Qabs strength_diff * 1.5, 0.30, 0.38 + Qabs strength_diff * 2) in
    let total := prob_home + prob_draw + prob_away in
    (prob_home / total, prob_draw / total, prob_away / total)
  else if Qltb 0.20 strength_diff then (0.58, 0.24, 0.18)
  else if Qltb 0.12 strength_diff then (0.48, 0.30, 0.22)
  else if Qltb 0.08 strength_diff then (0.42, 0.32, 0.26)
  else if Qltb strength_diff (-0.20) then (0.18, 0.24, 0.58)
  else if Qltb strength_diff (-0.12) then (0.22, 0.30, 0.48)
  else if Qltb strength_diff (-0.08) then (0.26, 0.32, 0.42)
  else (0.35, 0.33, 0.32).

(** The coarser table used when the table has no row for the pair. *)
Definition strength_table_no_h2h (strength_diff : Q) : Q * Q * Q :=
  if Qltb (Qabs strength_diff) 0.05 then (0.35, 0.35, 0.30)
  else if Qltb 0.20 strength_diff then (0.55, 0.25, 0.20)
  else if Qltb 0.10 strength_diff then (0.45, 0.30, 0.25)
  else if Qltb strength_diff (-0.20) then (0.20, 0.25, 0.55)
  else if Qltb strength_diff (-0.10) then (0.25, 0.30, 0.45)
  else if Qltb 0 strength_diff then (0.40, 0.32, 0.28)
  else (0.28, 0.32, 0.40).

Definition percent_triple (p : Q * Q * Q) : dict string Q :=
  let '(prob_home, prob_draw, prob_away) := p in
  triple (prob_home * 100) (prob_draw * 100) (prob_away * 100).

(** [(column == value).sum()] *)
Definition count_rows (p : cell -> bool) (rs : list Match) : nat :=
  length (List.filter (fun r => p (result r)) rs).

Definition Qnat (n : nat) : Q := inject_Z (Z.of_nat n).

(** The rows [home]-at-home against [away], names compared stripped. *)
Definition fixtures (home away : string) (rs : list Match) : list Match :=
  List.filter (fun r => String.eqb (Str.strip (home_team r)) (Str.strip home)
                   && String.eqb (Str.strip (away_team r)) (Str.strip away)) rs.

(** [calculate_probabilities_original] (lines 398-646).  No operation of
    the body raises in this typed model, so the outer handler is not
    reached. *)
Definition calculate_probabilities_original (home away : string) (data : Table)
    (ver : version) : dict string Q :=
  let fallback :=
    let '(home_strength, away_strength) := get_enhanced_features home away in
    percent_triple (strength_table (home_strength - away_strength)) in
  if empty data || Nat.eqb (n_columns data) 0 then fallback
  else if negb (has_schema data ver) then fallback
  else
    let h2h_home := fixtures home away (rows data) in
    let h2h_away := fixtures away home (rows data) in
    let h2h := (h2h_home ++ h2h_away)%list in
    match h2h with
    | [] =>
        let '(home_strength, away_strength) := get_enhanced_features home away in
        percent_triple (strength_table_no_h2h (home_strength - away_strength))
    | sample :: _ =>
        let is_numeric := cell_is_numeric (result sample) in
        let is_home_win c := if is_numeric then cell_is_num c 2 else cell_is_str c "H" in
        let is_draw c := if is_numeric then cell_is_num c 1 else cell_is_str c "D" in
        let is_away_win c := if is_numeric then cell_is_num c 0 else cell_is_str c "A" in
        let home_wins := (count_rows is_home_win h2h_home + count_rows is_away_win h2h_away)%nat in
        let draws := (count_rows is_draw h2h_home + count_rows is_draw h2h_away)%nat in
        let away_wins := (count_rows is_away_win h2h_home + count_rows is_home_win h2h_away)%nat in
        let total := length h2h in
        if Nat.ltb 0 total then
          triple (Qnat home_wins / Qnat total * 100)
                 (Qnat draws / Qnat total * 100)
                 (Qnat away_wins / Qnat total * 100)
        else triple 33.3 33.3 33.3
    end.

(** [calculate_probabilities_model2] (lines 183-251): [None] when there is
    no row for the pair, or when the columns are missing (KeyError, caught).
    Names are compared as they are. *)
Definition calculate_probabilities_model2 (home away : string) (data : Table)
    (given : version) : option (dict string Q) :=
  let actual_version := detect_version data given in
  if negb (has_schema data actual_version) then None
  else
    let h2h_dir1 := List.filter (fun r => String.eqb (home_team r) home
                                     && String.eqb (away_team r) away) (rows data) in
    let h2h_dir2 := List.filter (fun r => String.eqb (home_team r) away
                                     && String.eqb (away_team r) home) (rows data) in
    match h2h_dir1, h2h_dir2 with
    | [], [] => None
    | _, _ =>
        let letter s := fun c => cell_is_str c s in
        let home_wins := (count_rows (letter "H") h2h_dir1
                          + count_rows (letter "A") h2h_dir2)%nat in
        let draws := (count_rows (letter "D") h2h_dir1
                      + count_rows (letter "D") h2h_dir2)%nat in
        let away_wins := (count_rows (letter "A") h2h_dir1
                          + count_rows (letter "H") h2h_dir2)%nat in
        let total := (length h2h_dir1 + length h2h_dir2)%nat in
        Some (triple (Qnat home_wins / Qnat total * 100)
                     (Qnat draws / Qnat total * 100)
                     (Qnat away_wins / Qnat total * 100))
    end.

(** ** [advanced_predict_match] (lines 1631-2571): the stages *)

Variable Features : Type.

(** The two sets built from [LEAGUES_BY_CATEGORY] and cached in
    [_team_categories_cache]: European-league teams and the others. *)
Variable main_teams other_teams : gset string.

(** The feature builders; [None] is their own [return None]. *)
Variable preprocess_for_models : string -> string -> Model Features -> Table -> option Features.
Variable compute_mean_for_teams : string -> string -> Table -> Model Features -> version
                                  -> option Features.

(** [int(s)] on a string; [None] stands for the raised ValueError. *)
Variable int_of_str : string -> option Z.

Definition both_in (teams : gset string) (home away : string) : bool :=
  bool_decide (home ∈ teams) && bool_decide (away ∈ teams).

(** Lines 1656-1663. *)
Definition required_dataset (home away : string) : Z :=
  if both_in main_teams home away then 1%Z
  else if both_in other_teams home away then 2%Z
  else 1%Z.

(** [{0: "Away", 1: "Draw", 2: "Home"}.get(prediction, "Draw")] *)
Definition outcome_map (prediction : Z) : string :=
  if Z.eqb prediction 0 then "Away"
  else if Z.eqb prediction 2 then "Home"
  else "Draw".

Definition default_prob_dict : dict Z Q := [(0%Z, 0.33); (1%Z, 0.34); (2%Z, 0.33)].

(** [{0: prob_away, 1: prob_draw, 2: prob_home}] *)
Definition prob_dict_of (prob_home prob_draw prob_away : Q) : dict Z Q :=
  [(0%Z, prob_away); (1%Z, prob_draw); (2%Z, prob_home)].

(** [max(d.values())] of a dict that is not empty. *)
Definition max_value (d : dict Z Q) : Q :=
  match values d with
  | [] => 0
  | v :: vs => Qmax_list v vs
  end.

Definition min_value (d : dict Z Q) : Q :=
  match values d with
  | [] => 0
  | v :: vs => Qmin_list v vs
  end.

(** The class chosen along with the strength table on the no-data path
    (lines 1684-1724). *)
Definition strength_prediction (strength_diff : Q) (p : Q * Q * Q) : Z :=
  let '(prob_home, prob_draw, prob_away) := p in
  if Qltb (Qabs strength_diff) 0.03 then 1%Z
  else if Qltb (Qabs strength_diff) 0.08 then
    if Qltb prob_away prob_home && Qltb prob_draw prob_home then 2%Z
    else if Qltb prob_home prob_away && Qltb prob_draw prob_away then 0%Z
    else 1%Z
  else if Qltb 0.20 strength_diff then 2%Z
  else if Qltb 0.12 strength_diff then 2%Z
  else if Qltb 0.08 strength_diff then 2%Z
  else if Qltb strength_diff (-0.20) then 0%Z
  else if Qltb strength_diff (-0.12) then 0%Z
  else if Qltb strength_diff (-0.08) then 0%Z
  else if Qltb 0 strength_diff then 2%Z else 0%Z.

(** The result built when the dataset is empty (lines 1672-1759). *)
Definition form_based_fallback (home away : string) : Result :=
  let '(home_strength, away_strength) := get_enhanced_features home away in
  let strength_diff := home_strength - away_strength in
  let p := strength_table strength_diff in
  let '(prob_home, prob_draw, prob_away) := p in
  let prediction := strength_prediction strength_diff p in
  let prob_dict := prob_dict_of prob_home prob_draw prob_away in
  {| prediction_number := prediction;
     outcome := outcome_map prediction;
     probabilities := prob_dict;
     confidence := max_value prob_dict;
     model_type := if both_in other_teams home away
                   then "Model2 (Form-Based Fallback)"
                   else "Model1 (Form-Based Fallback)";
     final_prediction := None;
     historical_probs := Some (percent_triple p) |}.

(** The result built when Model 2 failed to load (lines 1791-1843). *)
Definition model2_missing_fallback (home away : string) (data : Table) : Result :=
  let '(home_strength, away_strength) := get_enhanced_features home away in
  let goal_diff := home_strength - away_strength in
  let '(prob_home, prob_draw, prob_away, prediction, outcome) :=
    if Qltb (Qabs goal_diff) 0.1 then (0.3, 0.4, 0.3, 1%Z, "Draw")
    else if Qltb 0.15 goal_diff then (0.5, 0.25, 0.25, 2%Z, "Home")
    else (0.25, 0.25, 0.5, 0%Z, "Away") in
  let prob_dict := prob_dict_of prob_home prob_draw prob_away in
  let confidence := max_value prob_dict in
  let confidence := if Qltb 1.0 confidence then confidence / 100.0 else confidence in
  {| prediction_number := prediction;
     outcome := outcome;
     probabilities := prob_dict;
     confidence := confidence;
     model_type := "Model2 (Fallback)";
     final_prediction := None;
     historical_probs := calculate_probabilities_model2 home away data V2 |}.

(** The result built when no feature vector could be made
    (lines 1907-1962). *)
Definition no_features_fallback (probs : dict string Q) (model_type : string) : Result :=
  let model_type := if String.eqb model_type "Model2" then "Model2 (Fallback)" else model_type in
  let prob_home := get String.eqb probs HOME 40.0 / 100.0 in
  let prob_draw := get String.eqb probs DRAW 30.0 / 100.0 in
  let prob_away := get String.eqb probs AWAY 30.0 / 100.0 in
  let total_prob := prob_home + prob_draw + prob_away in
  let '(prob_home, prob_draw, prob_away) :=
    if Qltb 0 total_prob
    then (prob_home / total_prob, prob_draw / total_prob, prob_away / total_prob)
    else (prob_home, prob_draw, prob_away) in
  let '(prediction, outcome) :=
    if Qltb prob_draw prob_home && Qltb prob_away prob_home then (2%Z, "Home")
    else if Qltb prob_home prob_away && Qltb prob_draw prob_away then (0%Z, "Away")
    else (1%Z, "Draw") in
  let prob_dict := prob_dict_of prob_home prob_draw prob_away in
  {| prediction_number := prediction;
     outcome := outcome;
     probabilities := prob_dict;
     confidence := max_value prob_dict;
     model_type := model_type;
     final_prediction := None;
     historical_probs := Some probs |}.

(** Step 1 of the controller (lines 1967-1979): the raw prediction, with
    the argmax of [predict_proba] or a draw when [predict] raises. *)
Definition raw_prediction (model : Model Features) (input_data : Features) : pyval :=
  match predict model input_data with
  | Some pred => pred
  | None =>
      match predict_proba model with
      | Some proba_of =>
          match proba_of input_data with
          | Some proba =>
              match argmax_index proba with
              | Some i => PyInt (Z.of_nat i)
              | None => PyInt 1
              end
          | None => PyInt 1
          end
      | None => PyInt 1
      end
  end.

(** [predict_with_confidence] (lines 1094-1103): [None] is the triple
    [(None, None, None)] of its handler. *)
Definition predict_with_confidence (model : Model Features) (input_data : Features)
    : option (label * Q * dict label Q) :=
  match predict_proba model with
  | None => None
  | Some proba_of =>
      match proba_of input_data with
      | None => None
      | Some proba =>
          match argmax_index proba, classes_ model with
          | Some pred_idx, Some labels =>
              match nth_error labels pred_idx, nth_error proba pred_idx with
              | Some l, Some p => Some (l, p, of_zip label_eqb labels proba)
              | _, _ => None
              end
          | _, _ => None
          end
      end
  end.

(** [int(key)] on a class label. *)
Definition int_of_label (key : label) : option Z :=
  match key with
  | LInt z => Some z
  | LStr s => int_of_str s
  end.

Definition AWAY_NAMES : list string := ["A"; "AWAY"; "AWAY TEAM WIN"].
Definition DRAW_NAMES : list string := ["D"; "DRAW"].
Definition HOME_NAMES : list string := ["H"; "HOME"; "HOME TEAM WIN"].

(** [class_to_our_format] (lines 2144-2176): class label to 0=Away, 1=Draw,
    2=Home. *)
Definition class_to_our_format (classes : list label) : dict label Z :=
  fold_left (fun m ic =>
    let '(i, class_val) := ic in
    let class_val_str := Str.upper (label_str class_val) in
    if str_in class_val_str ("0" :: AWAY_NAMES) then
      if label_eqb class_val (LInt 0) then set label_eqb m class_val 0%Z
      else if str_in class_val_str AWAY_NAMES then set label_eqb m class_val 0%Z
      else m
    else if str_in class_val_str ("1" :: DRAW_NAMES) then
      if label_eqb class_val (LInt 1) then set label_eqb m class_val 1%Z
      else if str_in class_val_str DRAW_NAMES then set label_eqb m class_val 1%Z
      else m
    else if str_in class_val_str ("2" :: HOME_NAMES) then
      if label_eqb class_val (LInt 2) then set label_eqb m class_val 2%Z
      else if str_in class_val_str HOME_NAMES then set label_eqb m class_val 2%Z
      else m
    else if str_in class_val_str ["3"] then set label_eqb m class_val 2%Z
    else if Nat.eqb (length classes) 3 then
      if Nat.eqb i 0 then set label_eqb m class_val 0%Z
      else if Nat.eqb i 1 then set label_eqb m class_val 1%Z
      else if Nat.eqb i 2 then set label_eqb m class_val 2%Z
      else m
    else m) (combine (seq 0 (length classes)) classes) [].

Definition is_012 (classes : list label) : bool :=
  match classes with
  | [LInt 0; LInt 1; LInt 2] => true
  | _ => false
  end.

(** The model's probabilities under our keys (lines 2180-2221), when the
    model has [classes_]. *)
Definition map_probabilities (classes : list label) (full_conf : dict label Q) : dict Z Q :=
  if is_012 classes then
    fold_left (fun prob_dict kv =>
      match int_of_label (fst kv) with
      | Some key_int =>
          if Z.eqb key_int 0 || Z.eqb key_int 1 || Z.eqb key_int 2
          then set Z.eqb prob_dict key_int (snd kv)
          else prob_dict
      | None => prob_dict
      end) full_conf []
  else
    let mapping := class_to_our_format classes in
    fold_left (fun prob_dict kv =>
      let '(key, value) := kv in
      if mem label_eqb mapping key then set Z.eqb prob_dict (get label_eqb mapping key 0%Z) value
      else
        match int_of_label key with
        | Some key_int =>
            if Z.eqb key_int 0 || Z.eqb key_int 1 || Z.eqb key_int 2
            then set Z.eqb prob_dict key_int value
            else prob_dict
        | None =>
            let key_str := Str.upper (label_str key) in
            if str_in key_str ("0" :: AWAY_NAMES) then set Z.eqb prob_dict 0%Z value
            else if str_in key_str ("1" :: DRAW_NAMES) then set Z.eqb prob_dict 1%Z value
            else if str_in key_str ("2" :: HOME_NAMES) then set Z.eqb prob_dict 2%Z value
            else prob_dict
        end) full_conf [].

(** The direct mapping used when the model has no [classes_]
    (lines 2224-2234). *)
Definition map_probabilities_direct (full_conf : dict label Q) : dict Z Q :=
  fold_left (fun prob_dict kv =>
    let key_str := Str.upper (label_str (fst kv)) in
    if str_in key_str ("0" :: AWAY_NAMES) then set Z.eqb prob_dict 0%Z (snd kv)
    else if str_in key_str ("1" :: DRAW_NAMES) then set Z.eqb prob_dict 1%Z (snd kv)
    else if str_in key_str ("2" :: HOME_NAMES ++ ["3"]) then set Z.eqb prob_dict 2%Z (snd kv)
    else prob_dict) full_conf [].

(** Historical percentages as a probability dict. *)
Definition historical_prob_dict (probs : dict string Q) (default : Q) : dict Z Q :=
  [(0%Z, get String.eqb probs AWAY default / 100.0);
   (1%Z, get String.eqb probs DRAW default / 100.0);
   (2%Z, get String.eqb probs HOME default / 100.0)].

(** Lines 2236-2251: history stands in when no model probability was mapped. *)
Definition fill_if_empty (prob_dict : dict Z Q) (probs : dict string Q) : dict Z Q :=
  match prob_dict with
  | [] => match probs with
          | [] => default_prob_dict
          | _ => historical_prob_dict probs 33.0
          end
  | _ => prob_dict
  end.

Definition scale_by (total : Q) (prob_dict : dict Z Q) : dict Z Q :=
  map_values (fun v => v / total) prob_dict.

(** [if value > 1.0: value / 100.0] on every entry. *)
Definition percent_to_decimal (prob_dict : dict Z Q) : dict Z Q :=
  map_values (fun v => if Qltb 1.0 v then v / 100.0 else v) prob_dict.

(** Step D, lines 2253-2280: normalize, convert values above 1.0 from
    percent, renormalize when off by more than 0.01, reset when still off
    by more than 0.05. *)
Definition normalize_probabilities (prob_dict : dict Z Q) : dict Z Q :=
  let total := Qsum (values prob_dict) in
  let prob_dict := if Qltb 0 total then scale_by total prob_dict else default_prob_dict in
  let prob_dict := percent_to_decimal prob_dict in
  let total := Qsum (values prob_dict) in
  let prob_dict :=
    if Qltb 0 total && Qltb 0.01 (Qabs (total - 1.0)) then scale_by total prob_dict
    else prob_dict in
  let final_total := Qsum (values prob_dict) in
  if Qltb 0.05 (Qabs (final_total - 1.0)) then default_prob_dict else prob_dict.

(** The form-derived triple [(home, draw, away)] of the correction pass;
    [None] is [form_home_prob = None]. *)
Definition form_probabilities (form_diff : Q) : option (Q * Q * Q) :=
  if Qltb form_diff (-0.12) then Some (0.22, 0.30, 0.48)
  else if Qltb form_diff (-0.08) then Some (0.26, 0.32, 0.42)
  else if Qltb 0.12 form_diff then Some (0.48, 0.30, 0.22)
  else if Qltb 0.08 form_diff then Some (0.42, 0.32, 0.26)
  else None.

(** Step E, lines 2284-2329. *)
Definition form_correction (home away : string) (prob_dict : dict Z Q) : dict Z Q :=
  let home_strength := calculate_team_strength home true in
  let away_strength := calculate_team_strength away false in
  let form_diff := home_strength - away_strength in
  if Qltb 0.1 (Qabs form_diff) then
    match form_probabilities form_diff with
    | Some (form_home_prob, form_draw_prob, form_away_prob) =>
        let model_weight := 0.6 in
        let form_weight := 0.4 in
        let prob_dict := set Z.eqb prob_dict 0%Z
              (get Z.eqb prob_dict 0%Z 0.33 * model_weight + form_away_prob * form_weight) in
        let prob_dict := set Z.eqb prob_dict 1%Z
              (get Z.eqb prob_dict 1%Z 0.33 * model_weight + form_draw_prob * form_weight) in
        let prob_dict := set Z.eqb prob_dict 2%Z
              (get Z.eqb prob_dict 2%Z 0.33 * model_weight + form_home_prob * form_weight) in
        let total := Qsum (values prob_dict) in
        if Qltb 0 total then scale_by total prob_dict else prob_dict
    | None => prob_dict
    end
  else prob_dict.

(** Lines 2370-2379: history overrides the model when it spreads over more
    than 10 points. *)
Definition use_historical (probs : dict string Q) : bool :=
  match probs with
  | [] => false
  | _ =>
      let a := get String.eqb probs AWAY 33.3 in
      let d := get String.eqb probs DRAW 33.3 in
      let h := get String.eqb probs HOME 33.3 in
      Qltb 10 (Qmax_list a [d; h] - Qmin_list a [d; h])
  end.

(** Lines 2411-2445: the outcome code read off the decision-table label. *)
Definition outcome_of_final (final : string) (prediction : Z) : string :=
  if Str.contains " or " final then
    if Str.contains "Home Team Win or Draw" final then "Home"
    else if Str.contains "Away Team Win or Draw" final then "Away"
    else if Str.contains "Home Team Win or Away Team Win" final then
      if Z.eqb prediction 0 then "Away" else "Home"
    else if Str.contains "Home Team Win" final then "Home"
    else if Str.contains "Away Team Win" final then "Away"
    else "Draw"
  else if Str.contains "Home Team Win" final || String.eqb (Str.strip final) "Home" then "Home"
  else if Str.contains "Away Team Win" final || String.eqb (Str.strip final) "Away" then "Away"
  else if String.eqb (Str.strip final) "Draw" then "Draw"
  else outcome_map prediction.

(** Lines 2524-2541: the last validation before returning. *)
Definition final_validation (prob_dict : dict Z Q) : dict Z Q :=
  let prob_dict := percent_to_decimal prob_dict in
  let prob_sum := Qsum (values prob_dict) in
  if Qltb 0.05 (Qabs (prob_sum - 1.0)) then
    if Qltb 0 prob_sum then scale_by prob_sum prob_dict else default_prob_dict
  else prob_dict.

(** ** [advanced_predict_match]: the orchestration *)

(** Lines 1964-2565: the controller logic once a feature vector exists.
    The values given to [prediction], [outcome] and [confidence] at lines
    1982-2113 are overwritten at lines 2332-2343, where [prob_dict] is
    never empty, and are not computed here.  [None] is the [return None] of
    the outer handler: [full_conf.items()] on a missing [full_conf], or
    [float(pred)] raising on the regressor path. *)
Definition reconcile (home away : string) (model : Model Features) (model_type : string)
    (is_regressor : bool) (probs : dict string Q) (input_data : Features) : option Result :=
  let pred := raw_prediction model input_data in
  let mapped : option (dict Z Q) :=
    if is_regressor then
      match py_float pred with
      | None => None
      | Some _ => Some (match probs with
                        | [] => default_prob_dict
                        | _ => historical_prob_dict probs 0
                        end)
      end
    else
      match classes_ model, predict_with_confidence model input_data with
      | Some classes, Some (_, _, full_conf) => Some (map_probabilities classes full_conf)
      | Some classes, None => None
      | None, Some (_, _, full_conf) => Some (map_probabilities_direct full_conf)
      | None, None => Some []
      end in
  match mapped with
  | None => None
  | Some prob_dict =>
      let prob_dict := fill_if_empty prob_dict probs in
      let prob_dict := normalize_probabilities prob_dict in
      let prob_dict := form_correction home away prob_dict in
      let prediction := match argmax_key prob_dict with Some k => k | None => 1%Z end in
      let confidence := get Z.eqb prob_dict prediction 0 in
      let '(prob_dict, prediction, confidence, outcome, final) :=
        if use_historical probs then
          let hist_prob_dict := historical_prob_dict probs 33.3 in
          let total_hist := Qsum (values hist_prob_dict) in
          let hist_prob_dict :=
            if Qltb 0 total_hist then scale_by total_hist hist_prob_dict
            else hist_prob_dict in
          let prediction :=
            match argmax_key hist_prob_dict with Some k => k | None => 1%Z end in
          (hist_prob_dict, prediction, get Z.eqb hist_prob_dict prediction 0,
           outcome_map prediction, outcome_map prediction)
        else
          match probs with
          | [] => (prob_dict, prediction, confidence,
                   outcome_map prediction, outcome_map prediction)
          | _ =>
              let final := determine_final_prediction pred (Some probs) in
              let outcome := outcome_of_final final prediction in
              let outcome :=
                if Qleb 0.05 (max_value prob_dict - min_value prob_dict)
                then outcome_map prediction else outcome in
              (prob_dict, prediction, confidence, outcome, final)
          end in
      Some {| prediction_number := prediction;
              outcome := outcome;
              probabilities := final_validation prob_dict;
              confidence := confidence;
              model_type := model_type;
              final_prediction := Some final;
              historical_probs := Some probs |}
  end.

(** Lines 1852-1962: the feature vector and the historical triple of the
    chosen model, then the fallback or the controller logic. *)
Definition predict_with_model (home away : string) (data : Table)
    (model : Model Features) (model_type : string) (is_regressor : bool) : option Result :=
  let is_model2 := String.eqb model_type "Model2" in
  let input_data :=
    if is_model2 then
      match preprocess_for_models home away model data with
      | Some x => Some x
      | None => compute_mean_for_teams home away data model V1
      end
    else compute_mean_for_teams home away data model V1 in
  let '(probs, model_type) :=
    if is_model2 then
      match calculate_probabilities_model2 home away data V2 with
      | Some p => (p, model_type)
      | None => (calculate_probabilities_original home away data V1, "Model2 (Form-based)")
      end
    else (calculate_probabilities_original home away data V1, model_type) in
  match input_data with
  | None => Some (no_features_fallback probs model_type)
  | Some input_data => reconcile home away model model_type is_regressor probs input_data
  end.

(** [advanced_predict_match(home_team, away_team, model1, model2)]; a model
    that failed to load is [None]. *)
Definition advanced_predict_match (home away : string)
    (model1 model2 : option (Model Features)) : option Result :=
  let data := load_football_data (required_dataset home away) in
  if empty data then Some (form_based_fallback home away)
  else if both_in main_teams home away then
    match model1 with
    | Some model => predict_with_model home away data model "Model1" false
    | None => None
    end
  else if both_in other_teams home away then
    match model2 with
    | Some model =>
        let is_regressor :=
          is_random_forest_regressor model
          && match predict_proba model with Some _ => false | None => true end in
        predict_with_model home away data model "Model2" is_regressor
    | None => Some (model2_missing_fallback home away data)
    end
  else None.

(** ** Head-to-head form of a pair (lines 315-353) *)

(** [get_head_to_head_form_model2]: the forms of both teams over their last
    five dated meetings, most recent first.  Without a Date column the pair
    of placeholders is returned at once; selecting columns the table lacks
    raises KeyError, which the handler turns into the same pair. *)
Definition get_head_to_head_form_model2 (home away : string) (data : Table)
    (given : version) : string * string :=
  let actual_version := detect_version data given in
  if negb (has_date data) then ("-----", "-----")
  else if negb (has_schema data actual_version) then ("-----", "-----")
  else
    let df := dated_rows (to_datetime false (map date (rows data))) (rows data) in
    let h2h :=
      List.filter (fun dr => (String.eqb (home_team (snd dr)) home
                              && String.eqb (away_team (snd dr)) away)
                             || (String.eqb (home_team (snd dr)) away
                                 && String.eqb (away_team (snd dr)) home)) df in
    let h2h := firstn 5 (sort_desc h2h) in
    let letter (team : string) (dr : dated) : ascii :=
      let res := result (snd dr) in
      if (String.eqb team (home_team (snd dr)) && cell_is_str res "H")
         || (String.eqb team (away_team (snd dr)) && cell_is_str res "A")
      then "W"%char
      else if cell_is_str res "D" then "D"%char
      else "L"%char in
    (string_of_list_ascii (map (letter home) h2h),
     string_of_list_ascii (map (letter away) h2h)).

(** ** Recent-form features of the feature builder (lines 656-761) *)

(** A row with its full-time goals; a goal column the table lacks is [None]
    and counts as 0. *)
Record ScoredMatch := {
  fixture_of : Match;
  FTHG : option Q;
  FTAG : option Q;
}.

(** [row.get(column, 0) if column in row.index else 0] *)
Definition goals (g : option Q) : Q :=
  match g with
  | Some x => x
  | None => 0
  end.

(** [get_team_result_in_match]: points (3, 1, 0), goals scored and goals
    conceded from the team's side; [None] is [(None, None, None)], the team
    not being in the row.  Names are compared stripped.  The row carries the
    team and result columns of the version asked for. *)
Definition get_team_result_in_match (row : ScoredMatch) (team_name : string)
    : option (Z * Q * Q) :=
  let ftr := result (fixture_of row) in
  if String.eqb (Str.strip (home_team (fixture_of row))) (Str.strip team_name) then
    let goals_scored := goals (FTHG row) in
    let goals_conceded := goals (FTAG row) in
    if cell_is_num ftr 2 || cell_is_str ftr "H" then Some (3%Z, goals_scored, goals_conceded)
    else if cell_is_num ftr 1 || cell_is_str ftr "D" then Some (1%Z, goals_scored, goals_conceded)
    else Some (0%Z, goals_scored, goals_conceded)
  else if String.eqb (Str.strip (away_team (fixture_of row))) (Str.strip team_name) then
    let goals_scored := goals (FTAG row) in
    let goals_conceded := goals (FTHG row) in
    if cell_is_num ftr 0 || cell_is_str ftr "A" then Some (3%Z, goals_scored, goals_conceded)
    else if cell_is_num ftr 1 || cell_is_str ftr "D" then Some (1%Z, goals_scored, goals_conceded)
    else Some (0%Z, goals_scored, goals_conceded)
  else None.

(** The dict returned by [calculate_recent_form_features]. *)
Record FormFeatures := {
  points : Z;
  goals_scored : Q;
  goals_conceded : Q;
  wins : nat;
}.

(** [df.tail(n)] *)
Definition lastn {A} (n : nat) (l : list A) : list A := skipn (length l - n) l.

(** [float(np.mean(xs))] of a list that is not empty. *)
Definition mean (xs : list Q) : Q := Qsum xs / inject_Z (Z.of_nat (length xs)).

(** The rows of [team_matches] in which [get_team_result_in_match] finds
    the team, scored. *)
Definition scored_rows_of (team_name : string) (team_matches : list ScoredMatch)
    : list (Z * Q * Q) :=
  flat_map (fun row => match get_team_result_in_match row team_name with
                       | Some t => [t]
                       | None => []
                       end) team_matches.

(** The last five rows before position [idx] in which the team played,
    names compared stripped and lower-cased. *)
Definition recent_rows (df : list ScoredMatch) (idx : nat) (team_name : string)
    : list ScoredMatch :=
  let team_name_str_lower := Str.lower (Str.strip team_name) in
  lastn 5 (List.filter
             (fun row =>
                String.eqb (Str.lower (Str.strip (home_team (fixture_of row))))
                           team_name_str_lower
                || String.eqb (Str.lower (Str.strip (away_team (fixture_of row))))
                              team_name_str_lower)
             (firstn idx df)).

(** [calculate_recent_form_features(df, idx, team_name)].  [df] is the list
    of rows under the default positional index; [None] is the function's
    [return None]. *)
Definition calculate_recent_form_features (df : list ScoredMatch) (idx : nat)
    (team_name : string) : option FormFeatures :=
  match recent_rows df idx team_name with
  | [] => None
  | team_matches =>
      match scored_rows_of team_name team_matches with
      | [] => None
      | scored_rows =>
          Some {| points := fold_left Z.add (map (fun t => fst (fst t)) scored_rows) 0%Z;
                  goals_scored := mean (map (fun t => snd (fst t)) scored_rows);
                  goals_conceded := mean (map snd scored_rows);
                  wins := length (List.filter (fun t => Z.eqb (fst (fst t)) 3) scored_rows) |}
      end
  end.

(** ** The service's smart prediction logic (fastapi_predictor.py, 171-254) *)

(** The tuple returned by [smart_prediction_logic], without the free-text
    [reasoning]. *)
Record Smart := {
  smart_prediction : string;
  prediction_type : string;
  smart_confidence : Q;
}.

Fixpoint insert_by_value (x : string * Q) (l : list (string * Q)) : list (string * Q) :=
  match l with
  | [] => [x]
  | y :: l' => if Qltb (snd y) (snd x) then x :: y :: l' else y :: insert_by_value x l'
  end.

(** [sorted(probs.items(), key=lambda x: x[1], reverse=True)]: descending,
    equal values in dict order. *)
Definition sorted_desc (d : dict string Q) : list (string * Q) :=
  fold_left (fun acc x => insert_by_value x acc) d [].

(** [probs[key]]; [None] is KeyError. *)
Fixpoint lookup (d : dict string Q) (k : string) : option Q :=
  match d with
  | [] => None
  | (k', v) :: d' => if String.eqb k k' then Some v else lookup d' k
  end.

(** [smart_prediction_logic(model_prediction, prob_home, prob_draw,
    prob_away)]; [None] is the KeyError of [probs[model_prediction]] in
    Rule 2. *)
Definition smart_prediction_logic (model_prediction : string)
    (prob_home prob_draw prob_away : Q) : option Smart :=
  let probs := [("Home", prob_home); ("Draw", prob_draw); ("Away", prob_away)] in
  let max_prob_outcome := match argmax_key probs with Some k => k | None => "Home" end in
  let max_prob := get String.eqb probs max_prob_outcome 0 in
  let sorted_probs := sorted_desc probs in
  let nth_sorted i := nth i sorted_probs ("", 0) in
  (* Rule 1 *)
  if String.eqb model_prediction max_prob_outcome && Qltb 0.40 max_prob then
    Some {| smart_prediction := model_prediction; prediction_type := "Single";
            smart_confidence := max_prob |}
  (* Rule 2 *)
  else if Qltb 0.50 prob_draw && negb (String.eqb model_prediction "Draw") then
    let final_pred := if String.eqb model_prediction "Home" then "1X" else "X2" in
    match lookup probs model_prediction with
    | Some p => Some {| smart_prediction := final_pred; prediction_type := "Double Chance";
                        smart_confidence := (prob_draw + p) / 2 |}
    | None => None
    end
  (* Rule 3 *)
  else if negb (String.eqb model_prediction max_prob_outcome) && Qltb max_prob 0.45 then
    let top_two := [fst (nth_sorted 0%nat); fst (nth_sorted 1%nat)] in
    let final_pred :=
      if str_in "Home" top_two && str_in "Draw" top_two then "1X"
      else if str_in "Draw" top_two && str_in "Away" top_two then "X2"
      else "12" in
    Some {| smart_prediction := final_pred; prediction_type := "Double Chance";
            smart_confidence := (snd (nth_sorted 0%nat) + snd (nth_sorted 1%nat)) / 2 |}
  (* Rule 4 *)
  else if Qltb 0.50 max_prob && negb (String.eqb model_prediction max_prob_outcome) then
    Some {| smart_prediction := max_prob_outcome; prediction_type := "Adjusted";
            smart_confidence := max_prob * 0.8 |}
  (* Rule 5 *)
  else if Qltb (max_prob - snd (nth_sorted 2%nat)) 0.10 then
    Some {| smart_prediction := model_prediction; prediction_type := "Single";
            smart_confidence := max_prob * 0.7 |}
  (* Default *)
  else
    Some {| smart_prediction := model_prediction; prediction_type := "Single";
            smart_confidence := Qmax_list prob_home [prob_draw; prob_away] * 0.85 |}.

(** ** The views' name cleaner (predictor/views.py, 1202-1206) *)

(** [clean_team_name(team_name)] on a string: the empty name is falsy. *)
Definition clean_team_name (team_name : string) : string :=
  if String.eqb team_name "" then "" else Str.strip team_name.

(** ** Predicates used to state properties *)

(** One outcome of a historical triple leads the other two by more than
    five points. *)
Definition clear_winner (h d a : Q) : Prop :=
  (d + 5 < h /\ a + 5 < h) \/ (h + 5 < d /\ a + 5 < d) \/ (h + 5 < a /\ d + 5 < a).

(** A raw prediction outside every bucket of Step 1. *)
Definition outside_buckets (v : Q) : Prop :=
  ~ v == 0 /\ ~ v == 1 /\ ~ v == 2
  /\ ~ (0.5 <= v <= 1.4) /\ ~ (1.5 <= v <= 2.4) /\ ~ (2.5 <= v <= 3.4).

(** A form string: exactly five letters among W, D, L. *)
Definition form_letters (s : string) : Prop :=
  Forall (fun c => c = "W"%char \/ c = "D"%char \/ c = "L"%char) (list_ascii_of_string s).


(** A triple with its Home and Away percentages exchanged. *)
Definition swap_home_away (probs : dict string Q) : dict string Q :=
  triple (get String.eqb probs AWAY 0) (get String.eqb probs DRAW 0)
         (get String.eqb probs HOME 0).

(** Every row of the table is a fixture of [A] at home against [B]. *)
Definition only_fixtures (A B : string) (T : Table) : Prop :=
  Forall (fun r => Str.strip (home_team r) = Str.strip A
                   /\ Str.strip (away_team r) = Str.strip B) (rows T).

(** Every value of the dict is non-negative. *)
Definition nonneg_values {K} (d : dict K Q) : Prop :=
  Forall (fun v => 0 <= v) (values d).

(** The values are non-negative and sum to one. *)
Definition distribution {K} (d : dict K Q) : Prop :=
  Qsum (values d) == 1 /\ nonneg_values d.

(** The closure property asked of a result: the values sum to 1.0 within
    0.01 and each lies in [0, 1]. *)
Definition probability_closure (d : dict Z Q) : Prop :=
  (0.99 <= Qsum (values d) <= 1.01)
  /\ Forall (fun v => 0 <= v <= 1) (values d).

(** Every result cell is one of the letters H, D, A. *)
Definition letter_rows (l : list Match) : Prop :=
  Forall (fun r => result r = CStr "H" \/ result r = CStr "D" \/ result r = CStr "A") l.

Definition letter_coded (T : Table) : Prop := letter_rows (rows T).

(** The probabilities a classifier reports are non-negative. *)
Definition valid_model {Features} (m : option (Model Features)) : Prop :=
  match m with
  | None => True
  | Some model =>
      forall proba_of x proba,
        predict_proba model = Some proba_of -> proba_of x = Some proba ->
        Forall (fun p => 0 <= p) proba
  end.

(** The dict is a Home/Draw/Away triple of non-negative values. *)
Definition historical_triple (probs : dict string Q) : Prop :=
  exists h d a, probs = triple h d a /\ 0 <= h /\ 0 <= d /\ 0 <= a.

(** The same, with a positive total. *)
Definition positive_triple (probs : dict string Q) : Prop :=
  exists h d a, probs = triple h d a /\ 0 <= h /\ 0 <= d /\ 0 <= a /\ 0 < h + d + a.

(** One of the three outcome codes of a result. *)
Definition is_outcome (s : string) : Prop := s = "Home" \/ s = "Draw" \/ s = "Away".

(** The pair straddles the two categories. *)
Definition straddles (main_teams other_teams : gset string) (home away : string) : Prop :=
  (home ∈ main_teams /\ away ∈ other_teams) \/ (home ∈ other_teams /\ away ∈ main_teams).

(** One of the three double-chance labels of the decision table. *)
Definition double_chance (s : string) : Prop :=
  s = "Home Team Win or Draw" \/ s = "Away Team Win or Draw"
  \/ s = "Home Team Win or Away Team Win".

(** One of the three single outcomes of the decision table. *)
Definition single_outcome (s : string) : Prop := s = HOME \/ s = DRAW \/ s = AWAY.



(** Every result cell is one of the numbers 0, 1, 2. *)
Definition number_rows (l : list Match) : Prop :=
  Forall (fun r => exists q, result r = CNum q /\ (q == 0 \/ q == 1 \/ q == 2)) l.


(** No result cell is a number or missing. *)
Definition text_results (l : list Match) : Prop :=
  Forall (fun r => cell_is_numeric (result r) = false) l.

(** Team names carry no surrounding whitespace. *)
Definition stripped (s : string) : Prop := Str.strip s = s.

Definition stripped_names (l : list Match) : Prop :=
  Forall (fun r => stripped (home_team r) /\ stripped (away_team r)) l.

(** Position by position, the second form is worth at least as many points
    as the first. *)
Definition no_worse (s s' : string) : Prop :=
  Forall2 (fun c c' => form_points c <= form_points c')
          (list_ascii_of_string s) (list_ascii_of_string s').

(** The same match seen from the other side: a win is a loss and a loss a
    win. *)
Definition opposite (c : ascii) : ascii :=
  if Ascii.eqb c "W" then "L"%char
  else if Ascii.eqb c "L" then "W"%char
  else c.

(** Every date that can be read at all is read by the first parsing pass:
    the day-first retry rescues no row. *)
Definition first_pass_dates (l : list Match) : Prop :=
  Forall (fun p => p = None) (second_pass l).

(** The version the loader attached, if any, is the one of the columns. *)
Definition attrs_agree (T : Table) : Prop :=
  match attrs_version T with
  | Some v => has_schema T v = true
  | None => True
  end.

(** A form filled up to five characters with draws. *)
Definition padded (form : string) : string :=
  form ++ string_of_list_ascii (repeat "D"%char (5 - String.length form)).

(** A classifier of the scikit-learn kind: it has [classes_] and
    [predict_proba], and [predict_proba] answers every feature vector with
    one probability per class, for at least one class. *)
Definition well_formed_classifier (m : Model Features) : Prop :=
  exists labels proba_of,
    classes_ m = Some labels /\ predict_proba m = Some proba_of
    /\ forall x, exists proba,
         proba_of x = Some proba /\ proba <> [] /\ length proba = length labels.






(** What the [final_prediction] field of a result can be: absent, or tied
    to the historical triple of the result. *)
Definition final_field (r : Result) : Prop :=
  final_prediction r = None
  \/ exists probs,
       historical_probs r = Some probs
       /\ (use_historical probs = true -> final_prediction r = Some (outcome r))
       /\ (final_prediction r = Some INVALID ->
           use_historical probs = false /\ probs <> []
           /\ outcome r = outcome_map (prediction_number r)).


(** The table holds a row in which the two teams meet, in either
    direction, under exactly these names. *)
Definition meet (home away : string) (l : list Match) : Prop :=
  exists r, In r l /\ ((home_team r = home /\ away_team r = away)
                       \/ (home_team r = away /\ away_team r = home)).

(** ** Boolean comparisons *)

Lemma Qleb_true (x y : Q) : Qleb x y = true <-> x <= y.
Proof. apply Qle_bool_iff. Qed.

Lemma Qleb_false (x y : Q) : Qleb x y = false <-> y < x.
Proof.
  unfold Qleb. split; intro H.
  - apply Qnot_le_lt. intro Hle. apply Qle_bool_iff in Hle. congruence.
  - destruct (Qle_bool x y) eqn:E; [|reflexivity].
    apply Qle_bool_iff in E. lra.
Qed.

Lemma Qltb_true (x y : Q) : Qltb x y = true <-> x < y.
Proof. unfold Qltb. rewrite negb_true_iff. apply (Qleb_false y x). Qed.

Lemma Qltb_false (x y : Q) : Qltb x y = false <-> y <= x.
Proof. unfold Qltb. rewrite negb_false_iff. apply Qle_bool_iff. Qed.

Lemma Qeqb_true (x y : Q) : Qeqb x y = true <-> x == y.
Proof. apply Qeq_bool_iff. Qed.

Lemma Qeqb_false (x y : Q) : Qeqb x y = false <-> ~ x == y.
Proof.
  unfold Qeqb. split; intro H.
  - intro E. apply Qeq_bool_iff in E. congruence.
  - destruct (Qeq_bool x y) eqn:E; [|reflexivity].
    apply Qeq_bool_iff in E. contradiction.
Qed.

Lemma Qabs_le_iff (x y : Q) : Qabs x <= y <-> - y <= x /\ x <= y.
Proof. apply Qabs_Qle_condition. Qed.

Lemma Qabs_gt_iff (x y : Q) : y < Qabs x <-> x < - y \/ y < x.
Proof.
  split.
  - intro H. destruct (Qlt_le_dec x (- y)) as [L|L]; [now left|].
    destruct (Qlt_le_dec y x) as [G|G]; [now right|].
    exfalso. assert (Qabs x <= y) by (apply Qabs_le_iff; split; assumption). lra.
  - intro H. apply Qnot_le_lt. intro Hle. apply Qabs_le_iff in Hle. lra.
Qed.

(** Turn the boolean facts in the context into (in)equalities. *)
Ltac reflect_Q :=
  repeat match goal with
  | H : Qleb _ _ = true |- _ => apply Qleb_true in H
  | H : Qleb _ _ = false |- _ => apply Qleb_false in H
  | H : Qltb _ _ = true |- _ => apply Qltb_true in H
  | H : Qltb _ _ = false |- _ => apply Qltb_false in H
  | H : Qeqb _ _ = true |- _ => apply Qeqb_true in H
  | H : Qeqb _ _ = false |- _ => apply Qeqb_false in H
  | H : Qabs _ <= _ |- _ => apply Qabs_le_iff in H; destruct H
  | H : _ < Qabs _ |- _ => apply Qabs_gt_iff in H; destruct H
  end.

(** Case on the first comparison whose operands contain no conditional. *)
Ltac case_Q :=
  match goal with
  | |- context [Qltb ?a ?b] =>
      lazymatch a with context [if _ then _ else _] => fail | _ => idtac end;
      lazymatch b with context [if _ then _ else _] => fail | _ => idtac end;
      destruct (Qltb a b) eqn:?
  | |- context [Qeqb ?a ?b] =>
      lazymatch a with context [if _ then _ else _] => fail | _ => idtac end;
      lazymatch b with context [if _ then _ else _] => fail | _ => idtac end;
      destruct (Qeqb a b) eqn:?
  | |- context [Qleb ?a ?b] =>
      lazymatch a with context [if _ then _ else _] => fail | _ => idtac end;
      lazymatch b with context [if _ then _ else _] => fail | _ => idtac end;
      destruct (Qleb a b) eqn:?
  end.

Ltac solve_Q := reflect_Q; try lra; try (exfalso; lra).

(** ** The decision table *)

Lemma decision_table_clear_winner (model_outcome : string) (h d a : Q) :
  clear_winner h d a ->
  decision_table model_outcome (triple h d a) = model_outcome.
Proof.
  intros Hc. unfold decision_table, triple, values. simpl map.
  unfold Qmax_list. simpl fold_left.
  unfold highest_outcomes_of, close_ties_of.
  destruct Hc as [[H1 H2]|[[H1 H2]|[H1 H2]]].
  all: repeat (cbn -[Qabs Qminus Qplus Qeqb Qleb Qltb]; case_Q; try solve [solve_Q]).
  all: try reflexivity.
Qed.

(** ** Conversion of the raw prediction *)

Lemma py_float_int (z : Z) :
  (Z.abs z < float_limit)%Z -> py_float (PyInt z) = Some (Fin (inject_Z z)).
Proof. intro H. unfold py_float. apply Z.ltb_lt in H. now rewrite H. Qed.

Lemma py_float_overflow (z : Z) :
  (float_limit <= Z.abs z)%Z -> py_float (PyInt z) = None.
Proof. intro H. unfold py_float. apply Z.ltb_ge in H. now rewrite H. Qed.

Ltac small_int := apply py_float_int; vm_compute; reflexivity.

Lemma py_float_0 : py_float (PyInt 0) = Some (Fin (inject_Z 0)).
Proof. small_int. Qed.

Lemma py_float_1 : py_float (PyInt 1) = Some (Fin (inject_Z 1)).
Proof. small_int. Qed.

Lemma py_float_2 : py_float (PyInt 2) = Some (Fin (inject_Z 2)).
Proof. small_int. Qed.

(** C1. A historical triple with one clear winner (a unique maximum, the
    other two outcomes more than 5 points below it) never overrides the
    model: for every raw prediction that falls in a bucket,
    [determine_final_prediction] returns the model's normalized outcome.
    With history Home 20 / Draw 25 / Away 55 and raw prediction 2 the
    result is "Home Team Win". *)
Theorem model_priority_on_clear_winner :
  (forall pred pred_val model_outcome h d a,
      py_float pred = Some pred_val ->
      model_outcome_of pred_val = Some model_outcome ->
      clear_winner h d a ->
      determine_final_prediction pred (Some (triple h d a)) = model_outcome)
  /\ determine_final_prediction (PyInt 2) (Some (triple 20 25 55)) = "Home Team Win".
Proof.
  split.
  - intros pred pred_val model_outcome h d a Hf Hm Hc.
    unfold determine_final_prediction. rewrite Hf, Hm.
    change (Some (triple h d a)) with (Some ((HOME, h) :: [(DRAW, d); (AWAY, a)])).
    cbv iota. apply decision_table_clear_winner. exact Hc.
  - unfold determine_final_prediction. rewrite py_float_2. reflexivity.
Qed.

(** C2 (evaluation of the code). When the three historical outcomes are
    exactly tied and the model predicts Draw, Case 2 of the decision table
    fires before Case 5 and the result is the Home-or-Away double chance,
    not the model's Draw. *)
Theorem all_tied_draw_gives_double_chance :
  forall p : Q,
    determine_final_prediction (PyInt 1) (Some (triple p p p))
    = "Home Team Win or Away Team Win".
Proof.
  intro p. unfold determine_final_prediction. rewrite py_float_1.
  change (model_outcome_of (Fin (inject_Z 1))) with (Some DRAW).
  cbv iota. unfold decision_table, triple, values. simpl map.
  unfold Qmax_list. simpl fold_left. unfold highest_outcomes_of, close_ties_of.
  assert (Hpp : Qeqb p p = true) by (apply Qeqb_true; reflexivity).
  repeat (cbn -[Qabs Qminus Qplus Qeqb Qleb Qltb];
          first [ rewrite Hpp | case_Q; try solve [solve_Q] ]).
  all: reflexivity.
Qed.

(** With an exact three-way tie the model's Home or Away is returned. *)
Lemma all_tied_home_or_away_kept (p : Q) :
  determine_final_prediction (PyInt 2) (Some (triple p p p)) = HOME
  /\ determine_final_prediction (PyInt 0) (Some (triple p p p)) = AWAY.
Proof.
  assert (Hpp : Qeqb p p = true) by (apply Qeqb_true; reflexivity).
  split.
  all: unfold determine_final_prediction; rewrite ?py_float_2, ?py_float_0.
  1: change (model_outcome_of (Fin (inject_Z 2))) with (Some HOME).
  2: change (model_outcome_of (Fin (inject_Z 0))) with (Some AWAY).
  all: cbv iota; unfold decision_table, triple, values; simpl map.
  all: unfold Qmax_list; simpl fold_left; unfold highest_outcomes_of, close_ties_of.
  all: repeat (cbn -[Qabs Qminus Qplus Qeqb Qleb Qltb];
               first [ rewrite Hpp | case_Q; try solve [solve_Q] ]).
  all: reflexivity.
Qed.

(** Step 1 rejects every finite number outside the buckets. *)
Lemma model_outcome_of_outside (v : Q) :
  outside_buckets v -> model_outcome_of (Fin v) = None.
Proof.
  intros (H0 & H1 & H2 & Ha & Hb & Hc). unfold model_outcome_of.
  apply Qeqb_false in H0, H1, H2. rewrite H0, H1, H2.
  destruct (Qleb 0.5 v) eqn:E1, (Qleb v 1.4) eqn:E2; cbn [andb];
    try solve [exfalso; apply Ha; split; solve_Q];
    (destruct (Qleb 1.5 v) eqn:E3, (Qleb v 2.4) eqn:E4; cbn [andb];
       try solve [exfalso; apply Hb; split; solve_Q];
       (destruct (Qleb 2.5 v) eqn:E5, (Qleb v 3.4) eqn:E6; cbn [andb];
          try solve [exfalso; apply Hc; split; solve_Q]; reflexivity)).
Qed.

Lemma invalid_prediction_signal (v : Q) (probs : option (dict string Q)) :
  outside_buckets v ->
  determine_final_prediction (PyFloat (Fin v)) probs = INVALID.
Proof.
  intro H. unfold determine_final_prediction. cbn [py_float].
  rewrite (model_outcome_of_outside v H). reflexivity.
Qed.

(** C10. [determine_final_prediction] is a total function, and whenever
    [float(pred)] raises the handler's value "Home Team Win" is returned,
    whatever the historical probabilities are. *)
Theorem conversion_failure_returns_home :
  forall pred probs,
    py_float pred = None ->
    determine_final_prediction pred probs = "Home Team Win".
Proof.
  intros pred probs H. unfold determine_final_prediction. rewrite H. reflexivity.
Qed.

(** ** Form strings *)

Lemma Forall_map_all {A B} (P : B -> Prop) (f : A -> B) (l : list A) :
  (forall x, P (f x)) -> Forall P (map f l).
Proof. intro H. induction l; cbn; constructor; auto. Qed.


Lemma length_string_of_list_ascii (l : list ascii) :
  String.length (string_of_list_ascii l) = length l.
Proof. induction l as [|c l IH]; cbn; [reflexivity | now rewrite IH]. Qed.

Lemma form_letters_of_list (l : list ascii) :
  Forall (fun c => c = "W"%char \/ c = "D"%char \/ c = "L"%char) l ->
  form_letters (string_of_list_ascii l).
Proof.
  intro H. unfold form_letters. now rewrite list_ascii_of_string_of_list_ascii.
Qed.


Lemma form_letter_letter (is_home : bool) (res : cell) :
  let c := form_letter is_home res in
  c = "W"%char \/ c = "D"%char \/ c = "L"%char.
Proof.
  unfold form_letter. cbv zeta.
  destruct (cell_is_str res "D"); [right; now left|].
  destruct (_ || _); [now left | right; now right].
Qed.




Lemma In_dated_rows (parsed : list (option Z)) (rs : list Match) (dr : dated) :
  In dr (dated_rows parsed rs) -> In (snd dr) rs.
Proof.
  unfold dated_rows. intro H. apply in_flat_map in H as ([p r] & Hin & Hd).
  cbn [fst snd] in Hd. destruct p as [d|]; [|destruct Hd].
  destruct Hd as [<-|[]]. cbn [snd]. eapply in_combine_r. exact Hin.
Qed.

Lemma Forall_dated_rows (P : Match -> Prop) (parsed : list (option Z)) (rs : list Match) :
  Forall P rs -> Forall (fun dr : dated => P (snd dr)) (dated_rows parsed rs).
Proof.
  intro H. rewrite List.Forall_forall in *. intros dr Hin.
  apply H. eapply In_dated_rows. exact Hin.
Qed.

Lemma form_of_rows_letters (name : string) (l : list dated) :
  Forall (fun c => c = "W"%char \/ c = "D"%char \/ c = "L"%char)
         (map (fun dr => form_letter (String.eqb (home_team (snd dr)) name)
                                     (result (snd dr))) l).
Proof.
  apply Forall_map_all. intro dr. apply form_letter_letter.
Qed.


Lemma model2_form_shape (team_name : string) (data : Table) (given : version) :
  let s := get_team_recent_form_model2 team_name data given in
  s = "-----" \/ ((1 <= String.length s <= 5)%nat /\ form_letters s).
Proof.
  cbv zeta. unfold get_team_recent_form_model2. cbv zeta.
  destruct (negb (has_date data)); [now left|].
  destruct (negb (has_schema data _)); [now left|].
  set (sorted := sort_desc _).
  assert (Hlen : (length (firstn 5 sorted) <= 5)%nat) by apply firstn_le_length.
  revert Hlen. generalize (firstn 5 sorted). intros recent Hlen.
  destruct recent as [|dr rest]; [now left|]. right.
  cbn [map]. split.
  - rewrite length_string_of_list_ascii. cbn [length] in *. rewrite length_map. split; [lia | exact Hlen].
  - apply form_letters_of_list. apply (form_of_rows_letters team_name (dr :: rest)).
Qed.

(** ** Head-to-head tally under mirroring *)

Lemma Qeqb_sym_bool (x y : Q) : Qeqb x y = Qeqb y x.
Proof.
  destruct (Qeqb x y) eqn:E1, (Qeqb y x) eqn:E2; try reflexivity; reflect_Q.
  - exfalso. apply E2. symmetry. exact E1.
  - exfalso. apply E1. symmetry. exact E2.
Qed.

Lemma Qeqb_trans_false (q : Q) (a b : Z) :
  Qeqb q (inject_Z a) = true -> a <> b -> Qeqb q (inject_Z b) = false.
Proof.
  intros H Hab. apply Qeqb_false. intro E. apply Qeqb_true in H.
  rewrite H in E. apply Hab. unfold Qeq in E. cbn in E. lia.
Qed.

Lemma invert_result_numeric (c : cell) :
  cell_is_numeric (invert_result c) = cell_is_numeric c.
Proof.
  destruct c as [s|q|]; cbn; [| |reflexivity].
  - destruct (String.eqb s "H"); [reflexivity|]. now destruct (String.eqb s "A").
  - destruct (Qeqb q 2); [reflexivity|]. now destruct (Qeqb q 0).
Qed.

Lemma invert_result_letters (c : cell) :
  cell_is_str (invert_result c) "H" = cell_is_str c "A"
  /\ cell_is_str (invert_result c) "A" = cell_is_str c "H"
  /\ cell_is_str (invert_result c) "D" = cell_is_str c "D".
Proof.
  destruct c as [s|q|]; cbn.
  - destruct (String.eqb s "H") eqn:EH.
    + apply String.eqb_eq in EH. subst s. now cbn.
    + destruct (String.eqb s "A") eqn:EA.
      * apply String.eqb_eq in EA. subst s. now cbn.
      * cbn. now rewrite EH, EA.
  - destruct (Qeqb q 2); [now cbn|]. destruct (Qeqb q 0); now cbn.
  - now cbn.
Qed.

Lemma invert_result_numbers (c : cell) :
  cell_is_num (invert_result c) 2 = cell_is_num c 0
  /\ cell_is_num (invert_result c) 0 = cell_is_num c 2
  /\ cell_is_num (invert_result c) 1 = cell_is_num c 1.
Proof.
  destruct c as [s|q|]; cbn.
  - destruct (String.eqb s "H"); [now cbn|]. destruct (String.eqb s "A"); now cbn.
  - change 2 with (inject_Z 2). change 0 with (inject_Z 0). change 1 with (inject_Z 1).
    destruct (Qeqb q (inject_Z 2)) eqn:E2.
    + cbn. rewrite (Qeqb_trans_false q 2 0 E2), (Qeqb_trans_false q 2 1 E2) by lia.
      now cbn.
    + destruct (Qeqb q (inject_Z 0)) eqn:E0.
      * cbn. rewrite (Qeqb_trans_false q 0 1 E0) by lia. now cbn.
      * cbn. now rewrite E2, E0.
  - now cbn.
Qed.

Lemma fixtures_mirror (x y : string) (l : list Match) :
  fixtures x y (map mirror_row l) = map mirror_row (fixtures y x l).
Proof.
  unfold fixtures. induction l as [|r l IH]; [reflexivity|].
  cbn [map List.filter mirror_row home_team away_team]. rewrite IH.
  rewrite andb_comm. now destruct (_ && _).
Qed.

Lemma count_rows_mirror (p : cell -> bool) (l : list Match) :
  count_rows p (map mirror_row l) = count_rows (fun c => p (invert_result c)) l.
Proof.
  unfold count_rows. induction l as [|r l IH]; [reflexivity|].
  cbn [map List.filter mirror_row result]. destruct (p (invert_result (result r))); cbn [length];
    now rewrite IH.
Qed.

Lemma count_rows_ext (p q : cell -> bool) (l : list Match) :
  (forall c, p c = q c) -> count_rows p l = count_rows q l.
Proof.
  intro H. unfold count_rows. induction l as [|r l IH]; [reflexivity|].
  cbn [List.filter]. rewrite H. destruct (q (result r)); cbn [length]; now rewrite IH.
Qed.

Lemma empty_mirror (T : Table) : empty (mirror T) = empty T.
Proof. unfold empty, mirror, n_columns. cbn. now rewrite length_map. Qed.

(** The tally of a pair that has at least one fixture, in either
    direction, is the swapped tally of the mirrored table read from the
    other team's side. *)
Lemma tally_mirror (A B : string) (T : Table) (ver : version) :
  has_schema T ver = true ->
  (fixtures A B (rows T) ++ fixtures B A (rows T))%list <> [] ->
  calculate_probabilities_original A B T ver
  = swap_home_away (calculate_probabilities_original B A (mirror T) ver).
Proof.
  intros Hs Hne.
  assert (Hrows : rows T <> []).
  { intro E. apply Hne. rewrite E. reflexivity. }
  assert (He : empty T || Nat.eqb (n_columns T) 0 = false).
  { unfold empty, has_schema, n_columns in *. destruct (schema T); [|discriminate].
    destruct (rows T); [contradiction|]. reflexivity. }
  unfold calculate_probabilities_original.
  assert (Hn : n_columns (mirror T) = n_columns T) by reflexivity.
  rewrite Hn, empty_mirror, He.
  change (has_schema (mirror T) ver) with (has_schema T ver). rewrite Hs.
  cbn [negb rows mirror]. rewrite !fixtures_mirror.
  set (hh := fixtures A B (rows T)) in *. set (ha := fixtures B A (rows T)) in *.
  rewrite <- map_app.
  destruct (hh ++ ha)%list as [|sample rest] eqn:E; [contradiction|].
  cbn [map mirror_row result]. rewrite invert_result_numeric.
  rewrite !count_rows_mirror. cbn [length]. rewrite length_map.
  change (Nat.ltb 0 (S (length rest))) with true. cbv iota.
  destruct (cell_is_numeric (result sample)).
  - repeat (rewrite (count_rows_ext (fun c => cell_is_num (invert_result c) 2)
                            (fun c => cell_is_num c 0)) by apply invert_result_numbers).
    repeat (rewrite (count_rows_ext (fun c => cell_is_num (invert_result c) 0)
                            (fun c => cell_is_num c 2)) by apply invert_result_numbers).
    repeat (rewrite (count_rows_ext (fun c => cell_is_num (invert_result c) 1)
                            (fun c => cell_is_num c 1)) by apply invert_result_numbers).
    reflexivity.
  - repeat (rewrite (count_rows_ext (fun c => cell_is_str (invert_result c) "H")
                            (fun c => cell_is_str c "A")) by apply invert_result_letters).
    repeat (rewrite (count_rows_ext (fun c => cell_is_str (invert_result c) "A")
                            (fun c => cell_is_str c "H")) by apply invert_result_letters).
    repeat (rewrite (count_rows_ext (fun c => cell_is_str (invert_result c) "D")
                            (fun c => cell_is_str c "D")) by apply invert_result_letters).
    reflexivity.
Qed.

(** C7. For a table that holds only fixtures of [A] at home against [B]
    (at least one, under the schema asked for), the triple computed for
    [(A, B)] equals the triple computed for the mirrored fixtures (home and
    away columns swapped, results inverted H<->A) read from [B]'s side,
    with its Home and Away percentages exchanged. *)
Theorem h2h_symmetry_under_mirroring :
  forall (A B : string) (T : Table) (ver : version),
    has_schema T ver = true ->
    rows T <> [] ->
    only_fixtures A B T ->
    calculate_probabilities_original A B T ver
    = swap_home_away (calculate_probabilities_original B A (mirror T) ver).
Proof.
  intros A B T ver Hs Hne Hall.
  apply tally_mirror; [exact Hs|].
  unfold only_fixtures in Hall. unfold fixtures.
  destruct (rows T) as [|r rs]; [contradiction|].
  inversion Hall as [|? ? [Hh Ha] _]; subst.
  cbn [List.filter]. rewrite Hh, Ha, !String.eqb_refl. cbn [andb]. discriminate.
Qed.

(** ** Weighted form strength *)

Lemma weighted_loop_bounds (cs : list ascii) (i : nat) (acc : Q * Q) :
  0 <= fst acc <= snd acc ->
  0 <= fst (weighted_loop i cs acc) <= snd (weighted_loop i cs acc).
Proof.
  revert i acc. induction cs as [|c cs IH]; intros i acc H; [exact H|].
  cbn [weighted_loop]. apply IH. cbn [fst snd].
  assert (Hw : 0 <= nth i weights 1.0).
  { unfold weights. do 5 (destruct i as [|i]; [cbn; lra|]). destruct i; cbn; lra. }
  assert (Hp : 0 <= form_points c <= 3).
  { unfold form_points. repeat destruct (Ascii.eqb c _); lra. }
  nra.
Qed.

(** The strength before the home/away adjustment lies in [0, 1]. *)
Lemma form_strength_unit_interval (form_string : string) :
  0 <= form_strength form_string <= 1.
Proof.
  unfold form_strength.
  pose proof (weighted_loop_bounds (firstn 5 (list_ascii_of_string form_string)) 0 (0, 0)) as H.
  destruct (weighted_loop _ _ _) as [wp mwp]. cbn [fst snd] in H.
  specialize (H ltac:(lra)).
  destruct (Qltb 0 mwp) eqn:E; reflect_Q; [|lra].
  split.
  - apply Qle_shift_div_l; [exact E | lra].
  - apply Qle_shift_div_r; [exact E | lra].
Qed.

(** C5 (evaluation of the code). Step D divides by the total before it
    looks for values above 1.0, so a stray 65.0 next to 0.15 and 0.20 is
    left at 65/65.35 of the distribution (above 0.99), not near 0.65. *)
Theorem stray_percentage_not_corrected :
  let out := normalize_probabilities (prob_dict_of 65.0 0.15 0.20) in
  get Z.eqb out 2%Z 0 == 65.0 / (65.0 + 0.15 + 0.20)
  /\ 0.99 < get Z.eqb out 2%Z 0.
Proof.
  cbv zeta. split; vm_compute; reflexivity.
Qed.

(** ** Sums and normalization *)

Lemma fold_left_Qplus_acc (xs : list Q) (a : Q) :
  fold_left Qplus xs a == a + fold_left Qplus xs 0.
Proof.
  revert a. induction xs as [|x xs IH]; intro a; cbn [fold_left]; [lra|].
  pose proof (IH (a + x)). pose proof (IH (0 + x)). lra.
Qed.

Lemma Qsum_cons (x : Q) (xs : list Q) : Qsum (x :: xs) == x + Qsum xs.
Proof.
  unfold Qsum. cbn [fold_left]. pose proof (fold_left_Qplus_acc xs (0 + x)). lra.
Qed.

Lemma Qsum_nil : Qsum [] == 0.
Proof. reflexivity. Qed.

Lemma Qsum_nonneg (xs : list Q) : Forall (fun v => 0 <= v) xs -> 0 <= Qsum xs.
Proof.
  induction 1 as [|x xs Hx _ IH]; [cbn; lra|]. rewrite Qsum_cons. lra.
Qed.

Lemma Qsum_bounds_elements (xs : list Q) :
  Forall (fun v => 0 <= v) xs -> Forall (fun v => v <= Qsum xs) xs.
Proof.
  induction 1 as [|x xs Hx Hxs IH]; [constructor|].
  pose proof (Qsum_cons x xs) as Hc. pose proof (Qsum_nonneg xs Hxs) as Hn.
  constructor; [lra|].
  eapply List.Forall_impl; [|exact IH]. intros v Hv. cbv beta in *. lra.
Qed.

Lemma Qsum_map_div (t : Q) (xs : list Q) :
  Qsum (map (fun v => v / t) xs) == Qsum xs / t.
Proof.
  induction xs as [|x xs IH]; cbn [map].
  - unfold Qsum. cbn. unfold Qdiv. ring.
  - rewrite !Qsum_cons, IH. unfold Qdiv. ring.
Qed.

Lemma values_map_values {K} (f : Q -> Q) (d : dict K Q) :
  values (map_values f d) = map f (values d).
Proof.
  unfold values, map_values. rewrite !map_map. reflexivity.
Qed.

Lemma div_nonneg (v t : Q) : 0 <= v -> 0 < t -> 0 <= v / t.
Proof. intros Hv Ht. apply Qle_shift_div_l; [exact Ht | lra]. Qed.

Lemma scale_by_distribution (d : dict Z Q) :
  nonneg_values d -> 0 < Qsum (values d) ->
  distribution (scale_by (Qsum (values d)) d).
Proof.
  intros Hn Ht. unfold distribution, nonneg_values, scale_by.
  rewrite values_map_values. split.
  - rewrite Qsum_map_div. field. lra.
  - apply List.Forall_map. eapply List.Forall_impl; [|exact Hn].
    intros v Hv. cbv beta in *. now apply div_nonneg.
Qed.

Lemma distribution_at_most_one {K} (d : dict K Q) :
  distribution d -> Forall (fun v => 0 <= v <= 1) (values d).
Proof.
  intros [Hs Hn]. pose proof (Qsum_bounds_elements _ Hn) as Hb.
  unfold nonneg_values in Hn. revert Hb Hn. generalize (values d) at 2 3 4.
  intros l Hb Hn. induction l as [|x l IH]; [constructor|].
  inversion Hb; inversion Hn; subst. constructor; [lra | now apply IH].
Qed.

Lemma distribution_closure (d : dict Z Q) :
  distribution d -> probability_closure d.
Proof.
  intro H. split; [destruct H as [Hs _]; lra | now apply distribution_at_most_one].
Qed.

Lemma percent_to_decimal_id (d : dict Z Q) :
  Forall (fun v => 0 <= v <= 1) (values d) -> percent_to_decimal d = d.
Proof.
  unfold percent_to_decimal, map_values, values.
  induction d as [|[k v] d IH]; intro H; [reflexivity|].
  cbn [map fst snd] in *. inversion H as [|? ? Hv Hd]; subst.
  rewrite (IH Hd). replace (Qltb 1.0 v) with false; [reflexivity|].
  symmetry. apply Qltb_false. lra.
Qed.

Lemma default_prob_dict_distribution : distribution default_prob_dict.
Proof.
  split; [vm_compute; reflexivity|].
  unfold nonneg_values, default_prob_dict, values. cbn [map snd].
  repeat constructor; lra.
Qed.

(** A distribution passes the two tolerance checks unchanged. *)
Lemma tolerance_checks_pass (d : dict Z Q) :
  distribution d ->
  Qltb 0.01 (Qabs (Qsum (values d) - 1.0)) = false
  /\ Qltb 0.05 (Qabs (Qsum (values d) - 1.0)) = false.
Proof.
  intros [Hs _]. split; apply Qltb_false; apply Qabs_le_iff; lra.
Qed.

Lemma normalize_distribution_fixed (d : dict Z Q) :
  distribution d ->
  (let d1 := percent_to_decimal d in
   let total := Qsum (values d1) in
   let d2 := if Qltb 0 total && Qltb 0.01 (Qabs (total - 1.0)) then scale_by total d1
             else d1 in
   if Qltb 0.05 (Qabs (Qsum (values d2) - 1.0)) then default_prob_dict else d2) = d.
Proof.
  intro H. cbv zeta. rewrite (percent_to_decimal_id d (distribution_at_most_one d H)).
  destruct (tolerance_checks_pass d H) as [H1 H2].
  rewrite H1, andb_false_r, H2. reflexivity.
Qed.

(** Step D yields a distribution from any non-negative input. *)
Lemma normalize_probabilities_distribution (d : dict Z Q) :
  nonneg_values d -> distribution (normalize_probabilities d).
Proof.
  intro Hn. unfold normalize_probabilities. cbv zeta.
  destruct (Qltb 0 (Qsum (values d))) eqn:E.
  - apply Qltb_true in E. pose proof (scale_by_distribution d Hn E) as Hd.
    pose proof (normalize_distribution_fixed _ Hd) as Hfix. cbv zeta in Hfix.
    rewrite Hfix. exact Hd.
  - pose proof (normalize_distribution_fixed _ default_prob_dict_distribution) as Hfix.
    cbv zeta in Hfix. rewrite Hfix. exact default_prob_dict_distribution.
Qed.

Lemma final_validation_distribution (d : dict Z Q) :
  distribution d -> final_validation d = d.
Proof.
  intro H. unfold final_validation. cbv zeta.
  rewrite (percent_to_decimal_id d (distribution_at_most_one d H)).
  destruct (tolerance_checks_pass d H) as [_ H2]. now rewrite H2.
Qed.

(** ** Dict updates keep values non-negative *)

Lemma fold_left_invariant {A B} (Inv : A -> Prop) (f : A -> B -> A) (l : list B) (init : A) :
  (forall acc x, Inv acc -> Inv (f acc x)) -> Inv init -> Inv (fold_left f l init).
Proof.
  intro Hstep. revert init. induction l as [|x l IH]; intros init Hi; cbn; auto.
Qed.

Lemma fold_left_invariant_in {A B} (Inv : A -> Prop) (P : B -> Prop)
    (f : A -> B -> A) (l : list B) (init : A) :
  Forall P l ->
  (forall acc x, P x -> Inv acc -> Inv (f acc x)) -> Inv init -> Inv (fold_left f l init).
Proof.
  intros Hl Hstep. revert init. induction Hl as [|x l Hx _ IH]; intros init Hi; cbn; auto.
Qed.

Lemma set_nonneg {K} (eqb : K -> K -> bool) (d : dict K Q) (k : K) (v : Q) :
  nonneg_values d -> 0 <= v -> nonneg_values (set eqb d k v).
Proof.
  unfold nonneg_values, values. intros Hd Hv.
  induction d as [|[k' v'] d IH]; cbn [set map snd].
  - constructor; [exact Hv | constructor].
  - cbn [map snd] in Hd. inversion Hd; subst.
    destruct (eqb k k'); cbn [map snd]; constructor; auto.
Qed.

Lemma set_has_value (d : dict Z Q) (k : Z) (v : Q) :
  In v (values (set Z.eqb d k v)).
Proof.
  unfold values. induction d as [|[k' v'] d IH]; cbn [set map snd].
  - now left.
  - destruct (Z.eqb k k'); cbn [map snd]; [now left | now right].
Qed.

Lemma get_nonneg {K} (eqb : K -> K -> bool) (d : dict K Q) (k : K) (default : Q) :
  nonneg_values d -> 0 <= default -> 0 <= get eqb d k default.
Proof.
  unfold nonneg_values, values. intros Hd Hv.
  induction d as [|[k' v'] d IH]; cbn [get]; [exact Hv|].
  cbn [map snd] in Hd. inversion Hd; subst. destruct (eqb k k'); auto.
Qed.

Lemma combine_values_nonneg {K} (ks : list K) (vs : list Q) :
  Forall (fun p => 0 <= p) vs ->
  Forall (fun kv : K * Q => 0 <= snd kv) (combine ks vs).
Proof.
  intro H. revert ks. induction H as [|v vs Hv _ IH]; intros [|k ks]; cbn [combine];
    constructor; auto.
Qed.

Lemma of_zip_nonneg {K} (eqb : K -> K -> bool) (ks : list K) (vs : list Q) :
  Forall (fun p => 0 <= p) vs -> nonneg_values (of_zip eqb ks vs).
Proof.
  intro H. unfold of_zip.
  apply (fold_left_invariant_in (fun d => nonneg_values d) (fun kv : K * Q => 0 <= snd kv)).
  - now apply combine_values_nonneg.
  - intros acc kv Hkv Hacc. now apply set_nonneg.
  - constructor.
Qed.

Lemma nonneg_values_entries {K} (d : dict K Q) :
  nonneg_values d -> Forall (fun kv : K * Q => 0 <= snd kv) d.
Proof.
  unfold nonneg_values, values. intro H.
  induction d as [|kv d IH]; [constructor|].
  cbn [map] in H. inversion H; subst. constructor; auto.
Qed.

Lemma map_probabilities_nonneg (classes : list label) (full_conf : dict label Q) :
  nonneg_values full_conf -> nonneg_values (map_probabilities classes full_conf).
Proof.
  intro H. apply nonneg_values_entries in H. unfold map_probabilities.
  destruct (is_012 classes).
  - apply (fold_left_invariant_in (fun d => nonneg_values d) _ _ _ _ H); [|constructor].
    intros acc kv Hkv Hacc. destruct (int_of_label (fst kv)); [|exact Hacc].
    destruct (_ || _); [now apply set_nonneg | exact Hacc].
  - apply (fold_left_invariant_in (fun d => nonneg_values d) _ _ _ _ H); [|constructor].
    intros acc [key value] Hkv Hacc. cbn [snd] in Hkv.
    destruct (mem _ _ _); [now apply set_nonneg|].
    destruct (int_of_label key).
    + destruct (_ || _); [now apply set_nonneg | exact Hacc].
    + repeat (destruct (str_in _ _); [now apply set_nonneg|]). exact Hacc.
Qed.

Lemma map_probabilities_direct_nonneg (full_conf : dict label Q) :
  nonneg_values full_conf -> nonneg_values (map_probabilities_direct full_conf).
Proof.
  intro H. apply nonneg_values_entries in H. unfold map_probabilities_direct.
  apply (fold_left_invariant_in (fun d => nonneg_values d) _ _ _ _ H); [|constructor].
  intros acc kv Hkv Hacc.
  repeat (destruct (str_in _ _); [now apply set_nonneg|]). exact Hacc.
Qed.

Lemma historical_prob_dict_nonneg (probs : dict string Q) (default : Q) :
  nonneg_values probs -> 0 <= default -> nonneg_values (historical_prob_dict probs default).
Proof.
  intros Hp Hd. unfold nonneg_values, historical_prob_dict, values. cbn [map snd].
  repeat constructor; apply div_nonneg; try lra; now apply get_nonneg.
Qed.

Lemma fill_if_empty_nonneg (prob_dict : dict Z Q) (probs : dict string Q) :
  nonneg_values prob_dict -> nonneg_values probs ->
  nonneg_values (fill_if_empty prob_dict probs).
Proof.
  intros Hd Hp. unfold fill_if_empty. destruct prob_dict; [|exact Hd].
  destruct probs.
  - apply default_prob_dict_distribution.
  - apply historical_prob_dict_nonneg; [exact Hp | lra].
Qed.

(** ** The form-based correction keeps a distribution *)

Lemma form_probabilities_positive (form_diff h d a : Q) :
  form_probabilities form_diff = Some (h, d, a) -> 0 < h /\ 0 < d /\ 0 < a.
Proof.
  unfold form_probabilities.
  repeat (destruct (Qltb _ _); [intro E; injection E as <- <- <-; lra|]).
  discriminate.
Qed.

Lemma form_correction_distribution (home away : string) (prob_dict : dict Z Q) :
  distribution prob_dict -> distribution (form_correction home away prob_dict).
Proof.
  intros Hd. unfold form_correction. cbv zeta.
  destruct (Qltb 0.1 _); [|exact Hd].
  destruct (form_probabilities _) as [[[fh fd] fa]|] eqn:Ef; [|exact Hd].
  apply form_probabilities_positive in Ef. destruct Ef as (Hh & Hdr & Ha).
  destruct Hd as [_ Hn].
  set (d0 := set Z.eqb prob_dict 0%Z _).
  assert (H0 : nonneg_values d0).
  { apply set_nonneg; [exact Hn|].
    pose proof (get_nonneg Z.eqb prob_dict 0%Z 0.33 Hn ltac:(lra)). nra. }
  set (d1 := set Z.eqb d0 1%Z _).
  assert (H1 : nonneg_values d1).
  { apply set_nonneg; [exact H0|].
    pose proof (get_nonneg Z.eqb d0 1%Z 0.33 H0 ltac:(lra)). nra. }
  set (v2 := get Z.eqb d1 2%Z 0.33 * 0.6 + fh * 0.4).
  assert (Hv2 : 0 < v2).
  { pose proof (get_nonneg Z.eqb d1 2%Z 0.33 H1 ltac:(lra)). unfold v2. nra. }
  set (d2 := set Z.eqb d1 2%Z v2).
  assert (H2 : nonneg_values d2) by (apply set_nonneg; [exact H1 | lra]).
  assert (Hpos : 0 < Qsum (values d2)).
  { pose proof (Qsum_bounds_elements _ H2) as Hb.
    pose proof (set_has_value d1 2%Z v2) as Hin. fold d2 in Hin.
    rewrite List.Forall_forall in Hb. specialize (Hb v2 Hin). cbv beta in Hb. lra. }
  replace (Qltb 0 (Qsum (values d2))) with true by (symmetry; now apply Qltb_true).
  now apply scale_by_distribution.
Qed.

(** ** The strength tables are distributions *)

Lemma normalized_three (x y z : Q) :
  0 <= x -> 0 <= y -> 0 <= z -> 0 < x + y + z ->
  let t := x + y + z in
  x / t + y / t + z / t == 1 /\ 0 <= x / t /\ 0 <= y / t /\ 0 <= z / t.
Proof.
  intros Hx Hy Hz Ht. cbv zeta. repeat split; try (apply div_nonneg; assumption).
  field. lra.
Qed.

(** Case on the condition of a conditional at the head of an equation. *)
Ltac head_if :=
  match goal with
  | |- (if ?c then _ else _) = _ -> _ => destruct c eqn:?
  end.

Ltac split_triple E :=
  let E1 := fresh in let E2 := fresh in let E3 := fresh in
  apply pair_equal_spec in E as [E1 E3];
  apply pair_equal_spec in E1 as [E1 E2];
  rewrite <- ?E1, <- ?E2, <- ?E3; clear E1 E2 E3.

Lemma strength_table_distribution (strength_diff h d a : Q) :
  strength_table strength_diff = (h, d, a) ->
  h + d + a == 1 /\ 0 <= h /\ 0 <= d /\ 0 <= a.
Proof.
  unfold strength_table.
  destruct (Qltb (Qabs strength_diff) 0.03) eqn:E1.
  { intro E; split_triple E; lra. }
  destruct (Qltb (Qabs strength_diff) 0.08) eqn:E2.
  { apply Qltb_false in E1. apply Qltb_true in E2.
    pose proof (Qle_Qabs strength_diff) as Hle.
    destruct (Qltb 0 strength_diff) eqn:E3; reflect_Q; cbv beta iota zeta.
    - intro E; split_triple E.
      apply (normalized_three (0.38 + strength_diff * 2) 0.30 (0.32 - strength_diff * 1.5));
        lra.
    - intro E; split_triple E.
      apply (normalized_three (0.32 - Qabs strength_diff * 1.5) 0.30
                              (0.38 + Qabs strength_diff * 2)); lra. }
  repeat head_if; intro E; split_triple E; lra.
Qed.

Lemma strength_table_no_h2h_distribution (strength_diff h d a : Q) :
  strength_table_no_h2h strength_diff = (h, d, a) ->
  h + d + a == 1 /\ 0 <= h /\ 0 <= d /\ 0 <= a.
Proof.
  unfold strength_table_no_h2h.
  repeat head_if; intro E; split_triple E; lra.
Qed.

(** ** Shape of the historical triple *)

Lemma positive_triple_historical (probs : dict string Q) :
  positive_triple probs -> historical_triple probs.
Proof. intros (h & d & a & E & ? & ? & ? & _). exists h, d, a. auto. Qed.

Lemma historical_triple_nonneg (probs : dict string Q) :
  historical_triple probs -> nonneg_values probs.
Proof.
  intros (h & d & a & -> & Hh & Hd & Ha). unfold nonneg_values, triple, values.
  cbn [map snd]. repeat constructor; assumption.
Qed.

Lemma percent_triple_positive (p : Q * Q * Q) :
  (forall h d a, p = (h, d, a) -> h + d + a == 1 /\ 0 <= h /\ 0 <= d /\ 0 <= a) ->
  positive_triple (percent_triple p).
Proof.
  destruct p as [[h d] a]. intro H. destruct (H h d a eq_refl) as (Hs & Hh & Hd & Ha).
  exists (h * 100), (d * 100), (a * 100). cbn. repeat split; lra.
Qed.

Lemma Qnat_nonneg (n : nat) : 0 <= Qnat n.
Proof. unfold Qnat. change 0 with (inject_Z 0). rewrite <- Zle_Qle. lia. Qed.

Lemma Qnat_pos (n : nat) : (0 < n)%nat -> 0 < Qnat n.
Proof. intro H. unfold Qnat. change 0 with (inject_Z 0). rewrite <- Zlt_Qlt. lia. Qed.

Lemma Qnat_plus (n m : nat) : Qnat (n + m) == Qnat n + Qnat m.
Proof. unfold Qnat. rewrite Nat2Z.inj_add, inject_Z_plus. reflexivity. Qed.

Lemma percentage_nonneg (n total : nat) : 0 <= Qnat n / Qnat total * 100.
Proof.
  destruct total as [|t].
  - unfold Qdiv. change (Qnat 0) with 0. change (/ 0)%Q with 0.
    pose proof (Qnat_nonneg n). nra.
  - pose proof (div_nonneg (Qnat n) (Qnat (S t)) (Qnat_nonneg n)
                           (Qnat_pos (S t) ltac:(lia))). lra.
Qed.

(** A tally always is a triple of non-negative percentages. *)
Lemma tally_historical (hw d aw total : nat) :
  historical_triple (triple (Qnat hw / Qnat total * 100) (Qnat d / Qnat total * 100)
                            (Qnat aw / Qnat total * 100)).
Proof.
  eexists _, _, _. split; [reflexivity|]. repeat split; apply percentage_nonneg.
Qed.

(** When every row is counted once the percentages total 100. *)
Lemma tally_positive (hw d aw total : nat) :
  (0 < total)%nat -> (hw + d + aw = total)%nat ->
  positive_triple (triple (Qnat hw / Qnat total * 100) (Qnat d / Qnat total * 100)
                          (Qnat aw / Qnat total * 100)).
Proof.
  intros Ht Hsum. eexists _, _, _. split; [reflexivity|].
  repeat split; try apply percentage_nonneg.
  assert (E : Qnat hw / Qnat total * 100 + Qnat d / Qnat total * 100
              + Qnat aw / Qnat total * 100 == 100).
  { pose proof (Qnat_pos total Ht) as Hp.
    assert (Hq : Qnat hw + Qnat d + Qnat aw == Qnat total).
    { rewrite <- Hsum, !Qnat_plus. reflexivity. }
    transitivity ((Qnat hw + Qnat d + Qnat aw) / Qnat total * 100); [field; lra|].
    rewrite Hq. field. lra. }
  lra.
Qed.

(** ** The historical probability engine returns triples *)

Lemma letter_rows_filter (p : Match -> bool) (l : list Match) :
  letter_rows l -> letter_rows (List.filter p l).
Proof.
  unfold letter_rows. induction 1 as [|r l Hr _ IH]; cbn [List.filter]; [constructor|].
  destruct (p r); [constructor|]; assumption.
Qed.

Lemma letter_rows_count (l : list Match) :
  letter_rows l ->
  (count_rows (fun c => cell_is_str c "H") l + count_rows (fun c => cell_is_str c "D") l
   + count_rows (fun c => cell_is_str c "A") l = length l)%nat.
Proof.
  unfold count_rows. induction 1 as [|r l Hr _ IH]; [reflexivity|].
  cbn [List.filter length]. destruct Hr as [-> | [-> | ->]]; cbn; lia.
Qed.

Lemma fallback_positive (home away : string) :
  positive_triple
    (let '(home_strength, away_strength) := get_enhanced_features home away in
     percent_triple (strength_table (home_strength - away_strength))).
Proof.
  destruct (get_enhanced_features home away) as [hs aw].
  apply percent_triple_positive. intros h d a. apply strength_table_distribution.
Qed.

Lemma fallback_no_h2h_positive (home away : string) :
  positive_triple
    (let '(home_strength, away_strength) := get_enhanced_features home away in
     percent_triple (strength_table_no_h2h (home_strength - away_strength))).
Proof.
  destruct (get_enhanced_features home away) as [hs aw].
  apply percent_triple_positive. intros h d a. apply strength_table_no_h2h_distribution.
Qed.

Lemma calculate_probabilities_original_triple (home away : string) (T : Table)
    (ver : version) :
  historical_triple (calculate_probabilities_original home away T ver).
Proof.
  unfold calculate_probabilities_original. cbv zeta.
  destruct (empty T || _); [apply positive_triple_historical, fallback_positive|].
  destruct (negb _); [apply positive_triple_historical, fallback_positive|].
  destruct (_ ++ _)%list as [|sample rest] eqn:E.
  { apply positive_triple_historical, fallback_no_h2h_positive. }
  destruct (Nat.ltb 0 (length (sample :: rest))); [apply tally_historical|].
  exists 33.3, 33.3, 33.3. repeat split; lra.
Qed.

Lemma calculate_probabilities_original_positive (home away : string) (T : Table)
    (ver : version) :
  letter_coded T ->
  positive_triple (calculate_probabilities_original home away T ver).
Proof.
  intro HT. unfold calculate_probabilities_original. cbv zeta.
  destruct (empty T || _); [apply fallback_positive|].
  destruct (negb _); [apply fallback_positive|].
  set (hh := fixtures home away (rows T)). set (ha := fixtures away home (rows T)).
  assert (Hhh : letter_rows hh) by (apply letter_rows_filter; exact HT).
  assert (Hha : letter_rows ha) by (apply letter_rows_filter; exact HT).
  destruct (hh ++ ha)%list as [|sample rest] eqn:E; [apply fallback_no_h2h_positive|].
  assert (Hs : cell_is_numeric (result sample) = false).
  { assert (Hin : letter_rows (hh ++ ha)) by (apply Forall_app; split; assumption).
    rewrite E in Hin. inversion Hin as [|? ? Hr _]; subst.
    destruct Hr as [-> | [-> | ->]]; reflexivity. }
  rewrite Hs. cbv iota. change (Nat.ltb 0 (length (sample :: rest))) with true. cbv iota.
  apply tally_positive; [cbn; lia|].
  rewrite <- E, length_app.
  pose proof (letter_rows_count hh Hhh). pose proof (letter_rows_count ha Hha). lia.
Qed.

Lemma calculate_probabilities_model2_triple (home away : string) (T : Table)
    (given : version) (probs : dict string Q) :
  calculate_probabilities_model2 home away T given = Some probs ->
  historical_triple probs.
Proof.
  unfold calculate_probabilities_model2. cbv zeta.
  destruct (negb _); [discriminate|].
  destruct (List.filter _ _) as [|r1 l1]; destruct (List.filter _ _) as [|r2 l2];
    try discriminate; intro E; injection E as <-; apply tally_historical.
Qed.

Lemma calculate_probabilities_model2_positive (home away : string) (T : Table)
    (given : version) (probs : dict string Q) :
  letter_coded T ->
  calculate_probabilities_model2 home away T given = Some probs ->
  positive_triple probs.
Proof.
  intro HT. unfold calculate_probabilities_model2. cbv zeta.
  destruct (negb _); [discriminate|].
  set (d1 := List.filter _ (rows T)). set (d2 := List.filter _ (rows T)).
  assert (H1 : letter_rows d1) by (apply letter_rows_filter; exact HT).
  assert (H2 : letter_rows d2) by (apply letter_rows_filter; exact HT).
  pose proof (letter_rows_count d1 H1) as C1. pose proof (letter_rows_count d2 H2) as C2.
  destruct d1 as [|r1 l1] eqn:E1; destruct d2 as [|r2 l2] eqn:E2;
    try discriminate; intro E; injection E as <-;
    (apply tally_positive; [cbn [length]; lia | cbn [length] in *; lia]).
Qed.

(** ** Every path of [advanced_predict_match] returns a distribution *)

Lemma prob_dict_of_distribution (h d a : Q) :
  h + d + a == 1 -> 0 <= h -> 0 <= d -> 0 <= a ->
  distribution (prob_dict_of h d a).
Proof.
  intros Hs Hh Hd Ha. split.
  - unfold prob_dict_of, values, Qsum. cbn [map snd fold_left]. lra.
  - unfold nonneg_values, prob_dict_of, values. cbn [map snd]. repeat constructor; assumption.
Qed.

Lemma form_based_fallback_distribution (home away : string) :
  distribution (probabilities (form_based_fallback home away)).
Proof.
  unfold form_based_fallback.
  destruct (get_enhanced_features home away) as [hs aw].
  destruct (strength_table (hs - aw)) as [[h d] a] eqn:E.
  apply strength_table_distribution in E. destruct E as (Hs & Hh & Hd & Ha).
  cbn [probabilities]. now apply prob_dict_of_distribution.
Qed.

Lemma model2_missing_fallback_distribution (home away : string) (data : Table) :
  distribution (probabilities (model2_missing_fallback home away data)).
Proof.
  unfold model2_missing_fallback.
  destruct (get_enhanced_features home away) as [hs aw].
  destruct (Qltb (Qabs (hs - aw)) 0.1); [|destruct (Qltb 0.15 (hs - aw))];
    cbn [probabilities]; apply prob_dict_of_distribution; lra.
Qed.

Lemma no_features_fallback_distribution (probs : dict string Q) (model_type : string) :
  positive_triple probs ->
  distribution (probabilities (no_features_fallback probs model_type)).
Proof.
  intros (h & d & a & -> & Hh & Hd & Ha & Hpos).
  unfold no_features_fallback. cbv zeta.
  change (get String.eqb (triple h d a) HOME 40.0) with h.
  change (get String.eqb (triple h d a) DRAW 30.0) with d.
  change (get String.eqb (triple h d a) AWAY 30.0) with a.
  assert (H1 : 0 <= h / 100.0) by (apply div_nonneg; lra).
  assert (H2 : 0 <= d / 100.0) by (apply div_nonneg; lra).
  assert (H3 : 0 <= a / 100.0) by (apply div_nonneg; lra).
  assert (Ht : 0 < h / 100.0 + d / 100.0 + a / 100.0).
  { assert (E : h / 100.0 + d / 100.0 + a / 100.0 == (h + d + a) / 100.0) by (field; lra).
    rewrite E. apply Qlt_shift_div_l; lra. }
  replace (Qltb 0 (h / 100.0 + d / 100.0 + a / 100.0)) with true
    by (symmetry; now apply Qltb_true).
  cbv iota beta.
  destruct (normalized_three _ _ _ H1 H2 H3 Ht) as (Hs & N1 & N2 & N3).
  destruct (_ && _); [|destruct (_ && _)];
    cbn [probabilities]; apply prob_dict_of_distribution; assumption || lra.
Qed.

Lemma historical_override_distribution (probs : dict string Q) :
  historical_triple probs -> use_historical probs = true ->
  distribution
    (let hist_prob_dict := historical_prob_dict probs 33.3 in
     let total_hist := Qsum (values hist_prob_dict) in
     if Qltb 0 total_hist then scale_by total_hist hist_prob_dict else hist_prob_dict).
Proof.
  intros (h & d & a & -> & Hh & Hd & Ha) Hu. cbv zeta.
  assert (Hn : nonneg_values (historical_prob_dict (triple h d a) 33.3)).
  { apply historical_prob_dict_nonneg; [|lra].
    apply historical_triple_nonneg. exists h, d, a. auto. }
  assert (Hpos : 0 < Qsum (values (historical_prob_dict (triple h d a) 33.3))).
  { unfold use_historical, triple in Hu.
    change (get String.eqb [(HOME, h); (DRAW, d); (AWAY, a)] AWAY 33.3) with a in Hu.
    change (get String.eqb [(HOME, h); (DRAW, d); (AWAY, a)] DRAW 33.3) with d in Hu.
    change (get String.eqb [(HOME, h); (DRAW, d); (AWAY, a)] HOME 33.3) with h in Hu.
    unfold historical_prob_dict, values, Qsum. cbn [map snd fold_left].
    change (get String.eqb (triple h d a) AWAY 33.3) with a.
    change (get String.eqb (triple h d a) DRAW 33.3) with d.
    change (get String.eqb (triple h d a) HOME 33.3) with h.
    assert (Hsum : 10 < h + d + a).
    { revert Hu. unfold Qmax_list, Qmin_list. cbn [fold_left].
      repeat case_Q; intro Hu; reflect_Q; lra. }
    assert (E : 0 + a / 100.0 + d / 100.0 + h / 100.0 == (h + d + a) / 100.0) by (field; lra).
    rewrite E. apply Qlt_shift_div_l; lra. }
  replace (Qltb 0 _) with true by (symmetry; now apply Qltb_true).
  now apply scale_by_distribution.
Qed.

Lemma predict_with_confidence_nonneg (model : Model Features) (x : Features)
    (l : label) (p : Q) (full_conf : dict label Q) :
  valid_model (Some model) ->
  predict_with_confidence model x = Some (l, p, full_conf) ->
  nonneg_values full_conf.
Proof.
  intros Hv. unfold predict_with_confidence.
  destruct (predict_proba model) as [proba_of|] eqn:Ep; [|discriminate].
  destruct (proba_of x) as [proba|] eqn:Ex; [|discriminate].
  pose proof (Hv proba_of x proba Ep Ex) as Hn.
  destruct (argmax_index proba); [|discriminate].
  destruct (classes_ model) as [labels|]; [|discriminate].
  destruct (nth_error labels _); [|discriminate].
  destruct (nth_error proba _); [|discriminate].
  intro E. injection E as _ _ <-. now apply of_zip_nonneg.
Qed.

Lemma reconcile_distribution (home away : string) (model : Model Features)
    (model_type : string) (is_regressor : bool) (probs : dict string Q)
    (input_data : Features) (r : Result) :
  valid_model (Some model) -> historical_triple probs ->
  reconcile home away model model_type is_regressor probs input_data = Some r ->
  distribution (probabilities r).
Proof.
  intros Hv Hh. pose proof (historical_triple_nonneg probs Hh) as Hn.
  unfold reconcile. cbv zeta.
  set (pred := raw_prediction model input_data).
  set (mapped := if is_regressor then _ else _).
  assert (Hmapped : forall pd, mapped = Some pd -> nonneg_values pd).
  { intros pd. unfold mapped. destruct is_regressor.
    - destruct (py_float pred); [|discriminate]. intro E. injection E as <-.
      destruct probs; [apply default_prob_dict_distribution|].
      apply historical_prob_dict_nonneg; [exact Hn | lra].
    - destruct (classes_ model) as [classes|];
        destruct (predict_with_confidence model input_data) as [[[l p] fc]|] eqn:Ec;
        try discriminate; intro E; injection E as <-.
      + apply map_probabilities_nonneg. eapply predict_with_confidence_nonneg; eauto.
      + apply map_probabilities_direct_nonneg.
        eapply predict_with_confidence_nonneg; eauto.
      + constructor. }
  destruct mapped as [pd|]; [|discriminate].
  specialize (Hmapped pd eq_refl).
  set (D := form_correction home away (normalize_probabilities (fill_if_empty pd probs))).
  assert (HD : distribution D).
  { apply form_correction_distribution, normalize_probabilities_distribution.
    now apply fill_if_empty_nonneg. }
  destruct (use_historical probs) eqn:Hu.
  - pose proof (historical_override_distribution probs Hh Hu) as Ho. cbv zeta in Ho.
    intro E.
    match type of Ho with distribution ?X =>
      assert (Hr : probabilities r = final_validation X)
        by (injection E as <-; reflexivity)
    end.
    rewrite Hr, (final_validation_distribution _ Ho). exact Ho.
  - intro E.
    assert (Hr : probabilities r = final_validation D)
      by (revert E; destruct probs; intro E; injection E as <-; reflexivity).
    rewrite Hr, (final_validation_distribution _ HD). exact HD.
Qed.

Lemma predict_with_model_distribution (home away : string) (data : Table)
    (model : Model Features) (model_type : string) (is_regressor : bool) (r : Result) :
  valid_model (Some model) -> letter_coded data ->
  predict_with_model home away data model model_type is_regressor = Some r ->
  distribution (probabilities r).
Proof.
  intros Hv HT. unfold predict_with_model. cbv zeta.
  pose proof (calculate_probabilities_original_positive home away data V1 HT) as Ho.
  destruct (String.eqb model_type "Model2").
  - destruct (calculate_probabilities_model2 home away data V2) as [p|] eqn:E2.
    + pose proof (calculate_probabilities_model2_positive _ _ _ _ _ HT E2) as Hp.
      destruct (preprocess_for_models home away model data);
        [|destruct (compute_mean_for_teams home away data model V1)].
      * apply reconcile_distribution; [exact Hv | now apply positive_triple_historical].
      * apply reconcile_distribution; [exact Hv | now apply positive_triple_historical].
      * intro E. injection E as <-. now apply no_features_fallback_distribution.
    + destruct (preprocess_for_models home away model data);
        [|destruct (compute_mean_for_teams home away data model V1)].
      * apply reconcile_distribution; [exact Hv | now apply positive_triple_historical].
      * apply reconcile_distribution; [exact Hv | now apply positive_triple_historical].
      * intro E. injection E as <-. now apply no_features_fallback_distribution.
  - destruct (compute_mean_for_teams home away data model V1).
    + apply reconcile_distribution; [exact Hv | now apply positive_triple_historical].
    + intro E. injection E as <-. now apply no_features_fallback_distribution.
Qed.

(** X19. On tables whose result cells are the letters H, D, A, and with
    classifiers whose reported probabilities are non-negative, the
    probabilities of every result returned by [advanced_predict_match] sum
    to 1.0 within 0.01, and each of the values the dict holds lies in
    [0, 1]. *)
Theorem probability_closure_of_results :
  forall (home away : string) (model1 model2 : option (Model Features)) (r : Result),
    letter_coded (load_football_data 1) ->
    letter_coded (load_football_data 2) ->
    valid_model model1 ->
    valid_model model2 ->
    advanced_predict_match home away model1 model2 = Some r ->
    probability_closure (probabilities r).
Proof.
  intros home away model1 model2 r HT1 HT2 Hv1 Hv2 Hr.
  apply distribution_closure. revert Hr. unfold advanced_predict_match. cbv zeta.
  assert (HT : letter_coded (load_football_data (required_dataset home away))).
  { unfold required_dataset. destruct (both_in main_teams home away); [exact HT1|].
    destruct (both_in other_teams home away); assumption. }
  destruct (empty _).
  { intro E. injection E as <-. apply form_based_fallback_distribution. }
  destruct (both_in main_teams home away).
  { destruct model1 as [m|]; [|discriminate].
    now apply predict_with_model_distribution. }
  destruct (both_in other_teams home away); [|discriminate].
  destruct model2 as [m|].
  - now apply predict_with_model_distribution.
  - intro E. injection E as <-. apply model2_missing_fallback_distribution.
Qed.

(** ** Outcomes of the returned results *)

Lemma outcome_map_is_outcome (prediction : Z) : is_outcome (outcome_map prediction).
Proof.
  unfold outcome_map, is_outcome. destruct (Z.eqb prediction 0); [now (right; right)|].
  destruct (Z.eqb prediction 2); [now left | right; now left].
Qed.

Lemma outcome_of_final_is_outcome (final : string) (prediction : Z) :
  is_outcome (outcome_of_final final prediction).
Proof.
  unfold outcome_of_final.
  repeat match goal with
         | |- is_outcome (if ?c then _ else _) => destruct c
         end;
    try apply outcome_map_is_outcome; unfold is_outcome; auto.
Qed.

Lemma INVALID_is_no_outcome (s : string) : is_outcome s -> Some s <> Some INVALID.
Proof. intros [-> | [-> | ->]]; discriminate. Qed.

Lemma reconcile_outcome (home away : string) (model : Model Features)
    (model_type : string) (is_regressor : bool) (probs : dict string Q)
    (input_data : Features) (r : Result) :
  reconcile home away model model_type is_regressor probs input_data = Some r ->
  is_outcome (outcome r)
  /\ historical_probs r = Some probs
  /\ (use_historical probs = true -> final_prediction r = Some (outcome r))
  /\ (use_historical probs = false -> probs <> [] ->
      final_prediction r
      = Some (determine_final_prediction (raw_prediction model input_data) (Some probs))).
Proof.
  unfold reconcile. cbv zeta.
  destruct (if is_regressor then _ else _) as [pd|]; [|discriminate].
  destruct (use_historical probs) eqn:Hu.
  - intro E. injection E as <-. cbn [outcome historical_probs final_prediction].
    repeat split; try discriminate; auto using outcome_map_is_outcome.
  - destruct probs as [|kv probs'].
    + intro E. injection E as <-. cbn [outcome historical_probs final_prediction].
      repeat split; try discriminate; try congruence; auto using outcome_map_is_outcome.
    + intro E. injection E as <-. cbn [outcome historical_probs final_prediction].
      repeat split; try discriminate; auto.
      destruct (Qleb 0.05 _);
        [apply outcome_map_is_outcome | apply outcome_of_final_is_outcome].
Qed.

Lemma no_features_fallback_outcome (probs : dict string Q) (model_type : string) :
  let r := no_features_fallback probs model_type in
  is_outcome (outcome r) /\ final_prediction r = None.
Proof.
  cbv zeta. unfold no_features_fallback. cbv zeta.
  destruct (Qltb 0 _); cbv beta iota;
    (destruct (_ && _); [|destruct (_ && _)]); cbn [outcome final_prediction];
    unfold is_outcome; auto.
Qed.

Lemma predict_with_model_outcome (home away : string) (data : Table)
    (model : Model Features) (model_type : string) (is_regressor : bool) (r : Result) :
  predict_with_model home away data model model_type is_regressor = Some r ->
  is_outcome (outcome r)
  /\ (forall probs, historical_probs r = Some probs -> use_historical probs = true ->
      final_prediction r <> Some INVALID).
Proof.
  unfold predict_with_model. cbv zeta.
  assert (Hgen : forall (input : option Features) (pm : dict string Q * string),
             (let '(probs, mt) := pm in
              match input with
              | Some x => reconcile home away model mt is_regressor probs x
              | None => Some (no_features_fallback probs mt)
              end) = Some r ->
             is_outcome (outcome r)
             /\ (forall probs, historical_probs r = Some probs ->
                 use_historical probs = true -> final_prediction r <> Some INVALID)).
  { intros input [probs mt]. destruct input as [x|].
    - intro E. apply reconcile_outcome in E. destruct E as (Ho & Hh & Hu & _).
      split; [exact Ho|]. intros probs' Hp Hu'. rewrite Hh in Hp. injection Hp as <-.
      rewrite (Hu Hu'). now apply INVALID_is_no_outcome.
    - intro E. injection E as <-.
      destruct (no_features_fallback_outcome probs mt) as [Ho Hf].
      split; [exact Ho|]. intros probs' _ _. rewrite Hf. discriminate. }
  intro E. eapply Hgen. exact E.
Qed.

Lemma form_based_fallback_outcome (home away : string) :
  is_outcome (outcome (form_based_fallback home away))
  /\ final_prediction (form_based_fallback home away) = None.
Proof.
  unfold form_based_fallback. destruct (get_enhanced_features home away) as [hs aw].
  destruct (strength_table (hs - aw)) as [[h d] a]. cbn [outcome final_prediction].
  split; [apply outcome_map_is_outcome | reflexivity].
Qed.

Lemma model2_missing_fallback_outcome (home away : string) (data : Table) :
  is_outcome (outcome (model2_missing_fallback home away data))
  /\ final_prediction (model2_missing_fallback home away data) = None.
Proof.
  unfold model2_missing_fallback. destruct (get_enhanced_features home away) as [hs aw].
  destruct (Qltb (Qabs (hs - aw)) 0.1); [|destruct (Qltb 0.15 (hs - aw))];
    cbn [outcome final_prediction]; unfold is_outcome; auto.
Qed.

Lemma advanced_predict_match_outcome (home away : string)
    (model1 model2 : option (Model Features)) (r : Result) :
  advanced_predict_match home away model1 model2 = Some r ->
  is_outcome (outcome r)
  /\ (forall probs, historical_probs r = Some probs -> use_historical probs = true ->
      final_prediction r <> Some INVALID).
Proof.
  unfold advanced_predict_match. cbv zeta.
  destruct (empty _).
  { intro E. injection E as <-. destruct (form_based_fallback_outcome home away) as [Ho Hf].
    split; [exact Ho|]. intros ? _ _. rewrite Hf. discriminate. }
  destruct (both_in main_teams home away).
  { destruct model1 as [m|]; [|discriminate]. apply predict_with_model_outcome. }
  destruct (both_in other_teams home away); [|discriminate].
  destruct model2 as [m|]; [apply predict_with_model_outcome|].
  intro E. injection E as <-.
  destruct (model2_missing_fallback_outcome home away
              (load_football_data (required_dataset home away))) as [Ho Hf].
  split; [exact Ho|]. intros ? _ _. rewrite Hf. discriminate.
Qed.

Lemma outcome_of_final_invalid (prediction : Z) :
  outcome_of_final INVALID prediction = outcome_map prediction.
Proof. reflexivity. Qed.

Lemma reconcile_final_field (home away : string) (model : Model Features)
    (model_type : string) (is_regressor : bool) (probs : dict string Q)
    (input_data : Features) (r : Result) :
  reconcile home away model model_type is_regressor probs input_data = Some r ->
  final_field r.
Proof.
  intro E. right. exists probs. revert E. unfold reconcile. cbv zeta.
  destruct (if is_regressor then _ else _) as [pd|]; [|discriminate].
  destruct (use_historical probs) eqn:Hu.
  - intro E. injection E as <-.
    cbn [outcome historical_probs final_prediction prediction_number].
    split; [reflexivity|]. split; [reflexivity|].
    intro H. exfalso. revert H. apply INVALID_is_no_outcome, outcome_map_is_outcome.
  - destruct probs as [|kv probs'].
    + intro E. injection E as <-.
      cbn [outcome historical_probs final_prediction prediction_number].
      split; [reflexivity|]. split; [discriminate|].
      intro H. exfalso. revert H. apply INVALID_is_no_outcome, outcome_map_is_outcome.
    + intro E. injection E as <-.
      cbn [outcome historical_probs final_prediction prediction_number].
      split; [reflexivity|]. split; [discriminate|].
      intro H. injection H as H.
      split; [reflexivity|]. split; [discriminate|].
      destruct (Qleb 0.05 _); [reflexivity|]. rewrite H. apply outcome_of_final_invalid.
Qed.

Lemma predict_with_model_final_field (home away : string) (data : Table)
    (model : Model Features) (model_type : string) (is_regressor : bool) (r : Result) :
  predict_with_model home away data model model_type is_regressor = Some r ->
  final_field r.
Proof.
  unfold predict_with_model. cbv zeta.
  assert (Hgen : forall (input : option Features) (pm : dict string Q * string),
             (let '(probs, mt) := pm in
              match input with
              | Some x => reconcile home away model mt is_regressor probs x
              | None => Some (no_features_fallback probs mt)
              end) = Some r ->
             final_field r).
  { intros input [probs mt]. destruct input as [x|].
    - apply reconcile_final_field.
    - intro E. injection E as <-. left.
      apply (no_features_fallback_outcome probs mt). }
  intro E. eapply Hgen. exact E.
Qed.

Lemma advanced_predict_match_final_field (home away : string)
    (model1 model2 : option (Model Features)) (r : Result) :
  advanced_predict_match home away model1 model2 = Some r -> final_field r.
Proof.
  unfold advanced_predict_match. cbv zeta.
  destruct (empty _).
  { intro E. injection E as <-. left. apply form_based_fallback_outcome. }
  destruct (both_in main_teams home away).
  { destruct model1 as [m|]; [|discriminate]. apply predict_with_model_final_field. }
  destruct (both_in other_teams home away); [|discriminate].
  destruct model2 as [m|]; [apply predict_with_model_final_field|].
  intro E. injection E as <-. left. apply model2_missing_fallback_outcome.
Qed.

(** C3 (amended).  For every raw prediction that [float()] converts to a
    finite number other than 0, 1 and 2 and outside the three ranges,
    [determine_final_prediction] returns the explicit invalid-prediction
    string; a Python int too large for [float()] raises instead and gets
    the handler's "Home Team Win".  [advanced_predict_match] does not
    report the invalid string as its outcome: the outcome of every
    returned result is Home, Draw or Away.  The [final_prediction] field
    is absent on the fallback paths; otherwise it equals the outcome when
    the historical triple spreads over more than 10 points, and it can be
    the invalid string only when the triple is not empty and spreads over
    at most 10 points, in which case the outcome reported beside it is the
    name of the predicted class.  On the controller path with such a
    triple the field is the label of [determine_final_prediction], so the
    invalid string does reach the caller there, in that field only. *)
Theorem invalid_prediction_handling :
  (forall pred v probs,
      py_float pred = Some (Fin v) -> outside_buckets v ->
      determine_final_prediction pred probs = INVALID)
  /\ (forall z probs,
         (float_limit <= Z.abs z)%Z ->
         determine_final_prediction (PyInt z) probs = "Home Team Win")
  /\ (forall home away model1 model2 r,
         advanced_predict_match home away model1 model2 = Some r ->
         is_outcome (outcome r)
         /\ (final_prediction r = None
             \/ exists probs,
                  historical_probs r = Some probs
                  /\ (use_historical probs = true ->
                      final_prediction r = Some (outcome r))
                  /\ (final_prediction r = Some INVALID ->
                      use_historical probs = false /\ probs <> []
                      /\ outcome r = outcome_map (prediction_number r))))
  /\ (forall home away model model_type is_regressor probs input_data r,
         reconcile home away model model_type is_regressor probs input_data = Some r ->
         use_historical probs = false -> probs <> [] ->
         final_prediction r
         = Some (determine_final_prediction (raw_prediction model input_data) (Some probs))).
Proof.
  split; [|split; [|split]].
  - intros pred v probs Hf H. unfold determine_final_prediction.
    now rewrite Hf, (model_outcome_of_outside v H).
  - intros z probs H. unfold determine_final_prediction.
    now rewrite (py_float_overflow z H).
  - intros home away model1 model2 r E. split.
    + now apply (advanced_predict_match_outcome home away model1 model2 r).
    + now apply (advanced_predict_match_final_field home away model1 model2 r).
  - intros home away model model_type is_regressor probs input_data r E Hu Hne.
    apply reconcile_outcome in E. destruct E as (_ & _ & _ & H). now apply H.
Qed.

(** C8 (amended). For a pair of teams that straddles the two (disjoint)
    categories, dataset 1, the European one, is the dataset loaded.  When
    that dataset is empty the result is the form-based fallback, tagged
    "Model1 (Form-Based Fallback)"; when it is not empty no model is
    consulted and the function returns no result ([None]). *)
Theorem straddling_pair_result :
  forall (home away : string) (model1 model2 : option (Model Features)),
    main_teams ## other_teams ->
    straddles main_teams other_teams home away ->
    required_dataset home away = 1%Z
    /\ advanced_predict_match home away model1 model2
       = (if empty (load_football_data 1)
          then Some (form_based_fallback home away)
          else None)
    /\ model_type (form_based_fallback home away) = "Model1 (Form-Based Fallback)".
Proof.
  intros home away model1 model2 Hdisj Hs.
  assert (Hm : both_in main_teams home away = false).
  { unfold both_in. apply andb_false_iff.
    destruct Hs as [[_ Ha] | [Hh _]]; [right | left];
      apply bool_decide_eq_false; set_solver. }
  assert (Ho : both_in other_teams home away = false).
  { unfold both_in. apply andb_false_iff.
    destruct Hs as [[Hh _] | [_ Ha]]; [left | right];
      apply bool_decide_eq_false; set_solver. }
  assert (Hd : required_dataset home away = 1%Z).
  { unfold required_dataset. now rewrite Hm, Ho. }
  split; [exact Hd|]. split.
  - unfold advanced_predict_match. cbv zeta. rewrite Hd, Hm, Ho.
    now destruct (empty (load_football_data 1)).
  - unfold form_based_fallback. destruct (get_enhanced_features home away) as [hs aw].
    destruct (strength_table (hs - aw)) as [[h d] a]. cbn [model_type]. now rewrite Ho.
Qed.

(** ** More on the decision table *)

Lemma model_outcome_of_single (pred_val : pyfloat) (model_outcome : string) :
  model_outcome_of pred_val = Some model_outcome -> single_outcome model_outcome.
Proof.
  unfold model_outcome_of, single_outcome. destruct pred_val as [v| |neg]; try discriminate.
  repeat match goal with
         | |- (if ?c then _ else _) = _ -> _ => destruct c
         end;
    try discriminate; intro E; injection E as <-; auto.
Qed.

Lemma decision_table_model_or_double_chance (model_outcome : string) (probs : dict string Q) :
  decision_table model_outcome probs = model_outcome
  \/ double_chance (decision_table model_outcome probs).
Proof.
  unfold decision_table, double_chance. destruct (values probs) as [|v0 vs]; [now left|].
  cbv zeta.
  repeat match goal with
         | |- context [if ?c then _ else _] => destruct c
         end; auto.
Qed.

(** X1. Whatever the historical probabilities are, a raw prediction that
    falls in a bucket is answered with the model's own outcome or with a
    double-chance label: history never replaces the model's outcome by
    another single outcome. *)
Theorem final_prediction_model_or_double_chance :
  forall pred pred_val model_outcome probs,
    py_float pred = Some pred_val ->
    model_outcome_of pred_val = Some model_outcome ->
    determine_final_prediction pred probs = model_outcome
    \/ double_chance (determine_final_prediction pred probs).
Proof.
  intros pred pred_val model_outcome probs Hf Hm.
  unfold determine_final_prediction. rewrite Hf, Hm.
  destruct probs as [[|kv probs]|]; try now left.
  apply decision_table_model_or_double_chance.
Qed.

(** Evaluate the decision table on a triple by cases on the comparisons. *)
Ltac decide_triple :=
  unfold decision_table, triple, values; simpl map;
  unfold Qmax_list; simpl fold_left;
  unfold highest_outcomes_of, close_ties_of;
  repeat (cbn -[Qabs Qminus Qplus Qeqb Qleb Qltb]; case_Q; try solve [solve_Q]);
  try reflexivity.

Lemma two_way_tie_table :
  forall (model_outcome : string) (h d a : Q),
    single_outcome model_outcome ->
    (h == d -> a < h ->
     decision_table model_outcome (triple h d a)
     = if String.eqb model_outcome AWAY then "Home Team Win or Draw" else model_outcome)
    /\ (a == d -> h < a ->
        decision_table model_outcome (triple h d a)
        = if String.eqb model_outcome HOME then "Away Team Win or Draw" else model_outcome)
    /\ (h == a -> d < h ->
        decision_table model_outcome (triple h d a)
        = if String.eqb model_outcome DRAW then "Home Team Win or Away Team Win"
          else model_outcome).
Proof.
  intros model_outcome h d a Hm.
  split; [|split]; intros Heq Hlt; destruct Hm as [-> | [-> | ->]]; decide_triple.
Qed.

Lemma close_runner_up_table :
  forall (model_outcome : string) (h d a : Q),
    single_outcome model_outcome ->
    (d < h -> h <= d + 5 -> a + 5 < h ->
     decision_table model_outcome (triple h d a)
     = if String.eqb model_outcome HOME then HOME else "Home Team Win or Draw")
    /\ (h < d -> d <= h + 5 -> a + 5 < d ->
        decision_table model_outcome (triple h d a)
        = if String.eqb model_outcome DRAW then DRAW else "Home Team Win or Draw")
    /\ (d < a -> a <= d + 5 -> h + 5 < a ->
        decision_table model_outcome (triple h d a)
        = if String.eqb model_outcome AWAY then AWAY else "Away Team Win or Draw")
    /\ (a < d -> d <= a + 5 -> h + 5 < d ->
        decision_table model_outcome (triple h d a)
        = if String.eqb model_outcome DRAW then DRAW else "Away Team Win or Draw")
    /\ (~ h == a -> h <= a + 5 -> a <= h + 5 -> d + 5 < h -> d + 5 < a ->
        decision_table model_outcome (triple h d a)
        = if String.eqb model_outcome DRAW then "Home Team Win or Away Team Win"
          else model_outcome).
Proof.
  intros model_outcome h d a Hm.
  repeat split; intros; destruct Hm as [-> | [-> | ->]]; decide_triple.
Qed.

Lemma near_three_way_tie_table :
  forall (model_outcome : string) (h d a : Q),
    single_outcome model_outcome ->
    ((d < h /\ a < h /\ h <= d + 5 /\ h <= a + 5)
     \/ (h < d /\ a < d /\ d <= h + 5 /\ d <= a + 5)
     \/ (h < a /\ d < a /\ a <= h + 5 /\ a <= d + 5)) ->
    decision_table model_outcome (triple h d a) = model_outcome.
Proof.
  intros model_outcome h d a Hm Hc.
  destruct Hc as [(?&?&?&?) | [(?&?&?&?) | (?&?&?&?)]];
    destruct Hm as [-> | [-> | ->]]; decide_triple.
Qed.

Lemma determine_final_prediction_on_triple (pred : pyval) (pred_val : pyfloat)
    (model_outcome : string) (h d a : Q) :
  py_float pred = Some pred_val ->
  model_outcome_of pred_val = Some model_outcome ->
  determine_final_prediction pred (Some (triple h d a))
  = decision_table model_outcome (triple h d a).
Proof.
  intros Hf Hm. unfold determine_final_prediction. now rewrite Hf, Hm.
Qed.

(** X2. Two outcomes exactly tied at the top of the historical triple, the
    third strictly below: the model's outcome is returned when it is one of
    the two leaders, and the double chance of the two leaders otherwise. *)
Theorem two_way_tie_at_the_top :
  forall pred pred_val model_outcome (h d a : Q),
    py_float pred = Some pred_val ->
    model_outcome_of pred_val = Some model_outcome ->
    let final := determine_final_prediction pred (Some (triple h d a)) in
    (h == d -> a < h ->
     final = if String.eqb model_outcome AWAY then "Home Team Win or Draw" else model_outcome)
    /\ (a == d -> h < a ->
        final = if String.eqb model_outcome HOME then "Away Team Win or Draw"
                else model_outcome)
    /\ (h == a -> d < h ->
        final = if String.eqb model_outcome DRAW then "Home Team Win or Away Team Win"
                else model_outcome).
Proof.
  intros pred pred_val model_outcome h d a Hf Hm. cbv zeta.
  rewrite (determine_final_prediction_on_triple _ _ _ h d a Hf Hm).
  apply two_way_tie_table. eapply model_outcome_of_single; eauto.
Qed.

(** X3. A leader of the historical triple with one runner-up within five
    points and the third outcome more than five points behind.  For the
    pairs Home/Draw and Away/Draw the model's outcome is returned only when
    it is the leader; otherwise the pair's double chance is returned, also
    when the model picks the runner-up.  For the pair Home/Away the model's
    Home or Away is returned, and its Draw becomes the Home-or-Away double
    chance. *)
Theorem close_runner_up :
  forall pred pred_val model_outcome (h d a : Q),
    py_float pred = Some pred_val ->
    model_outcome_of pred_val = Some model_outcome ->
    let final := determine_final_prediction pred (Some (triple h d a)) in
    (d < h -> h <= d + 5 -> a + 5 < h ->
     final = if String.eqb model_outcome HOME then HOME else "Home Team Win or Draw")
    /\ (h < d -> d <= h + 5 -> a + 5 < d ->
        final = if String.eqb model_outcome DRAW then DRAW else "Home Team Win or Draw")
    /\ (d < a -> a <= d + 5 -> h + 5 < a ->
        final = if String.eqb model_outcome AWAY then AWAY else "Away Team Win or Draw")
    /\ (a < d -> d <= a + 5 -> h + 5 < d ->
        final = if String.eqb model_outcome DRAW then DRAW else "Away Team Win or Draw")
    /\ (~ h == a -> h <= a + 5 -> a <= h + 5 -> d + 5 < h -> d + 5 < a ->
        final = if String.eqb model_outcome DRAW then "Home Team Win or Away Team Win"
                else model_outcome).
Proof.
  intros pred pred_val model_outcome h d a Hf Hm. cbv zeta.
  rewrite (determine_final_prediction_on_triple _ _ _ h d a Hf Hm).
  apply close_runner_up_table. eapply model_outcome_of_single; eauto.
Qed.

(** X4. A single leader with both other outcomes within five points of it
    (a near three-way tie): no case of the table matches and the model's
    outcome is returned. *)
Theorem near_three_way_tie :
  forall pred pred_val model_outcome (h d a : Q),
    py_float pred = Some pred_val ->
    model_outcome_of pred_val = Some model_outcome ->
    ((d < h /\ a < h /\ h <= d + 5 /\ h <= a + 5)
     \/ (h < d /\ a < d /\ d <= h + 5 /\ d <= a + 5)
     \/ (h < a /\ d < a /\ a <= h + 5 /\ a <= d + 5)) ->
    determine_final_prediction pred (Some (triple h d a)) = model_outcome.
Proof.
  intros pred pred_val model_outcome h d a Hf Hm Hc.
  rewrite (determine_final_prediction_on_triple _ _ _ h d a Hf Hm).
  apply near_three_way_tie_table; [eapply model_outcome_of_single; eauto | exact Hc].
Qed.

(** ** More on the historical probability engine *)











Lemma number_rows_filter (p : Match -> bool) (l : list Match) :
  number_rows l -> number_rows (List.filter p l).
Proof.
  unfold number_rows. induction 1 as [|r l Hr _ IH]; cbn [List.filter]; [constructor|].
  destruct (p r); [constructor|]; assumption.
Qed.




(** ** Swapping the two names on one table *)

Lemma text_results_filter (p : Match -> bool) (l : list Match) :
  text_results l -> text_results (List.filter p l).
Proof.
  unfold text_results. induction 1 as [|r l Hr _ IH]; cbn [List.filter]; [constructor|].
  destruct (p r); [constructor|]; assumption.
Qed.

Lemma text_results_head (l : list Match) (sample : Match) (rest : list Match) :
  text_results l -> l = sample :: rest -> cell_is_numeric (result sample) = false.
Proof. intros H ->. now inversion H. Qed.

(** X7. On a table without numeric or missing result cells, and for a pair
    with at least one fixture in either direction, exchanging the two names
    exchanges the Home and Away percentages and keeps the Draw percentage. *)
Theorem swapping_names_swaps_home_and_away :
  forall (A B : string) (T : Table) (ver : version),
    has_schema T ver = true ->
    text_results (rows T) ->
    (fixtures A B (rows T) ++ fixtures B A (rows T))%list <> [] ->
    calculate_probabilities_original B A T ver
    = swap_home_away (calculate_probabilities_original A B T ver).
Proof.
  intros A B T ver Hs Htxt Hne.
  assert (Hrows : rows T <> []).
  { intro E. apply Hne. rewrite E. reflexivity. }
  assert (He : empty T || Nat.eqb (n_columns T) 0 = false).
  { unfold empty, has_schema, n_columns in *. destruct (schema T); [|discriminate].
    destruct (rows T); [contradiction|]. reflexivity. }
  unfold calculate_probabilities_original. cbv zeta. rewrite He, Hs. cbn [negb].
  set (hh := fixtures A B (rows T)) in *. set (ha := fixtures B A (rows T)) in *.
  assert (Hhh : text_results hh) by (apply text_results_filter; exact Htxt).
  assert (Hha : text_results ha) by (apply text_results_filter; exact Htxt).
  assert (Hlen : length (ha ++ hh)%list = length (hh ++ ha)%list).
  { rewrite !length_app. lia. }
  destruct (hh ++ ha)%list as [|s1 r1] eqn:E1; [contradiction|].
  destruct (ha ++ hh)%list as [|s2 r2] eqn:E2; [cbn in Hlen; lia|].
  assert (H1 : cell_is_numeric (result s1) = false).
  { apply (text_results_head (hh ++ ha) s1 r1); [apply Forall_app; split; assumption | exact E1]. }
  assert (H2 : cell_is_numeric (result s2) = false).
  { apply (text_results_head (ha ++ hh) s2 r2); [apply Forall_app; split; assumption | exact E2]. }
  rewrite H1, H2, Hlen. cbv iota.
  change (Nat.ltb 0 (length (s1 :: r1))) with true. cbv iota.
  unfold swap_home_away, triple. cbn [get String.eqb Ascii.eqb Bool.eqb HOME DRAW AWAY].
  rewrite (Nat.add_comm (count_rows _ ha) (count_rows _ hh)).
  rewrite (Nat.add_comm (count_rows (fun c => cell_is_str c "D") ha)).
  rewrite (Nat.add_comm (count_rows (fun c => cell_is_str c "A") ha)).
  reflexivity.
Qed.

(** ** The two probability calculators agree *)

Lemma fixtures_of_stripped (x y : string) (l : list Match) :
  stripped x -> stripped y -> stripped_names l ->
  fixtures x y l
  = List.filter (fun r => String.eqb (home_team r) x && String.eqb (away_team r) y) l.
Proof.
  unfold stripped, stripped_names, fixtures. intros Hx Hy Hl.
  induction Hl as [|r l [Hh Ha] _ IH]; [reflexivity|].
  cbn [List.filter]. rewrite IH, Hx, Hy. unfold stripped in Hh, Ha. rewrite Hh, Ha.
  reflexivity.
Qed.

(** X8. On a table whose team names carry no surrounding whitespace and
    whose result cells are text, whenever the Model2 calculator returns a
    triple for two (stripped) names it is the triple of the original
    calculator under the detected schema. *)
Theorem model2_triple_agrees_with_original :
  forall (home away : string) (T : Table) (given : version) (probs : dict string Q),
    stripped home -> stripped away ->
    stripped_names (rows T) -> text_results (rows T) ->
    calculate_probabilities_model2 home away T given = Some probs ->
    probs = calculate_probabilities_original home away T (detect_version T given).
Proof.
  intros home away T given probs Hh Ha Hn Htxt.
  unfold calculate_probabilities_model2, calculate_probabilities_original. cbv zeta.
  destruct (has_schema T (detect_version T given)) eqn:Hs; [|discriminate]. cbn [negb].
  rewrite (fixtures_of_stripped home away _ Hh Ha Hn).
  rewrite (fixtures_of_stripped away home _ Ha Hh Hn).
  set (d1 := List.filter _ (rows T)). set (d2 := List.filter _ (rows T)).
  assert (H1 : text_results d1) by (apply text_results_filter; exact Htxt).
  assert (H2 : text_results d2) by (apply text_results_filter; exact Htxt).
  assert (Hne : (d1 ++ d2)%list <> [] -> empty T || Nat.eqb (n_columns T) 0 = false).
  { intro Hne. unfold empty, has_schema, n_columns in *.
    destruct (schema T); [|discriminate].
    destruct (rows T) as [|r rs] eqn:Er; [|reflexivity].
    exfalso. apply Hne. subst d1 d2. reflexivity. }
  destruct (d1 ++ d2)%list as [|sample rest] eqn:E.
  { apply app_eq_nil in E. destruct E as [-> ->]. discriminate. }
  rewrite (Hne ltac:(discriminate)).
  assert (Hsample : cell_is_numeric (result sample) = false).
  { apply (text_results_head (d1 ++ d2) sample rest);
      [apply Forall_app; split; assumption | exact E]. }
  rewrite Hsample. cbv iota.
  change (Nat.ltb 0 (length (sample :: rest))) with true. cbv iota.
  rewrite <- E, length_app.
  destruct d1 as [|r1 l1]; destruct d2 as [|r2 l2]; try discriminate;
    intro Ep; injection Ep as <-; reflexivity.
Qed.

(** ** Team strength *)

Lemma clamp_from_below (lo s : Q) :
  0 <= lo <= 1 -> lo <= s -> lo <= Qmin2 1.0 (Qmax2 0.0 s) <= 1.
Proof.
  intros. unfold Qmin2, Qmax2.
  destruct (Qltb 0.0 s) eqn:E1; destruct (Qltb _ 1.0) eqn:E2; reflect_Q; lra.
Qed.

Lemma clamp_from_above (hi s : Q) :
  0 <= hi <= 1 -> s <= hi -> 0 <= Qmin2 1.0 (Qmax2 0.0 s) <= hi.
Proof.
  intros. unfold Qmin2, Qmax2.
  destruct (Qltb 0.0 s) eqn:E1; destruct (Qltb _ 1.0) eqn:E2; reflect_Q; lra.
Qed.

(** X9. The strength of a team is always within [0, 1]; for the home side
    it is at least 0.08 (the home bonus), for the away side at most 0.98
    (the away penalty), whatever the tables and the name are. *)
Theorem team_strength_bounds :
  forall (team_name : string),
    0.08 <= calculate_team_strength team_name true <= 1
    /\ 0 <= calculate_team_strength team_name false <= 0.98.
Proof.
  intro team_name. unfold calculate_team_strength. cbv zeta.
  set (fs := match (if negb (empty (load_football_data 1)) then _ else None) with
             | Some s => _ | None => _ end).
  pose proof (form_strength_unit_interval fs) as Hs.
  destruct (negb (String.eqb fs "") && Nat.leb 5 (String.length fs)); [|lra].
  split.
  - apply clamp_from_below; lra.
  - destruct (Qltb 0.6 (form_strength fs)) eqn:E; reflect_Q; apply clamp_from_above; lra.
Qed.

Lemma weighted_loop_monotone (cs cs' : list ascii) :
  Forall2 (fun c c' => form_points c <= form_points c') cs cs' ->
  forall (i : nat) (acc acc' : Q * Q),
    fst acc <= fst acc' -> snd acc = snd acc' ->
    fst (weighted_loop i cs acc) <= fst (weighted_loop i cs' acc')
    /\ snd (weighted_loop i cs acc) = snd (weighted_loop i cs' acc').
Proof.
  induction 1 as [|c c' cs cs' Hc _ IH]; intros i acc acc' Hf Hs; [now split|].
  cbn [weighted_loop]. apply IH; cbn [fst snd]; [|now rewrite Hs].
  assert (Hw : 0 <= nth i weights 1.0).
  { unfold weights. do 5 (destruct i as [|i]; [cbn; lra|]). destruct i; cbn; lra. }
  nra.
Qed.

Lemma Forall2_firstn {A B} (P : A -> B -> Prop) (n : nat) (l : list A) (l' : list B) :
  Forall2 P l l' -> Forall2 P (firstn n l) (firstn n l').
Proof.
  intro H. revert n. induction H; intros [|n]; cbn; constructor; auto.
Qed.

(** X10. The form strength is monotone: if, position by position, one form
    is worth at least as many points as another, its strength is at least
    as high. *)
Theorem form_strength_monotone :
  forall (s s' : string), no_worse s s' -> form_strength s <= form_strength s'.
Proof.
  intros s s' H. unfold form_strength, no_worse in *.
  pose proof (weighted_loop_monotone _ _ (Forall2_firstn _ 5 _ _ H) 0 (0, 0) (0, 0)
                ltac:(cbn; lra) eq_refl) as [Hf Hs].
  pose proof (weighted_loop_bounds (firstn 5 (list_ascii_of_string s)) 0 (0, 0)
                ltac:(cbn; lra)) as Hb.
  destruct (weighted_loop 0 (firstn 5 (list_ascii_of_string s)) (0, 0)) as [wp m].
  destruct (weighted_loop 0 (firstn 5 (list_ascii_of_string s')) (0, 0)) as [wp' m'].
  cbn [fst snd] in *. subst m'.
  destruct (Qltb 0 m) eqn:E; reflect_Q; [|lra].
  apply Qle_shift_div_l; [exact E|].
  assert (Hx : wp / m * m == wp) by (field; lra). lra.
Qed.

(** ** Surrounding whitespace in team names *)

Lemma lstrip_head (s : string) :
  match Str.lstrip s with
  | String c _ => Str.is_space c = false
  | EmptyString => True
  end.
Proof.
  induction s as [|c s IH]; [exact I|].
  cbn [Str.lstrip]. destruct (Str.is_space c) eqn:E; [exact IH|exact E].
Qed.

Lemma rstrip_idempotent (s : string) : Str.rstrip (Str.rstrip s) = Str.rstrip s.
Proof.
  induction s as [|c s IH]; [reflexivity|].
  cbn [Str.rstrip]. destruct (Str.rstrip s) as [|c' r] eqn:E.
  - destruct (Str.is_space c) eqn:Ec; [reflexivity|]. cbn. now rewrite Ec.
  - cbn [Str.rstrip]. cbn [Str.rstrip] in IH. now rewrite IH.
Qed.

Lemma rstrip_head (s : string) (c : ascii) (s' : string) :
  s = String c s' -> Str.is_space c = false ->
  exists r, Str.rstrip s = String c r.
Proof.
  intros -> Hc. cbn [Str.rstrip]. rewrite Hc.
  destruct (Str.rstrip s'); eauto.
Qed.

Lemma strip_idempotent (s : string) : Str.strip (Str.strip s) = Str.strip s.
Proof.
  unfold Str.strip. pose proof (lstrip_head s) as H.
  destruct (Str.lstrip s) as [|c t] eqn:E; [reflexivity|].
  destruct (rstrip_head _ c t eq_refl H) as [r Hr]. rewrite Hr.
  cbn [Str.lstrip]. rewrite H, <- Hr. apply rstrip_idempotent.
Qed.

Lemma clean_team_name_strip (s : string) : clean_team_name s = Str.strip s.
Proof.
  unfold clean_team_name. destruct (String.eqb_spec s ""); [now subst|reflexivity].
Qed.

Lemma hash_form_strip (s : string) : hash_form (Str.strip s) = hash_form s.
Proof. unfold hash_form. now rewrite strip_idempotent. Qed.

Lemma recent_form_strip (team_name : string) (data : Table) (given : version) :
  get_team_recent_form_original (Str.strip team_name) data given
  = get_team_recent_form_original team_name data given.
Proof.
  unfold get_team_recent_form_original. now rewrite strip_idempotent, !hash_form_strip.
Qed.

Lemma team_strength_strip (team_name : string) (is_home : bool) :
  calculate_team_strength (Str.strip team_name) is_home
  = calculate_team_strength team_name is_home.
Proof.
  unfold calculate_team_strength. now rewrite recent_form_strip, hash_form_strip.
Qed.

(** X11. Cleaning the names as the views do (clean_team_name: strip) never
    changes what the engine computes from them: the cleaner is idempotent,
    and the recent form, the team strength and the historical triple are
    the same for the cleaned names as for the raw ones. *)
Theorem cleaning_names_changes_nothing :
  forall (home away : string) (data : Table) (given : version) (is_home : bool),
    clean_team_name (clean_team_name home) = clean_team_name home
    /\ get_team_recent_form_original (clean_team_name home) data given
       = get_team_recent_form_original home data given
    /\ calculate_team_strength (clean_team_name home) is_home
       = calculate_team_strength home is_home
    /\ calculate_probabilities_original (clean_team_name home) (clean_team_name away)
         data given
       = calculate_probabilities_original home away data given.
Proof.
  intros. rewrite !clean_team_name_strip. repeat split.
  - apply strip_idempotent.
  - apply recent_form_strip.
  - apply team_strength_strip.
  - unfold calculate_probabilities_original, get_enhanced_features, fixtures.
    now rewrite !team_strength_strip, !strip_idempotent.
Qed.

(** ** Head-to-head form *)

Lemma In_insert_desc (x y : dated) (l : list dated) :
  In y (insert_desc x l) -> y = x \/ In y l.
Proof.
  induction l as [|z l IH]; cbn [insert_desc].
  - intros [<-|[]]. now left.
  - destruct (fst z <? fst x)%Z; cbn [In].
    + intros [<-|[<-|H]]; auto.
    + intros [<-|H]; auto. destruct (IH H); auto.
Qed.

Lemma In_sort_desc (y : dated) (l : list dated) : In y (sort_desc l) -> In y l.
Proof.
  unfold sort_desc.
  assert (G : forall acc, In y (fold_left (fun acc x => insert_desc x acc) l acc) ->
                          In y acc \/ In y l).
  { induction l as [|x l IH]; intros acc H; cbn [fold_left] in H; [now left|].
    destruct (IH _ H) as [H'|H']; [|right; now right].
    destruct (In_insert_desc _ _ _ H') as [->|H'']; [right; now left|now left]. }
  intro H. destruct (G [] H) as [[]|H']. exact H'.
Qed.


Lemma In_firstn_list {A} (n : nat) (x : A) (l : list A) : In x (firstn n l) -> In x l.
Proof.
  revert l. induction n as [|n IH]; intros [|y l]; cbn; try tauto.
  intros [H|H]; auto.
Qed.

Lemma map_chars_string_of_list (f : ascii -> ascii) (l : list ascii) :
  Str.map_chars f (string_of_list_ascii l) = string_of_list_ascii (map f l).
Proof. induction l as [|c l IH]; cbn; [reflexivity|now rewrite IH]. Qed.

(** X12. The two head-to-head forms of a pair of different teams mirror each
    other on a table whose results are the letters H/D/A: the away team's
    form is the home team's form with W and L exchanged, draws in the same
    places; both have the same length, at most five. *)
Theorem h2h_forms_mirror_each_other :
  forall (home away : string) (data : Table) (given : version),
    home <> away -> letter_coded data ->
    snd (get_head_to_head_form_model2 home away data given)
    = Str.map_chars opposite (fst (get_head_to_head_form_model2 home away data given))
    /\ (String.length (fst (get_head_to_head_form_model2 home away data given)) <= 5)%nat
    /\ String.length (snd (get_head_to_head_form_model2 home away data given))
       = String.length (fst (get_head_to_head_form_model2 home away data given)).
Proof.
  intros home away data given Hne Hl. unfold get_head_to_head_form_model2. cbv zeta.
  destruct (negb (has_date data)); [cbn; repeat split; lia|].
  destruct (negb (has_schema data _)); [cbn; repeat split; lia|].
  cbn [fst snd].
  set (h2h := firstn 5 (sort_desc _)).
  rewrite map_chars_string_of_list, !length_string_of_list_ascii, !length_map, map_map.
  split; [|split; [unfold h2h; apply firstn_le_length|reflexivity]].
  f_equal. apply map_ext_in. intros dr Hin.
  unfold h2h in Hin. apply In_firstn_list, In_sort_desc in Hin.
  apply filter_In in Hin as [Hin Hp].
  apply In_dated_rows in Hin.
  assert (Hres : result (snd dr) = CStr "H" \/ result (snd dr) = CStr "D"
                 \/ result (snd dr) = CStr "A").
  { unfold letter_coded, letter_rows in Hl. rewrite List.Forall_forall in Hl. now apply Hl. }
  destruct (String.eqb_spec (home_team (snd dr)) home) as [Eh|Eh];
    destruct (String.eqb_spec (away_team (snd dr)) away) as [Ea|Ea];
    destruct (String.eqb_spec (home_team (snd dr)) away) as [Eh'|Eh'];
    destruct (String.eqb_spec (away_team (snd dr)) home) as [Ea'|Ea'];
    try discriminate Hp; try congruence;
    rewrite ?Eh, ?Ea, ?Eh', ?Ea';
    rewrite ?String.eqb_refl;
    (destruct (String.eqb_spec home away) as [E|_]; [congruence|]);
    (destruct (String.eqb_spec away home) as [E|_]; [congruence|]);
    destruct Hres as [-> | [-> | ->]]; reflexivity.
Qed.

(** ** The two recent-form calculators *)

Lemma fill_failed_none (first second : list (option Z)) :
  Forall (fun p => p = None) second -> fill_failed first second = first.
Proof.
  revert second. induction first as [|[d|] first IH]; intros second H; cbn [fill_failed].
  - reflexivity.
  - now rewrite IH.
  - destruct H as [|s second Hs H]; [now rewrite IH|]. subst s. now rewrite IH.
Qed.

Lemma parse_dates_first_pass (l : list Match) :
  first_pass_dates l ->
  parse_dates l = dated_rows (to_datetime false (map date l)) l.
Proof.
  intro H. unfold parse_dates. now rewrite fill_failed_none.
Qed.

Lemma exact_rows_of_stripped (team_name : string) (df : list dated) :
  stripped team_name ->
  Forall (fun dr : dated => stripped (home_team (snd dr)) /\ stripped (away_team (snd dr))) df ->
  List.filter (fun dr => String.eqb (Str.strip (home_team (snd dr))) team_name
                    || String.eqb (Str.strip (away_team (snd dr))) team_name) df
  = List.filter (fun dr => String.eqb (home_team (snd dr)) team_name
                      || String.eqb (away_team (snd dr)) team_name) df.
Proof.
  intros Ht Hl. induction Hl as [|dr df [Hh Ha] _ IH]; [reflexivity|].
  cbn [List.filter]. unfold stripped in Hh, Ha. now rewrite IH, Hh, Ha.
Qed.

Lemma find_recent_matches_exact (team_name_clean : string) (df : list dated) :
  List.filter (fun dr => String.eqb (Str.strip (home_team (snd dr))) team_name_clean
                    || String.eqb (Str.strip (away_team (snd dr))) team_name_clean) df <> [] ->
  find_recent_matches team_name_clean df
  = List.filter (fun dr => String.eqb (Str.strip (home_team (snd dr))) team_name_clean
                      || String.eqb (Str.strip (away_team (snd dr))) team_name_clean) df.
Proof.
  intro H. unfold find_recent_matches. cbv zeta.
  set (exact := List.filter
                  (fun dr : Z * Match => String.eqb (Str.strip (home_team (snd dr))) team_name_clean
                     || String.eqb (Str.strip (away_team (snd dr))) team_name_clean) df) in *.
  clearbody exact. destruct exact; [congruence|reflexivity].
Qed.

Lemma string_of_list_ascii_app (l l' : list ascii) :
  string_of_list_ascii (l ++ l') = (string_of_list_ascii l ++ string_of_list_ascii l')%string.
Proof. induction l as [|c l IH]; cbn; [reflexivity|now rewrite IH]. Qed.

Lemma attrs_agree_version (T : Table) (given : version) :
  attrs_agree T -> has_schema T (detect_version T given) = true ->
  match attrs_version T with
  | Some v => v
  | None => detect_version T given
  end = detect_version T given.
Proof.
  unfold attrs_agree, detect_version, has_schema.
  destruct (attrs_version T) as [v|]; [|reflexivity].
  destruct (schema T) as [[|]|]; destruct v; destruct given; cbn; congruence.
Qed.

Lemma padded_form (form : list ascii) :
  match form with
  | [] => "-----"
  | _ => string_of_list_ascii form
  end <> "-----" ->
  (length form <= 5)%nat ->
  string_of_list_ascii (firstn 5 (pad_D form))
  = padded match form with
           | [] => "-----"
           | _ => string_of_list_ascii form
           end.
Proof.
  intros Hm Hlen. destruct form as [|c form]; [congruence|].
  rewrite firstn_all2 by (unfold pad_D; rewrite length_app, repeat_length; lia).
  unfold pad_D, padded. now rewrite string_of_list_ascii_app, length_string_of_list_ascii.
Qed.

(** X13. Where the Model2 form calculator finds the team (its result is not
    the placeholder), the original calculator returns the same letters
    filled up to five with draws, provided the names carry no surrounding
    whitespace, the loader's version tag agrees with the columns and no date
    needs the day-first retry. *)
Theorem original_form_is_padded_model2_form :
  forall (team_name : string) (data : Table) (given : version),
    stripped team_name -> stripped_names (rows data) ->
    first_pass_dates (rows data) -> attrs_agree data ->
    get_team_recent_form_model2 team_name data given <> "-----" ->
    get_team_recent_form_original team_name data given
    = padded (get_team_recent_form_model2 team_name data given).
Proof.
  intros team_name data given Ht Hn Hd Ha Hm.
  unfold get_team_recent_form_model2 in *. cbv zeta in *.
  destruct (has_date data) eqn:Edate; cbn [negb] in *; [|congruence].
  destruct (has_schema data (detect_version data given)) eqn:Es; cbn [negb] in *; [|congruence].
  unfold get_team_recent_form_original. cbv zeta.
  rewrite (attrs_agree_version _ _ Ha Es), Es, Edate. cbn [andb negb].
  assert (Hcols : Nat.eqb (n_columns data) 0 = false).
  { unfold n_columns. rewrite Edate. apply Nat.eqb_neq. lia. }
  rewrite Hcols, Bool.andb_false_r.
  rewrite (parse_dates_first_pass _ Hd). unfold stripped in Ht. rewrite Ht.
  set (df := dated_rows _ (rows data)) in *.
  pose proof (exact_rows_of_stripped team_name df Ht
                (Forall_dated_rows _ _ _ Hn)) as He.
  set (raw := List.filter (fun dr => String.eqb (home_team (snd dr)) team_name
                               || String.eqb (away_team (snd dr)) team_name) df) in *.
  assert (Hraw : raw <> []).
  { intro E. rewrite E in Hm. cbn in Hm. congruence. }
  rewrite find_recent_matches_exact; rewrite He; [|exact Hraw].
  clearbody raw. clear He. destruct raw as [|x raw']; [congruence|].
  apply padded_form; [exact Hm|]. rewrite length_map. apply firstn_le_length.
Qed.

(** ** The shape of the two forms *)












(** ** Reading the classifier *)

Lemma argmax_index_from_spec (xs pre : list Q) (best : nat) (best_v : Q) :
  nth_error pre best = Some best_v ->
  Forall (fun q => q <= best_v) pre ->
  exists v, nth_error (pre ++ xs) (argmax_index_from best best_v (length pre) xs) = Some v
            /\ Forall (fun q => q <= v) (pre ++ xs).
Proof.
  revert pre best best_v. induction xs as [|x xs IH]; intros pre best best_v Hn Hall.
  - exists best_v. rewrite app_nil_r. now split.
  - cbn [argmax_index_from].
    replace (pre ++ x :: xs)%list with ((pre ++ [x]) ++ xs)%list
      by (now rewrite <- app_assoc).
    replace (S (length pre)) with (length (pre ++ [x])%list)
      by (rewrite length_app; cbn; lia).
    destruct (Qltb best_v x) eqn:E; reflect_Q.
    + apply IH.
      * rewrite nth_error_app2 by lia. now rewrite Nat.sub_diag.
      * apply Forall_app. split; [|constructor; [lra|constructor]].
        eapply List.Forall_impl; [|exact Hall]. cbn. intros; lra.
    + apply IH.
      * rewrite nth_error_app1; [exact Hn|]. apply nth_error_Some. congruence.
      * apply Forall_app. split; [exact Hall|]. constructor; [exact E|constructor].
Qed.

Lemma argmax_index_spec (xs : list Q) (i : nat) :
  argmax_index xs = Some i ->
  exists v, nth_error xs i = Some v /\ Forall (fun q => q <= v) xs.
Proof.
  destruct xs as [|x xs]; [discriminate|]. cbn [argmax_index]. intros [= <-].
  apply (argmax_index_from_spec xs [x] 0 x); [reflexivity|].
  constructor; [lra|constructor].
Qed.

(** X14. What predict_with_confidence reports is the classifier's strongest
    class: the confidence is an entry of the predict_proba row that no
    other entry exceeds, and the label is the class at the same position. *)
Theorem predict_with_confidence_picks_the_maximum :
  forall (model : Model Features) (input_data : Features)
         (proba_of : Features -> option (list Q)) (proba : list Q) (labels : list label)
         (l : label) (p : Q) (full_conf : dict label Q),
    predict_proba model = Some proba_of -> proba_of input_data = Some proba ->
    classes_ model = Some labels ->
    predict_with_confidence model input_data = Some (l, p, full_conf) ->
    (exists i, nth_error labels i = Some l /\ nth_error proba i = Some p)
    /\ Forall (fun q => q <= p) proba
    /\ full_conf = of_zip label_eqb labels proba.
Proof.
  intros model x proba_of proba labels l p fc Hp Hx Hc.
  unfold predict_with_confidence. rewrite Hp, Hx, Hc.
  destruct (argmax_index proba) as [i|] eqn:Ei; [|discriminate].
  destruct (argmax_index_spec _ _ Ei) as (v & Hv & Hall).
  destruct (nth_error labels i) as [l'|] eqn:El; [|discriminate].
  rewrite Hv. intros [= <- <- <-]. split; [|split]; [exists i; now split|exact Hall|reflexivity].
Qed.

(** X15. How the class labels of a classifier are mapped to the engine's
    keys 0 = Away, 1 = Draw, 2 = Home, for any probabilities: classes
    [0, 1, 2] and ['A', 'D', 'H'] keep their three values; with classes
    [1, 2, 3] the value of class 1 goes to Draw, the value of class 3
    replaces that of class 2 under Home, and no Away entry is made. *)
Theorem class_formats :
  forall (p1 p2 p3 : Q),
    map_probabilities [LInt 0; LInt 1; LInt 2]
      (of_zip label_eqb [LInt 0; LInt 1; LInt 2] [p1; p2; p3])
    = [(0%Z, p1); (1%Z, p2); (2%Z, p3)]
    /\ map_probabilities [LStr "A"; LStr "D"; LStr "H"]
         (of_zip label_eqb [LStr "A"; LStr "D"; LStr "H"] [p1; p2; p3])
       = [(0%Z, p1); (1%Z, p2); (2%Z, p3)]
    /\ map_probabilities [LInt 1; LInt 2; LInt 3]
         (of_zip label_eqb [LInt 1; LInt 2; LInt 3] [p1; p2; p3])
       = [(1%Z, p1); (2%Z, p3)].
Proof.
  intros. repeat split; reflexivity.
Qed.

(** ** The historical override *)


(** ** The fallback on an empty dataset *)

Lemma div_lt_div (x y t : Q) : 0 < t -> x < y -> x / t < y / t.
Proof.
  intros Ht Hxy. unfold Qdiv. apply Qmult_lt_compat_r; [|exact Hxy].
  now apply Qinv_lt_0_compat.
Qed.

Lemma Qabs_ge_cases (x y : Q) : y <= Qabs x -> x <= - y \/ y <= x.
Proof.
  intro H. destruct (Qlt_le_dec x 0) as [L|L].
  - left. rewrite Qabs_neg in H by lra. lra.
  - right. rewrite Qabs_pos in H by lra. lra.
Qed.

Lemma favourite_home (h d a : Q) (prediction : Z) :
  a < h -> d < h ->
  prediction = (if Qltb a h && Qltb d h then 2
                else if Qltb h a && Qltb d a then 0 else 1)%Z ->
  get Z.eqb (prob_dict_of h d a) prediction 0 == max_value (prob_dict_of h d a).
Proof.
  intros Ha Hd ->. apply Qltb_true in Ha, Hd. rewrite Ha, Hd. cbn [andb].
  unfold max_value, prob_dict_of, values, Qmax_list. reflect_Q.
  cbn -[Qltb]. repeat (case_Q; cbn -[Qltb]); solve_Q.
Qed.

Lemma favourite_away (h d a : Q) (prediction : Z) :
  h < a -> d < a ->
  prediction = (if Qltb a h && Qltb d h then 2
                else if Qltb h a && Qltb d a then 0 else 1)%Z ->
  get Z.eqb (prob_dict_of h d a) prediction 0 == max_value (prob_dict_of h d a).
Proof.
  intros Ha Hd ->. assert (E : Qltb a h = false) by (apply Qltb_false; lra).
  apply Qltb_true in Ha, Hd. rewrite E, Ha, Hd. cbn [andb].
  unfold max_value, prob_dict_of, values, Qmax_list. reflect_Q.
  cbn -[Qltb]. repeat (case_Q; cbn -[Qltb]); solve_Q.
Qed.

Lemma strength_prediction_favourite (strength_diff h d a : Q) :
  ~ strength_diff == -0.08 ->
  strength_table strength_diff = (h, d, a) ->
  get Z.eqb (prob_dict_of h d a) (strength_prediction strength_diff (h, d, a)) 0
  == max_value (prob_dict_of h d a).
Proof.
  intros Hne. unfold strength_table, strength_prediction.
  destruct (Qltb (Qabs strength_diff) 0.03) eqn:E1.
  { intro E; split_triple E. vm_compute. reflexivity. }
  destruct (Qltb (Qabs strength_diff) 0.08) eqn:E2.
  { apply Qltb_false in E1. apply Qltb_true in E2.
    pose proof (Qle_Qabs strength_diff) as Hle.
    destruct (Qltb 0 strength_diff) eqn:E3; reflect_Q; cbv beta iota zeta; intro E.
    - apply pair_equal_spec in E as [E Ea]. apply pair_equal_spec in E as [Eh Ed].
      apply favourite_home; [| |reflexivity]; subst h d a; apply div_lt_div; lra.
    - apply pair_equal_spec in E as [E Ea]. apply pair_equal_spec in E as [Eh Ed].
      apply favourite_away; [| |reflexivity]; subst h d a; apply div_lt_div; lra. }
  apply Qltb_false, Qabs_ge_cases in E2.
  repeat head_if; intro E; split_triple E;
    repeat match goal with
           | H : Qltb ?x ?y = _ |- context [Qltb ?x ?y] => rewrite H
           end;
    try (vm_compute; reflexivity).
  case_Q; [vm_compute; reflexivity|]. exfalso. reflect_Q. lra.
Qed.

(** X17. On the empty-dataset path the predicted class is the one with the
    highest probability, the confidence is that probability and the outcome
    is the name of the class, unless the strength difference is exactly
    -0.08: there the branch marked as unreachable predicts Away (0.32)
    although Home has 0.35. *)
Theorem fallback_predicts_the_favourite :
  forall (home away : string),
    let strength_diff := fst (get_enhanced_features home away)
                         - snd (get_enhanced_features home away) in
    let r := form_based_fallback home away in
    (~ strength_diff == -0.08 ->
     get Z.eqb (probabilities r) (prediction_number r) 0 == confidence r
     /\ outcome r = outcome_map (prediction_number r))
    /\ (strength_diff == -0.08 ->
        prediction_number r = 0%Z
        /\ probabilities r = [(0%Z, 0.32); (1%Z, 0.33); (2%Z, 0.35)]).
Proof.
  intros home away. cbv zeta. unfold form_based_fallback.
  destruct (get_enhanced_features home away) as [hs aw]. cbn [fst snd].
  destruct (strength_table (hs - aw)) as [[h d] a] eqn:Et. cbn [probabilities
    prediction_number confidence outcome]. split.
  - intro Hne. split; [|reflexivity]. now apply strength_prediction_favourite.
  - intro He. revert Et. unfold strength_table, strength_prediction.
    assert (Ha : Qabs (hs - aw) == 0.08).
    { rewrite He. reflexivity. }
    repeat (head_if; [exfalso; reflect_Q; lra|]).
    intro E; split_triple E.
    repeat (case_Q; [exfalso; reflect_Q; lra|]). split; reflexivity.
Qed.

(** ** A result is always produced *)

Lemma predict_with_confidence_total (model : Model Features) (input_data : Features) :
  well_formed_classifier model ->
  exists t, predict_with_confidence model input_data = Some t.
Proof.
  intros (labels & proba_of & Hc & Hp & Hx).
  destruct (Hx input_data) as (proba & Hproba & Hne & Hlen).
  unfold predict_with_confidence. rewrite Hp, Hproba, Hc.
  destruct (argmax_index proba) as [i|] eqn:Ei; [|destruct proba; [congruence|discriminate]].
  destruct (argmax_index_spec _ _ Ei) as (v & Hv & _). rewrite Hv.
  assert (Hi : (i < length labels)%nat).
  { rewrite <- Hlen. apply nth_error_Some. congruence. }
  apply nth_error_Some in Hi. destruct (nth_error labels i); [|congruence].
  eexists; reflexivity.
Qed.

Lemma reconcile_total (home away : string) (model : Model Features) (model_type : string)
    (probs : dict string Q) (input_data : Features) :
  well_formed_classifier model ->
  exists r, reconcile home away model model_type false probs input_data = Some r.
Proof.
  intro Hw. destruct (predict_with_confidence_total model input_data Hw) as ([[l p] fc] & Hpwc).
  destruct Hw as (labels & proba_of & Hc & _).
  unfold reconcile. cbv zeta. rewrite Hc, Hpwc.
  destruct (use_historical probs); [eexists; reflexivity|].
  destruct probs; eexists; reflexivity.
Qed.

Lemma predict_with_model_total (home away : string) (data : Table)
    (model : Model Features) (model_type : string) :
  well_formed_classifier model ->
  exists r, predict_with_model home away data model model_type false = Some r.
Proof.
  intro Hw. unfold predict_with_model. cbv zeta.
  assert (Hgen : forall (input : option Features) (pm : dict string Q * string),
             exists r,
               (let '(probs, mt) := pm in
                match input with
                | Some x => reconcile home away model mt false probs x
                | None => Some (no_features_fallback probs mt)
                end) = Some r).
  { intros [x|] [probs mt]; [now apply reconcile_total|eexists; reflexivity]. }
  apply Hgen.
Qed.

(** X18. For a pair of teams of one category and loaded classifiers of the
    scikit-learn kind (classes_, and a predict_proba row with one entry per
    class for every input), advanced_predict_match always returns a result:
    no path ends in the handler's None. *)
Theorem same_category_pair_gets_a_result :
  forall (home away : string) (model1 model2 : Model Features),
    well_formed_classifier model1 -> well_formed_classifier model2 ->
    both_in main_teams home away = true \/ both_in other_teams home away = true ->
    exists r, advanced_predict_match home away (Some model1) (Some model2) = Some r.
Proof.
  intros home away model1 model2 H1 H2 Hcat. unfold advanced_predict_match. cbv zeta.
  destruct (empty _); [eexists; reflexivity|].
  destruct (both_in main_teams home away) eqn:Em.
  - now apply predict_with_model_total.
  - destruct Hcat as [Hcat | Hcat]; [discriminate|]. rewrite Hcat.
    assert (Hr : is_random_forest_regressor model2
                 && match predict_proba model2 with Some _ => false | None => true end
                 = false).
    { destruct H2 as (labels & proba_of & _ & Hp & _). rewrite Hp. apply andb_false_r. }
    rewrite Hr. now apply predict_with_model_total.
Qed.

(** ** The service's smart prediction logic *)

Ltac smart_cases :=
  repeat (cbn -[Qltb Qplus Qmult Qdiv Qminus]; case_Q).

Ltac unfold_smart :=
  unfold smart_prediction_logic, argmax_key, sorted_desc, Qmax_list; cbv zeta;
  cbn -[Qltb Qplus Qmult Qdiv Qminus].

Lemma smart_prediction_logic_total (model_prediction : string) (h d a : Q) :
  is_outcome model_prediction ->
  exists s, smart_prediction_logic model_prediction h d a = Some s.
Proof.
  intros [-> | [-> | ->]]; unfold_smart; smart_cases; eexists; reflexivity.
Qed.

(** X20. For a model prediction Home, Draw or Away the smart logic answers
    in one of three ways: Single, and then the prediction is the model's;
    Double Chance, and then it is 1X, X2 or 12; or Adjusted, and then it is
    Home or Away with a historical probability above 0.5 and differs from
    the model's prediction.  An adjusted prediction is never Draw. *)
Theorem smart_prediction_kinds :
  forall (model_prediction : string) (h d a : Q),
    is_outcome model_prediction ->
    exists s,
      smart_prediction_logic model_prediction h d a = Some s
      /\ ((prediction_type s = "Single" /\ smart_prediction s = model_prediction)
          \/ (prediction_type s = "Double Chance"
              /\ (smart_prediction s = "1X" \/ smart_prediction s = "X2"
                  \/ smart_prediction s = "12"))
          \/ (prediction_type s = "Adjusted" /\ smart_prediction s <> model_prediction
              /\ ((smart_prediction s = "Home" /\ 0.5 < h)
                  \/ (smart_prediction s = "Away" /\ 0.5 < a)))).
Proof.
  intros m h d a [-> | [-> | ->]]; unfold_smart; smart_cases;
    (eexists; split; [reflexivity|]); cbn [prediction_type smart_prediction];
    first [ left; split; reflexivity
          | right; left; split;
            [reflexivity
            |first [left; reflexivity | right; left; reflexivity | right; right; reflexivity]]
          | right; right; split; [reflexivity|]; split; [discriminate|];
            first [left; split; [reflexivity|reflect_Q; lra]
                  |right; split; [reflexivity|reflect_Q; lra]]
          | exfalso; reflect_Q; lra ].
Qed.

Ltac case_S m :=
  match goal with
  | |- context [String.eqb m ?s] => destruct (String.eqb m s) eqn:?
  end.

Lemma half_bounds (x y m : Q) :
  0 <= x -> 0 <= y -> x <= m -> y <= m -> 0 <= (x + y) / 2 <= m.
Proof.
  intros. split.
  - apply Qle_shift_div_l; lra.
  - apply Qle_shift_div_r; lra.
Qed.

(** X21. For non-negative probabilities the confidence reported by the
    smart logic lies between 0 and the highest of the three probabilities,
    whichever rule fires and whatever the model prediction is. *)
Theorem smart_confidence_bounds :
  forall (model_prediction : string) (h d a : Q) (s : Smart),
    0 <= h -> 0 <= d -> 0 <= a ->
    smart_prediction_logic model_prediction h d a = Some s ->
    0 <= smart_confidence s <= Qmax_list h [d; a].
Proof.
  intros m h d a s Hh Hd Ha. unfold_smart.
  repeat (cbn -[Qltb Qplus Qmult Qdiv Qminus]; first [case_Q | case_S m]);
    intro E; try discriminate E; injection E as <-; cbn [smart_confidence];
    reflect_Q; first [split; lra | apply half_bounds; lra].
Qed.

(** X22. The smart logic never fails on what the engine returns: for every
    result of advanced_predict_match, smart_prediction_logic applied to its
    outcome returns a prediction for any three probabilities (the KeyError
    of Rule 2 cannot occur). *)
Theorem smart_logic_accepts_engine_outcomes :
  forall (home away : string) (model1 model2 : option (Model Features)) (r : Result)
         (h d a : Q),
    advanced_predict_match home away model1 model2 = Some r ->
    exists s, smart_prediction_logic (outcome r) h d a = Some s.
Proof.
  intros home away model1 model2 r h d a E.
  apply smart_prediction_logic_total.
  now apply (advanced_predict_match_outcome home away model1 model2 r).
Qed.

(** X23. For a model prediction that is none of Home, Draw, Away, the smart
    logic raises (KeyError in Rule 2) exactly when the draw probability is
    above 0.5; otherwise it returns a prediction. *)
Theorem smart_logic_key_error :
  forall (model_prediction : string) (h d a : Q),
    ~ is_outcome model_prediction ->
    (smart_prediction_logic model_prediction h d a = None <-> 0.5 < d).
Proof.
  clear float_of_str md5_prefix to_datetime load_football_data main_teams other_teams
        preprocess_for_models compute_mean_for_teams int_of_str Features.
  intros m h d a Hm. unfold is_outcome in Hm.
  assert (E1 : String.eqb m "Home" = false) by (apply String.eqb_neq; tauto).
  assert (E2 : String.eqb m "Draw" = false) by (apply String.eqb_neq; tauto).
  assert (E3 : String.eqb m "Away" = false) by (apply String.eqb_neq; tauto).
  unfold_smart.
  repeat (cbn -[Qltb Qplus Qmult Qdiv Qminus]; rewrite ?E1, ?E2, ?E3; case_Q);
    cbn -[Qltb Qplus Qmult Qdiv Qminus]; rewrite ?E1, ?E2, ?E3;
    reflect_Q; (split; [intro; (discriminate || lra)|intro; (reflexivity || lra)]).
Qed.

(** ** The no-feature path of Model 2 on a number-coded table *)

Lemma count_letters_number_rows (s : string) (l : list Match) :
  number_rows l -> count_rows (fun c => cell_is_str c s) l = 0%nat.
Proof.
  unfold count_rows. induction 1 as [|r l (q & Hr & _) _ IH]; [reflexivity|].
  cbn [List.filter]. rewrite Hr. cbn [cell_is_str]. exact IH.
Qed.

Lemma zero_percentage (total : Q) : Qnat 0 / total * 100 == 0.
Proof. unfold Qdiv. change (Qnat 0) with 0. ring. Qed.

Lemma schema_detected (T : Table) (given : version) :
  schema T <> None -> has_schema T (detect_version T given) = true.
Proof.
  unfold detect_version, has_schema.
  destruct (schema T) as [[|]|]; destruct given; cbn; congruence.
Qed.

Lemma meet_filters (home away : string) (l : list Match) :
  meet home away l ->
  List.filter (fun r => String.eqb (home_team r) home && String.eqb (away_team r) away) l <> []
  \/ List.filter (fun r => String.eqb (home_team r) away && String.eqb (away_team r) home) l
     <> [].
Proof.
  intros (r & Hin & [[Hh Ha] | [Hh Ha]]); [left | right].
  all: subst home away; intro E;
    assert (Hr : In r []) by
      (rewrite <- E; apply filter_In; split; [exact Hin | now rewrite !String.eqb_refl]);
    destruct Hr.
Qed.

Lemma model2_tally_number_rows (home away : string) (T : Table) (given : version) :
  schema T <> None -> number_rows (rows T) -> meet home away (rows T) ->
  exists h d a,
    calculate_probabilities_model2 home away T given = Some (triple h d a)
    /\ h == 0 /\ d == 0 /\ a == 0.
Proof.
  intros Hs Hn Hm. unfold calculate_probabilities_model2. cbv zeta.
  rewrite (schema_detected T given Hs). cbn [negb].
  pose proof (number_rows_filter
                (fun r => String.eqb (home_team r) home && String.eqb (away_team r) away)
                _ Hn) as N1.
  pose proof (number_rows_filter
                (fun r => String.eqb (home_team r) away && String.eqb (away_team r) home)
                _ Hn) as N2.
  pose proof (meet_filters home away (rows T) Hm) as Hne.
  rewrite !(count_letters_number_rows _ _ N1), !(count_letters_number_rows _ _ N2).
  cbn [Nat.add].
  destruct (List.filter
              (fun r => String.eqb (home_team r) home && String.eqb (away_team r) away)
              (rows T)) as [|x1 l1];
    destruct (List.filter
                (fun r => String.eqb (home_team r) away && String.eqb (away_team r) home)
                (rows T)) as [|x2 l2];
    [destruct Hne; congruence| | |];
    (eexists _, _, _; split; [reflexivity|]; repeat split; apply zero_percentage).
Qed.

Lemma no_features_fallback_zero (h d a : Q) (model_type : string) :
  h == 0 -> d == 0 -> a == 0 ->
  Forall (fun v => v == 0) (values (probabilities (no_features_fallback (triple h d a)
                                                                        model_type)))
  /\ prediction_number (no_features_fallback (triple h d a) model_type) = 1%Z.
Proof.
  intros Hh Hd Ha. unfold no_features_fallback. cbv zeta.
  change (get String.eqb (triple h d a) HOME 40.0) with h.
  change (get String.eqb (triple h d a) DRAW 30.0) with d.
  change (get String.eqb (triple h d a) AWAY 30.0) with a.
  assert (Eh : h / 100.0 == 0) by (rewrite Hh; reflexivity).
  assert (Ed : d / 100.0 == 0) by (rewrite Hd; reflexivity).
  assert (Ea : a / 100.0 == 0) by (rewrite Ha; reflexivity).
  assert (Et : Qltb 0 (h / 100.0 + d / 100.0 + a / 100.0) = false)
    by (apply Qltb_false; lra).
  rewrite Et. cbv beta iota.
  assert (E1 : Qltb (d / 100.0) (h / 100.0) = false) by (apply Qltb_false; lra).
  assert (E2 : Qltb (h / 100.0) (a / 100.0) = false) by (apply Qltb_false; lra).
  rewrite E1, E2. cbn [andb probabilities prediction_number]. split; [|reflexivity].
  unfold prob_dict_of, values. cbn [map snd]. repeat constructor; assumption.
Qed.

Lemma all_zero_sum (xs : list Q) : Forall (fun v => v == 0) xs -> Qsum xs == 0.
Proof.
  induction 1 as [|x xs Hx _ IH]; [reflexivity|]. rewrite Qsum_cons. lra.
Qed.

(** C4 (evaluation of the code).  On a dataset 2 whose results are coded
    0/1/2, for a pair of the Others category that meets in the table: when
    the feature builders yield no vector, the result returned by
    [advanced_predict_match] is the no-feature fallback of Model 2 with
    every probability equal to 0.  The Model2 calculator tallies only the
    letters H, D, A, its triple is 0/0/0, and the fallback normalizes only
    a positive total.  The probabilities sum to 0, not to 1. *)
Theorem number_coded_table_breaks_closure :
  forall (home away : string) (model1 : option (Model Features)) (model : Model Features),
    both_in main_teams home away = false ->
    both_in other_teams home away = true ->
    schema (load_football_data 2) <> None ->
    number_rows (rows (load_football_data 2)) ->
    meet home away (rows (load_football_data 2)) ->
    preprocess_for_models home away model (load_football_data 2) = None ->
    compute_mean_for_teams home away (load_football_data 2) model V1 = None ->
    exists r,
      advanced_predict_match home away model1 (Some model) = Some r
      /\ model_type r = "Model2 (Fallback)"
      /\ Forall (fun v => v == 0) (values (probabilities r))
      /\ Qsum (values (probabilities r)) == 0
      /\ ~ probability_closure (probabilities r).
Proof.
  intros home away model1 model Hm Ho Hs Hn Hmeet Hp Hc.
  destruct (model2_tally_number_rows home away _ V2 Hs Hn Hmeet)
    as (h & d & a & Et & Hh & Hd & Ha).
  destruct (no_features_fallback_zero h d a "Model2" Hh Hd Ha) as [Hz _].
  exists (no_features_fallback (triple h d a) "Model2").
  assert (Hsum : Qsum (values (probabilities (no_features_fallback (triple h d a)
                                                                   "Model2"))) == 0)
    by now apply all_zero_sum.
  split; [|split; [|split; [exact Hz|split; [exact Hsum|]]]].
  - unfold advanced_predict_match, required_dataset. cbv zeta. rewrite Hm, Ho.
    assert (He : empty (load_football_data 2) = false).
    { unfold empty, n_columns. destruct Hmeet as (r & Hin & _).
      destruct (schema (load_football_data 2)); [|congruence].
      destruct (rows (load_football_data 2)); [destruct Hin|]. reflexivity. }
    rewrite He. unfold predict_with_model. cbv zeta.
    change (String.eqb "Model2" "Model2") with true. cbv iota.
    rewrite Hp, Hc, Et. reflexivity.
  - unfold no_features_fallback. cbv zeta.
    destruct (Qltb 0 _); cbv beta iota;
      (destruct (_ && _); [|destruct (_ && _)]); reflexivity.
  - intros [[Hlo _] _]. lra.
Qed.

(** ** Recent-form features of the feature builder *)

Lemma result_points (row : ScoredMatch) (team_name : string) (p : Z) (gs gc : Q) :
  get_team_result_in_match row team_name = Some (p, gs, gc) ->
  (p = 0 \/ p = 1 \/ p = 3)%Z.
Proof.
  unfold get_team_result_in_match. cbv zeta.
  repeat match goal with
         | |- context [if ?c then _ else _] => destruct c
         end; intros [= <- _ _]; auto.
Qed.


Lemma scored_rows_points (team_name : string) (l : list ScoredMatch) :
  Forall (fun t : Z * Q * Q => (fst (fst t) = 0 \/ fst (fst t) = 1 \/ fst (fst t) = 3)%Z)
         (scored_rows_of team_name l)
  /\ (length (scored_rows_of team_name l) <= length l)%nat.
Proof.
  unfold scored_rows_of. induction l as [|row l [IH1 IH2]]; [split; [constructor|cbn; lia]|].
  cbn [flat_map]. destruct (get_team_result_in_match row team_name) as [[[p gs] gc]|] eqn:E.
  - cbn [app length]. split; [|lia]. constructor; [|exact IH1].
    exact (result_points _ _ _ _ _ E).
  - cbn [app length]. split; [exact IH1|lia].
Qed.

Lemma fold_left_Zadd_acc (xs : list Z) (a : Z) :
  fold_left Z.add xs a = (a + fold_left Z.add xs 0)%Z.
Proof.
  revert a. induction xs as [|x xs IH]; intro a; cbn [fold_left]; [lia|].
  rewrite (IH (a + x)%Z), (IH (0 + x)%Z). lia.
Qed.

Lemma points_and_wins (l : list (Z * Q * Q)) :
  Forall (fun t : Z * Q * Q => (fst (fst t) = 0 \/ fst (fst t) = 1 \/ fst (fst t) = 3)%Z) l ->
  let w := Z.of_nat (length (List.filter (fun t => Z.eqb (fst (fst t)) 3) l)) in
  let s := fold_left Z.add (map (fun t => fst (fst t)) l) 0%Z in
  (3 * w <= s <= 2 * w + Z.of_nat (length l))%Z
  /\ (length (List.filter (fun t => Z.eqb (fst (fst t)) 3) l) <= length l)%nat.
Proof.
  cbv zeta. induction 1 as [|t l Ht _ [IH1 IH2]]; [cbn; lia|].
  cbn [map fold_left List.filter length]. rewrite fold_left_Zadd_acc.
  destruct Ht as [E | [E | E]]; rewrite E; cbn [Z.eqb Pos.eqb length]; lia.
Qed.

Lemma lastn_length {A} (n : nat) (l : list A) : (length (lastn n l) <= n)%nat.
Proof. unfold lastn. rewrite length_skipn. lia. Qed.

(** X25. Whenever the recent-form features of a team are computed, they
    come from at most five matches: at most 5 wins, and points between 3
    per win and 3 per win plus 1 for each other match, hence at most 15. *)
Theorem recent_form_features_bounds :
  forall (df : list ScoredMatch) (idx : nat) (team_name : string) (f : FormFeatures),
    calculate_recent_form_features df idx team_name = Some f ->
    (wins f <= 5)%nat
    /\ (3 * Z.of_nat (wins f) <= points f <= 2 * Z.of_nat (wins f) + 5)%Z
    /\ (points f <= 15)%Z.
Proof.
  clear. intros df idx team_name f. unfold calculate_recent_form_features.
  pose proof (lastn_length 5 (List.filter
                (fun row =>
                   String.eqb (Str.lower (Str.strip (home_team (fixture_of row))))
                              (Str.lower (Str.strip team_name))
                   || String.eqb (Str.lower (Str.strip (away_team (fixture_of row))))
                                 (Str.lower (Str.strip team_name)))
                (firstn idx df))) as Hlen.
  fold (recent_rows df idx team_name) in Hlen.
  destruct (scored_rows_points team_name (recent_rows df idx team_name)) as [Hp Hl].
  destruct (recent_rows df idx team_name) as [|row rest] eqn:Er; [discriminate|].
  rewrite <- Er in *. clear Er row rest.
  destruct (points_and_wins _ Hp) as [Hsum Hw].
  destruct (scored_rows_of team_name (recent_rows df idx team_name)) as [|t ts] eqn:Es;
    [discriminate|].
  rewrite <- Es in *. intros [= <-]. cbn [wins points]. lia.
Qed.

End Engine.

(** ** The engine on concrete inputs *)

Abbreviation run_engine :=
  (advanced_predict_match Literal.float_of_str Sample.md5_prefix Literal.to_datetime
     Sample.load_football_data Sample.Features Sample.main_teams Sample.other_teams
     Sample.preprocess_for_models Sample.compute_mean_for_teams Literal.int_of_str)
  (only parsing).

Lemma model_priority_on_clear_winner_witness :
  clear_winner 60 25 15
  /\ determine_final_prediction Literal.float_of_str (PyInt 0) (Some (triple 60 25 15))
     = AWAY.
Proof.
  assert (H : clear_winner 60 25 15) by (unfold clear_winner; lra).
  split; [exact H|].
  apply (proj1 (model_priority_on_clear_winner Literal.float_of_str))
    with (pred_val := Fin (inject_Z 0)); [reflexivity | reflexivity | exact H].
Defined.

Lemma conversion_failure_returns_home_witness :
  (py_float Literal.float_of_str (PyStr "H") = None
   /\ determine_final_prediction Literal.float_of_str (PyStr "H") (Some (triple 20 25 55))
      = "Home Team Win")
  /\ (py_float Literal.float_of_str (PyStr "D") = None
      /\ determine_final_prediction Literal.float_of_str (PyStr "D") (Some (triple 20 25 55))
         = "Home Team Win")
  /\ (py_float Literal.float_of_str (PyStr "A") = None
      /\ determine_final_prediction Literal.float_of_str (PyStr "A") (Some (triple 20 25 55))
         = "Home Team Win").
Proof.
  split; [|split].
  all: split; [reflexivity|].
  all: apply (conversion_failure_returns_home Literal.float_of_str); reflexivity.
Defined.

Lemma h2h_symmetry_under_mirroring_witness :
  has_schema Sample.x_hosts_y V1 = true
  /\ rows Sample.x_hosts_y <> []
  /\ only_fixtures "TeamX" "TeamY" Sample.x_hosts_y
  /\ calculate_probabilities_original Sample.md5_prefix Literal.to_datetime
       Sample.load_football_data "TeamX" "TeamY" Sample.x_hosts_y V1
     = swap_home_away
         (calculate_probabilities_original Sample.md5_prefix Literal.to_datetime
            Sample.load_football_data "TeamY" "TeamX" (mirror Sample.x_hosts_y) V1).
Proof.
  assert (H1 : has_schema Sample.x_hosts_y V1 = true) by reflexivity.
  assert (H2 : rows Sample.x_hosts_y <> []) by discriminate.
  assert (H3 : only_fixtures "TeamX" "TeamY" Sample.x_hosts_y).
  { unfold only_fixtures. repeat constructor. }
  split; [exact H1|]. split; [exact H2|]. split; [exact H3|].
  apply (h2h_symmetry_under_mirroring Sample.md5_prefix Literal.to_datetime
           Sample.load_football_data "TeamX" "TeamY" Sample.x_hosts_y V1 H1 H2 H3).
Defined.

(** The end-to-end scenario: two home wins and a draw give 66.7 / 33.3 / 0. *)
Lemma two_wins_and_a_draw :
  calculate_probabilities_original Sample.md5_prefix Literal.to_datetime
    Sample.load_football_data "TeamX" "TeamY" Sample.x_hosts_y V1
  = triple (Qnat 2 / Qnat 3 * 100) (Qnat 1 / Qnat 3 * 100) (Qnat 0 / Qnat 3 * 100).
Proof. reflexivity. Qed.

Lemma sample_tables_letter_coded :
  letter_coded (Sample.load_football_data 1) /\ letter_coded (Sample.load_football_data 2).
Proof.
  split; unfold letter_coded, letter_rows; cbn [Sample.load_football_data Z.eqb Pos.eqb rows
    Sample.european Sample.swiss Sample.v1_table];
    repeat (apply List.Forall_cons; [cbn; auto|]); apply List.Forall_nil.
Defined.

Lemma sample_classifier_valid :
  valid_model (Some (Sample.classifier (PyInt 7) [0.2; 0.3; 0.5])).
Proof.
  intros proba_of x proba E1 E2. cbn in E1. injection E1 as <-. injection E2 as <-.
  repeat constructor; lra.
Defined.

Lemma probability_closure_of_results_witness :
  exists r,
    run_engine "Arsenal" "Chelsea" (Some (Sample.classifier (PyInt 7) [0.2; 0.3; 0.5])) None
    = Some r
    /\ probability_closure (probabilities r).
Proof.
  eexists. split; [vm_compute; reflexivity|].
  eapply (probability_closure_of_results Literal.float_of_str Sample.md5_prefix
            Literal.to_datetime Sample.load_football_data Sample.Features
            Sample.main_teams Sample.other_teams Sample.preprocess_for_models
            Sample.compute_mean_for_teams Literal.int_of_str "Arsenal" "Chelsea"
            (Some (Sample.classifier (PyInt 7) [0.2; 0.3; 0.5])) None).
  - apply sample_tables_letter_coded.
  - apply sample_tables_letter_coded.
  - apply sample_classifier_valid.
  - exact I.
  - vm_compute; reflexivity.
Defined.

Lemma seven_is_outside_buckets : outside_buckets 7.
Proof.
  unfold outside_buckets.
  split; [intro H; lra|]. split; [intro H; lra|]. split; [intro H; lra|].
  split; [intros [H1 H2]; lra|]. split; intros [H1 H2]; lra.
Defined.

Lemma invalid_prediction_handling_witness :
  (py_float Literal.float_of_str (PyInt 7) = Some (Fin 7)
   /\ outside_buckets 7
   /\ determine_final_prediction Literal.float_of_str (PyInt 7) None = INVALID)
  /\ exists r,
       run_engine "Arsenal" "Chelsea" (Some (Sample.classifier (PyInt 7) [0.2; 0.3; 0.5]))
         None = Some r
       /\ is_outcome (outcome r)
       /\ final_field r.
Proof.
  pose proof (invalid_prediction_handling Literal.float_of_str Sample.md5_prefix
                Literal.to_datetime Sample.load_football_data Sample.Features
                Sample.main_teams Sample.other_teams Sample.preprocess_for_models
                Sample.compute_mean_for_teams Literal.int_of_str) as (H1 & _ & H3 & _).
  assert (Hf : py_float Literal.float_of_str (PyInt 7) = Some (Fin 7)) by reflexivity.
  split.
  - split; [exact Hf|]. split; [exact seven_is_outside_buckets|].
    exact (H1 (PyInt 7) 7 None Hf seven_is_outside_buckets).
  - eexists. split; [vm_compute; reflexivity|].
    apply (H3 "Arsenal" "Chelsea" (Some (Sample.classifier (PyInt 7) [0.2; 0.3; 0.5])) None).
    vm_compute; reflexivity.
Defined.

(** C3 (counterexample). A classifier whose raw prediction is 7, outside
    every bucket: the decision table yields the invalid-prediction string,
    yet the result returned for Arsenal v Chelsea reports "Home" both as
    outcome and as final prediction, and carries no invalid signal. *)
Lemma invalid_prediction_swallowed :
  outside_buckets 7
  /\ exists r,
       run_engine "Arsenal" "Chelsea"
         (Some (Sample.classifier (PyInt 7) [0.2; 0.3; 0.5])) None = Some r
       /\ determine_final_prediction Literal.float_of_str (PyInt 7) (historical_probs r)
          = INVALID
       /\ outcome r = "Home"
       /\ final_prediction r = Some "Home".
Proof.
  split; [exact seven_is_outside_buckets|].
  eexists. split; [vm_compute; reflexivity|]. repeat split.
Qed.

Lemma sample_categories_disjoint : Sample.main_teams ## Sample.other_teams.
Proof. unfold Sample.main_teams, Sample.other_teams. set_solver. Defined.

Lemma arsenal_basel_straddle :
  straddles Sample.main_teams Sample.other_teams "Arsenal" "Basel".
Proof. left. unfold Sample.main_teams, Sample.other_teams. split; set_solver. Defined.

Lemma straddling_pair_result_witness :
  Sample.main_teams ## Sample.other_teams
  /\ straddles Sample.main_teams Sample.other_teams "Arsenal" "Basel"
  /\ required_dataset Sample.main_teams Sample.other_teams "Arsenal" "Basel" = 1%Z
  /\ run_engine "Arsenal" "Basel"
       (Some (Sample.classifier (PyInt 2) [0.2; 0.3; 0.5])) None
     = None.
Proof.
  split; [exact sample_categories_disjoint|]. split; [exact arsenal_basel_straddle|].
  pose proof (straddling_pair_result Literal.float_of_str Sample.md5_prefix
                Literal.to_datetime Sample.load_football_data Sample.Features
                Sample.main_teams Sample.other_teams Sample.preprocess_for_models
                Sample.compute_mean_for_teams Literal.int_of_str "Arsenal" "Basel"
                (Some (Sample.classifier (PyInt 2) [0.2; 0.3; 0.5])) None
                sample_categories_disjoint arsenal_basel_straddle) as (Hd & Hr & _).
  split; [exact Hd|]. exact Hr.
Defined.

(** C8 (counterexample). Arsenal (European) against Basel (Other), both
    models loaded and the European dataset not empty: no prediction is
    returned. *)
Lemma straddling_pair_returns_none :
  straddles Sample.main_teams Sample.other_teams "Arsenal" "Basel"
  /\ empty (Sample.load_football_data 1) = false
  /\ run_engine "Arsenal" "Basel"
       (Some (Sample.classifier (PyInt 2) [0.2; 0.3; 0.5]))
       (Some (Sample.classifier (PyInt 2) [0.2; 0.3; 0.5]))
     = None.
Proof.
  split; [exact arsenal_basel_straddle|]. split; vm_compute; reflexivity.
Qed.


(** C9 (evaluation of the code). Form strings are most-recent-first: for a
    team whose latest match is a win after four defeats the form is
    "WLLLL".  The weight is taken by position from [1.0; 1.2; 1.4; 1.6;
    1.8], so this latest win counts with weight 1.0, the lowest, while a
    win in the oldest of the five matches ("LLLLW") counts with 1.8. *)
Theorem most_recent_match_has_lowest_weight :
  get_team_recent_form_original Sample.md5_prefix Literal.to_datetime "Arsenal"
    Sample.latest_is_a_win V1 = "WLLLL"
  /\ form_strength "WLLLL" == 3 * 1.0 / (3 * (1.0 + 1.2 + 1.4 + 1.6 + 1.8))
  /\ form_strength "LLLLW" == 3 * 1.8 / (3 * (1.0 + 1.2 + 1.4 + 1.6 + 1.8))
  /\ form_strength "WLLLL" < form_strength "LLLLW".
Proof.
  repeat split; vm_compute; reflexivity.
Qed.

(** The cases of the repository's double-chance test table. *)
Example double_chance_test_table :
  let dfp := determine_final_prediction Literal.float_of_str in
  dfp (PyInt 0) (Some (triple 40 40 20)) = "Home Team Win or Draw"
  /\ dfp (PyInt 2) (Some (triple 20 40 40)) = "Away Team Win or Draw"
  /\ dfp (PyInt 1) (Some (triple 40 20 40)) = "Home Team Win or Away Team Win"
  /\ dfp (PyInt 2) (Some (triple 38 37 25)) = "Home Team Win"
  /\ dfp (PyInt 2) (Some (triple 60 25 15)) = "Home Team Win"
  /\ dfp (PyInt 0) (Some (triple 60 25 15)) = "Away Team Win"
  /\ dfp (PyInt 1) (Some (triple 33 34 33)) = "Draw"
  /\ dfp (PyInt 1) (Some (triple 40 40 20)) = "Draw".
Proof. cbv zeta. repeat split. Qed.

(** Without historical probabilities the model is trusted, and the legacy
    ranges map like the class indices. *)
Example no_history_and_ranges :
  let dfp := determine_final_prediction Literal.float_of_str in
  dfp (PyInt 2) None = "Home Team Win"
  /\ dfp (PyInt 2) (Some []) = "Home Team Win"
  /\ dfp (PyFloat (Fin 1.0)) None = "Draw"
  /\ dfp (PyFloat (Fin 1.2)) None = "Away Team Win"
  /\ dfp (PyStr "2.7") None = "Home Team Win"
  /\ dfp (PyFloat (Fin 1.45)) None = INVALID
  /\ dfp (PyFloat Nan) None = INVALID.
Proof. cbv zeta. repeat split. Qed.

Lemma sample_numbers_coded : number_rows (rows (Sample.load_numbers 2)).
Proof.
  unfold number_rows. cbn [Sample.load_numbers Z.eqb Pos.eqb rows Sample.swiss_numbers].
  apply List.Forall_cons; [exists 2; split; [reflexivity | right; right; reflexivity]|].
  apply List.Forall_cons; [exists 1; split; [reflexivity | right; left; reflexivity]|].
  apply List.Forall_nil.
Defined.

Lemma basel_meets_zurich : meet "Basel" "Zurich" (rows (Sample.load_numbers 2)).
Proof.
  eexists. split; [left; reflexivity|]. left. split; reflexivity.
Defined.

Lemma number_coded_table_breaks_closure_witness :
  exists r,
    advanced_predict_match Literal.float_of_str Sample.md5_prefix Literal.to_datetime
      Sample.load_numbers Sample.Features Sample.main_teams Sample.other_teams
      Sample.preprocess_for_models Sample.compute_mean_for_teams Literal.int_of_str
      "Basel" "Zurich" None (Some (Sample.classifier (PyInt 2) [0.2; 0.3; 0.5])) = Some r
    /\ model_type r = "Model2 (Fallback)"
    /\ Forall (fun v => v == 0) (values (probabilities r))
    /\ Qsum (values (probabilities r)) == 0
    /\ ~ probability_closure (probabilities r).
Proof.
  apply (number_coded_table_breaks_closure Literal.float_of_str Sample.md5_prefix
           Literal.to_datetime Sample.load_numbers Sample.Features Sample.main_teams
           Sample.other_teams Sample.preprocess_for_models Sample.compute_mean_for_teams
           Literal.int_of_str "Basel" "Zurich" None
           (Sample.classifier (PyInt 2) [0.2; 0.3; 0.5])).
  - vm_compute; reflexivity.
  - vm_compute; reflexivity.
  - discriminate.
  - exact sample_numbers_coded.
  - exact basel_meets_zurich.
  - reflexivity.
  - reflexivity.
Defined.


(** ** Further runs on concrete inputs *)

Lemma final_prediction_model_or_double_chance_witness :
  determine_final_prediction Literal.float_of_str (PyInt 0) (Some (triple 40 40 20)) = AWAY
  \/ double_chance
       (determine_final_prediction Literal.float_of_str (PyInt 0) (Some (triple 40 40 20))).
Proof.
  apply (final_prediction_model_or_double_chance Literal.float_of_str (PyInt 0)
           (Fin (inject_Z 0)) AWAY); reflexivity.
Defined.

Lemma two_way_tie_at_the_top_witness :
  40 == 40 /\ 20 < 40
  /\ determine_final_prediction Literal.float_of_str (PyInt 0) (Some (triple 40 40 20))
     = "Home Team Win or Draw".
Proof.
  assert (H1 : 40 == 40) by reflexivity.
  assert (H2 : 20 < 40) by lra.
  split; [exact H1|]. split; [exact H2|].
  exact (proj1 (two_way_tie_at_the_top Literal.float_of_str (PyInt 0) (Fin (inject_Z 0))
                  AWAY 40 40 20 eq_refl eq_refl) H1 H2).
Defined.

Lemma close_runner_up_witness :
  37 < 38 /\ 38 <= 37 + 5 /\ 25 + 5 < 38
  /\ determine_final_prediction Literal.float_of_str (PyInt 1) (Some (triple 38 37 25))
     = "Home Team Win or Draw".
Proof.
  assert (H1 : 37 < 38) by lra.
  assert (H2 : 38 <= 37 + 5) by lra.
  assert (H3 : 25 + 5 < 38) by lra.
  split; [exact H1|]. split; [exact H2|]. split; [exact H3|].
  exact (proj1 (close_runner_up Literal.float_of_str (PyInt 1) (Fin (inject_Z 1))
                  DRAW 38 37 25 eq_refl eq_refl) H1 H2 H3).
Defined.

Lemma near_three_way_tie_witness :
  (33 < 36 /\ 31 < 36 /\ 36 <= 33 + 5 /\ 36 <= 31 + 5)
  /\ determine_final_prediction Literal.float_of_str (PyInt 1) (Some (triple 36 33 31))
     = DRAW.
Proof.
  assert (H : 33 < 36 /\ 31 < 36 /\ 36 <= 33 + 5 /\ 36 <= 31 + 5) by (repeat split; lra).
  split; [exact H|].
  apply (near_three_way_tie Literal.float_of_str (PyInt 1) (Fin (inject_Z 1)) DRAW 36 33 31
           eq_refl eq_refl).
  left. exact H.
Defined.



Lemma x_hosts_y_text : text_results (rows Sample.x_hosts_y).
Proof.
  unfold text_results. cbn [rows Sample.x_hosts_y Sample.v1_table].
  repeat (apply List.Forall_cons; [reflexivity|]); apply List.Forall_nil.
Defined.


Lemma swapping_names_swaps_home_and_away_witness :
  calculate_probabilities_original Sample.md5_prefix Literal.to_datetime
    Sample.load_football_data "TeamY" "TeamX" Sample.x_hosts_y V1
  = swap_home_away
      (calculate_probabilities_original Sample.md5_prefix Literal.to_datetime
         Sample.load_football_data "TeamX" "TeamY" Sample.x_hosts_y V1).
Proof.
  apply (swapping_names_swaps_home_and_away Sample.md5_prefix Literal.to_datetime
           Sample.load_football_data "TeamX" "TeamY" Sample.x_hosts_y V1).
  - reflexivity.
  - exact x_hosts_y_text.
  - vm_compute. discriminate.
Defined.

Lemma swiss_names_stripped : stripped_names (rows Sample.swiss).
Proof.
  unfold stripped_names, stripped. cbn [rows Sample.swiss Sample.v1_table].
  repeat (apply List.Forall_cons; [split; reflexivity|]); apply List.Forall_nil.
Defined.

Lemma swiss_text : text_results (rows Sample.swiss).
Proof.
  unfold text_results. cbn [rows Sample.swiss Sample.v1_table].
  repeat (apply List.Forall_cons; [reflexivity|]); apply List.Forall_nil.
Defined.

Lemma model2_triple_agrees_with_original_witness :
  exists probs,
    calculate_probabilities_model2 "Basel" "Zurich" Sample.swiss V2 = Some probs
    /\ probs = calculate_probabilities_original Sample.md5_prefix Literal.to_datetime
                 Sample.load_football_data "Basel" "Zurich" Sample.swiss
                 (detect_version Sample.swiss V2).
Proof.
  eexists. split; [reflexivity|].
  apply (model2_triple_agrees_with_original Sample.md5_prefix Literal.to_datetime
           Sample.load_football_data "Basel" "Zurich" Sample.swiss V2).
  - reflexivity.
  - reflexivity.
  - exact swiss_names_stripped.
  - exact swiss_text.
  - reflexivity.
Defined.

Lemma form_strength_monotone_witness :
  no_worse "LLDWL" "WLDWW" /\ form_strength "LLDWL" <= form_strength "WLDWW".
Proof.
  assert (H : no_worse "LLDWL" "WLDWW").
  { unfold no_worse. cbn [list_ascii_of_string].
    repeat (apply List.Forall2_cons; [vm_compute; discriminate|]). apply List.Forall2_nil. }
  split; [exact H|]. apply (form_strength_monotone "LLDWL" "WLDWW" H).
Defined.

Lemma h2h_forms_mirror_each_other_witness :
  snd (get_head_to_head_form_model2 Literal.to_datetime "Basel" "Zurich" Sample.swiss V2)
  = Str.map_chars opposite
      (fst (get_head_to_head_form_model2 Literal.to_datetime "Basel" "Zurich"
              Sample.swiss V2)).
Proof.
  apply (h2h_forms_mirror_each_other Literal.to_datetime "Basel" "Zurich" Sample.swiss V2).
  - discriminate.
  - exact (proj2 sample_tables_letter_coded).
Defined.

Lemma latest_is_a_win_stripped : stripped_names (rows Sample.latest_is_a_win).
Proof.
  unfold stripped_names, stripped. cbn [rows Sample.latest_is_a_win Sample.v1_table].
  repeat (apply List.Forall_cons; [split; reflexivity|]); apply List.Forall_nil.
Defined.

Lemma original_form_is_padded_model2_form_witness :
  get_team_recent_form_model2 Literal.to_datetime "Arsenal" Sample.latest_is_a_win V1
  <> "-----"
  /\ get_team_recent_form_original Sample.md5_prefix Literal.to_datetime "Arsenal"
       Sample.latest_is_a_win V1
     = padded (get_team_recent_form_model2 Literal.to_datetime "Arsenal"
                 Sample.latest_is_a_win V1).
Proof.
  assert (H : get_team_recent_form_model2 Literal.to_datetime "Arsenal"
                Sample.latest_is_a_win V1 <> "-----") by (vm_compute; discriminate).
  split; [exact H|].
  apply (original_form_is_padded_model2_form Sample.md5_prefix Literal.to_datetime
           "Arsenal" Sample.latest_is_a_win V1).
  - reflexivity.
  - exact latest_is_a_win_stripped.
  - unfold first_pass_dates. vm_compute. constructor.
  - reflexivity.
  - exact H.
Defined.

Lemma predict_with_confidence_picks_the_maximum_witness :
  predict_with_confidence Sample.Features (Sample.classifier (PyInt 2) [0.2; 0.3; 0.5]) tt
  = Some (LInt 2, 0.5, of_zip label_eqb [LInt 0; LInt 1; LInt 2] [0.2; 0.3; 0.5])
  /\ Forall (fun q => q <= 0.5) [0.2; 0.3; 0.5].
Proof.
  assert (H : predict_with_confidence Sample.Features
                (Sample.classifier (PyInt 2) [0.2; 0.3; 0.5]) tt
              = Some (LInt 2, 0.5, of_zip label_eqb [LInt 0; LInt 1; LInt 2]
                                     [0.2; 0.3; 0.5])) by reflexivity.
  split; [exact H|].
  exact (proj1 (proj2 (predict_with_confidence_picks_the_maximum Sample.Features
                         (Sample.classifier (PyInt 2) [0.2; 0.3; 0.5]) tt
                         (fun _ => Some [0.2; 0.3; 0.5]) [0.2; 0.3; 0.5]
                         [LInt 0; LInt 1; LInt 2] (LInt 2) 0.5 _
                         eq_refl eq_refl eq_refl H))).
Defined.


Lemma fallback_predicts_the_favourite_witness :
  let r := form_based_fallback Sample.md5_prefix Literal.to_datetime
             Sample.load_football_data Sample.other_teams "Arsenal" "Chelsea" in
  get Z.eqb (probabilities r) (prediction_number r) 0 == confidence r
  /\ outcome r = outcome_map (prediction_number r).
Proof.
  apply (proj1 (fallback_predicts_the_favourite Sample.md5_prefix Literal.to_datetime
                  Sample.load_football_data Sample.other_teams "Arsenal" "Chelsea")).
  intro H. vm_compute in H. discriminate H.
Defined.

Lemma sample_classifier_well_formed (pred : pyval) :
  well_formed_classifier Sample.Features (Sample.classifier pred [0.2; 0.3; 0.5]).
Proof.
  exists [LInt 0; LInt 1; LInt 2], (fun _ => Some [0.2; 0.3; 0.5]).
  split; [reflexivity|]. split; [reflexivity|].
  intro x. exists [0.2; 0.3; 0.5]. split; [reflexivity|]. split; [discriminate|reflexivity].
Defined.

Lemma same_category_pair_gets_a_result_witness :
  both_in Sample.main_teams "Arsenal" "Chelsea" = true
  /\ exists r,
       run_engine "Arsenal" "Chelsea"
         (Some (Sample.classifier (PyInt 2) [0.2; 0.3; 0.5]))
         (Some (Sample.classifier (PyInt 0) [0.2; 0.3; 0.5])) = Some r.
Proof.
  assert (H : both_in Sample.main_teams "Arsenal" "Chelsea" = true)
    by (vm_compute; reflexivity).
  split; [exact H|].
  apply (same_category_pair_gets_a_result Literal.float_of_str Sample.md5_prefix
           Literal.to_datetime Sample.load_football_data Sample.Features
           Sample.main_teams Sample.other_teams Sample.preprocess_for_models
           Sample.compute_mean_for_teams Literal.int_of_str "Arsenal" "Chelsea").
  - apply sample_classifier_well_formed.
  - apply sample_classifier_well_formed.
  - left. exact H.
Defined.


Lemma smart_prediction_kinds_witness :
  exists s,
    smart_prediction_logic "Away" 0.6 0.25 0.15 = Some s
    /\ ((prediction_type s = "Single" /\ smart_prediction s = "Away")
        \/ (prediction_type s = "Double Chance"
            /\ (smart_prediction s = "1X" \/ smart_prediction s = "X2"
                \/ smart_prediction s = "12"))
        \/ (prediction_type s = "Adjusted" /\ smart_prediction s <> "Away"
            /\ ((smart_prediction s = "Home" /\ 0.5 < 0.6)
                \/ (smart_prediction s = "Away" /\ 0.5 < 0.15)))).
Proof.
  apply (smart_prediction_kinds "Away" 0.6 0.25 0.15). right; right; reflexivity.
Defined.

Lemma smart_confidence_bounds_witness :
  exists s,
    smart_prediction_logic "Away" 0.6 0.25 0.15 = Some s
    /\ 0 <= smart_confidence s <= Qmax_list 0.6 [0.25; 0.15].
Proof.
  eexists. split; [reflexivity|].
  apply (smart_confidence_bounds "Away" 0.6 0.25 0.15); [lra | lra | lra | reflexivity].
Defined.

Lemma smart_logic_accepts_engine_outcomes_witness :
  exists r,
    run_engine "Arsenal" "Chelsea" (Some (Sample.classifier (PyInt 2) [0.2; 0.3; 0.5])) None
    = Some r
    /\ exists s, smart_prediction_logic (outcome r) 0.2 0.6 0.2 = Some s.
Proof.
  eexists. split; [vm_compute; reflexivity|].
  apply (smart_logic_accepts_engine_outcomes Literal.float_of_str Sample.md5_prefix
           Literal.to_datetime Sample.load_football_data Sample.Features
           Sample.main_teams Sample.other_teams Sample.preprocess_for_models
           Sample.compute_mean_for_teams Literal.int_of_str "Arsenal" "Chelsea"
           (Some (Sample.classifier (PyInt 2) [0.2; 0.3; 0.5])) None).
  vm_compute; reflexivity.
Defined.

Lemma smart_logic_key_error_witness :
  ~ is_outcome "1"
  /\ (smart_prediction_logic "1" 0.2 0.6 0.2 = None <-> 0.5 < 0.6).
Proof.
  assert (H : ~ is_outcome "1") by (intros [H | [H | H]]; discriminate).
  split; [exact H|]. apply (smart_logic_key_error "1" 0.2 0.6 0.2 H).
Defined.


Lemma recent_form_features_bounds_witness :
  let df := [ {| fixture_of := Sample.fixture "Basel" "Zurich" "H" "2024-04-01";
                 FTHG := Some 2; FTAG := Some 1 |};
              {| fixture_of := Sample.fixture "Zurich" "Basel" "D" "2023-11-05";
                 FTHG := Some 0; FTAG := Some 0 |} ] in
  exists f,
    calculate_recent_form_features df 2 "Basel" = Some f
    /\ (wins f <= 5)%nat
    /\ (3 * Z.of_nat (wins f) <= points f <= 2 * Z.of_nat (wins f) + 5)%Z
    /\ (points f <= 15)%Z.
Proof.
  cbv zeta. eexists. split; [vm_compute; reflexivity|].
  apply (recent_form_features_bounds
           [ {| fixture_of := Sample.fixture "Basel" "Zurich" "H" "2024-04-01";
                FTHG := Some 2; FTAG := Some 1 |};
             {| fixture_of := Sample.fixture "Zurich" "Basel" "D" "2023-11-05";
                FTHG := Some 0; FTAG := Some 0 |} ] 2 "Basel").
  vm_compute; reflexivity.
Defined.
